(** * Lead-generation pipeline: domain verification, fingerprinting, scoring

    A shallow embedding of the core of the marketing-agent crawler:
    - [domain_verification.py]  (class [DomainVerifier],
      [verify_website_from_company]),
    - [enhanced_tech_detection.py] (class [TechStackDetector]),
    - [sales_viability_filter.py] (class [SalesViabilityFilter]),
    - the inline "pure script-based scoring" block of [crawl_verified.py]
      and [verified_unlimited_crawl.py].

    Python [int] is [Z], [len] results are [nat], [str] is [string]
    (byte strings restricted to ASCII: [str.lower] and [str.split] are
    modelled on the ASCII range), [dict]s with a fixed key set are records,
    open [dict]s are [gmap]s, and exceptions are values of the sum type
    [outcome]. *)

From Stdlib Require Import ZArith Ascii String DecimalString.
From stdpp Require Import base option list gmap strings sorting.

Set Warnings "-register-all".

Local Open Scope string_scope.
Local Open Scope Z_scope.
Local Open Scope list_scope.

(** ** Python string primitives *)

Module PyStr.

(** [str.lower] on one ASCII character. *)
Definition lower_ascii (c : ascii) : ascii :=
  let n := nat_of_ascii c in
  if (65 <=? n)%nat && (n <=? 90)%nat then ascii_of_nat (n + 32) else c.

(** [s.lower()] *)
Fixpoint lower (s : string) : string :=
  match s with
  | EmptyString => EmptyString
  | String c s' => String (lower_ascii c) (lower s')
  end.

(** [s.startswith(p)] *)
Fixpoint startswith (s p : string) {struct p} : bool :=
  match p, s with
  | EmptyString, _ => true
  | String _ _, EmptyString => false
  | String a p', String b s' => if Ascii.eqb a b then startswith s' p' else false
  end.

(** [needle in hay] for two strings. *)
Fixpoint contains (needle hay : string) : bool :=
  startswith hay needle ||
  match hay with
  | EmptyString => false
  | String _ hay' => contains needle hay'
  end.

(** [s.replace(c, by)] for a one-character pattern [c]. *)
Fixpoint replace_char (c : ascii) (by_ : string) (s : string) : string :=
  match s with
  | EmptyString => EmptyString
  | String a s' =>
      if Ascii.eqb a c then by_ +:+ replace_char c by_ s'
      else String a (replace_char c by_ s')
  end.

(** [c.isspace()] on the ASCII range: TAB, LF, VT, FF, CR, the four
    separators FS, GS, RS, US, and the space. *)
Definition isspace (c : ascii) : bool :=
  let n := nat_of_ascii c in
  ((9 <=? n)%nat && (n <=? 13)%nat) || ((28 <=? n)%nat && (n <=? 32)%nat).

Fixpoint lstrip (s : string) : string :=
  match s with
  | EmptyString => EmptyString
  | String c s' => if isspace c then lstrip s' else s
  end.

Fixpoint take_word (s : string) : string :=
  match s with
  | EmptyString => EmptyString
  | String c s' => if isspace c then EmptyString else String c (take_word s')
  end.

(** [s.split()[0]]: the first whitespace-delimited word; [None] stands
    for the [IndexError] raised when [s.split()] is empty. *)
Definition split_first (s : string) : option string :=
  match lstrip s with
  | EmptyString => None
  | w => Some (take_word w)
  end.

(** [str(n)] for a length or a count. *)
Definition of_nat (n : nat) : string := NilZero.string_of_uint (Nat.to_uint n).

(** [str(n)] for an [int]. *)
Definition of_Z (n : Z) : string := NilZero.string_of_int (Z.to_int n).

(** [s.find(c)] for a one-character pattern: the first index, or -1. *)
Fixpoint find_char (c : ascii) (s : string) : Z :=
  match s with
  | EmptyString => -1
  | String a s' =>
      if Ascii.eqb a c then 0
      else let i := find_char c s' in if i <? 0 then -1 else i + 1
  end.

(** [s.rfind(c)] for a one-character pattern: the last index, or -1. *)
Fixpoint rfind_char (c : ascii) (s : string) : Z :=
  match s with
  | EmptyString => -1
  | String a s' =>
      let i := rfind_char c s' in
      if 0 <=? i then i + 1
      else if Ascii.eqb a c then 0 else -1
  end.

(** [s[i:j]] for [0 <= i <= j]. *)
Definition slice (s : string) (i j : Z) : string :=
  String.substring (Z.to_nat i) (Z.to_nat (j - i)) s.

(** Truthiness of an optional string ([None] and [""] are falsy). *)
Definition truthy (o : option string) : bool :=
  match o with
  | None | Some EmptyString => false
  | Some _ => true
  end.

End PyStr.

(** ** Exceptions *)

(** The exception classes the handlers of the program tell apart. Every
    one of them is a subclass of [Exception]. *)
Inductive exn_class :=
| Timeout            (* requests.exceptions.Timeout and its subclasses *)
| ConnectionError    (* requests.exceptions.ConnectionError, not a Timeout *)
| Gaierror           (* socket.gaierror *)
| TimeoutExpired     (* subprocess.TimeoutExpired *)
| JSONDecodeError    (* json.JSONDecodeError, a ValueError *)
| ValueError
| TypeError
| AttributeError
| KeyError
| IndexError
| OtherError (name : string).

Record exn := { exn_cls : exn_class; exn_str : string }.

Inductive outcome (A : Type) :=
| Returned (a : A)
| Raised (e : exn).
Arguments Returned {A} a.
Arguments Raised {A} e.

(** ** JSON values *)

(** A value produced by [json.loads] ([JNull] is [None]); an object lists
    the items of the dict in insertion order (keys are distinct). A float
    carries its literal and whether it is non-zero, which is all the program
    can observe of it. *)
Inductive json :=
| JNull
| JBool (b : bool)
| JNum (n : Z)
| JFloat (nonzero : bool) (literal : string)
| JStr (s : string)
| JArr (items : list json)
| JObj (members : list (string * json)).

(** ** Data model ([enhanced_tech_detection.py]) *)

(** One entry of [result["vulnerable_plugins"]]. *)
Record VulnerablePlugin := {
  vp_name : string;
  vp_version : json;
  vp_vulnerabilities : nat
}.

(** The dict built by [detect_server_info]. *)
Record ServerInfo := {
  srv_server : option string;
  srv_version : option string;
  srv_outdated : bool;
  srv_framework : option string;
  srv_powered_by : option string;
  srv_security_headers : gmap string string
}.

(** The dict built by [detect_wordpress]. *)
Record WordPressInfo := {
  wp_is_wordpress : bool;
  wp_version : json;
  wp_plugins : list string;
  wp_vulnerable_plugins : list VulnerablePlugin;
  wp_themes : list string;
  wp_vulnerabilities : nat;
  wp_outdated_core : bool
}.

(** The dict built by [detect_other_cms]. *)
Record OtherCms := {
  cms_type : option string;
  cms_version : option string;
  cms_outdated : bool
}.

(** The dict built by [analyze_tech_stack]. *)
Record TechStack := {
  ts_server : ServerInfo;
  ts_wordpress : WordPressInfo;
  ts_other_cms : OtherCms;
  ts_scan_timestamp : string
}.

(** The dict built by [extract_sales_signals]. *)
Record SalesSignals := {
  has_outdated_server : bool;
  has_outdated_cms : bool;
  has_vulnerable_plugins : bool;
  has_poor_security : bool;
  opportunity_score : Z;
  pain_points : list string
}.

(** ** Exclusion keywords ([SalesViabilityFilter.EXCLUDE_KEYWORDS]) *)

Definition EXCLUDE_KEYWORDS : list string :=
  [ "verizon"; "at&t"; "tmobile"; "t-mobile";
    "google"; "amazon"; "microsoft"; "apple"; "facebook"; "meta";
    "dell"; "hp"; "lenovo"; "cisco"; "ibm";
    "fortune 500"; "multinational"; "nasdaq"; "nyse";
    "bank"; "bank of"; "capital one"; "chase"; "wells fargo";
    "mcdonalds"; "walmart"; "target"; "costco"; "target";
    "federal"; "government"; "military"; "defense";
    "tesla"; "uber"; "lyft"; "airbnb" ].

(** ** The script-based scorer ([crawl_verified.py], lines 152-195) *)

(** The three local variables of the scoring block. *)
Record Scoring := {
  score : Z;
  recommendation : string;
  reasons : list string
}.

(** The [for keyword in EXCLUDE_KEYWORDS: if keyword in company_lower: ...
    break] loop. *)
Fixpoint exclusion_loop (keywords : list string) (company_lower : string)
    (st : Scoring) : Scoring :=
  match keywords with
  | [] => st
  | keyword :: rest =>
      if PyStr.contains keyword company_lower then
        {| score := 0;
           recommendation := "EXCLUDE";
           reasons := ["Matches exclusion keyword: " +:+ keyword] |}
      else exclusion_loop rest company_lower st
  end.

(** The body of [if recommendation != "EXCLUDE":]. The two copies of the
    block differ only in the wording of two reason strings, passed here as
    [server_label] and [outdated_label]. *)
Definition tech_scoring (server_label outdated_label : string)
    (tech_stack : TechStack) (st : Scoring) : Scoring :=
  let score := score st in
  let reasons := reasons st in
  let '(score, reasons) :=
    if wp_is_wordpress (ts_wordpress tech_stack)
    then (score + 20, reasons ++ ["WordPress detected"])
    else (score, reasons) in
  let '(score, reasons) :=
    if PyStr.truthy (srv_server (ts_server tech_stack))
    then (score + 15,
          reasons ++ [server_label +:+ default "" (srv_server (ts_server tech_stack))])
    else (score, reasons) in
  let vulnerable_count := length (wp_vulnerable_plugins (ts_wordpress tech_stack)) in
  let '(score, reasons) :=
    if (0 <? Z.of_nat vulnerable_count)
    then (score + 25, reasons ++ [PyStr.of_nat vulnerable_count +:+ " vulnerable plugins"])
    else (score, reasons) in
  let '(score, reasons) :=
    if wp_outdated_core (ts_wordpress tech_stack)
    then (score + 15, reasons ++ [outdated_label])
    else (score, reasons) in
  let security_headers := size (srv_security_headers (ts_server tech_stack)) in
  let '(score, reasons) :=
    if (Z.of_nat security_headers =? 0)
    then (score + 10, reasons ++ ["Missing security headers"])
    else (score, reasons) in
  let score := Z.min score 100 in
  let recommendation :=
    if 70 <=? score then "CONTACT"
    else if 50 <=? score then "MAYBE"
    else "EXCLUDE" in
  {| score := score; recommendation := recommendation; reasons := reasons |}.

Definition script_score (server_label outdated_label : string)
    (name : string) (tech_stack : TechStack) : Scoring :=
  let st := {| score := 50; recommendation := "MAYBE"; reasons := [] |} in
  let company_lower := PyStr.lower name in
  let st := exclusion_loop EXCLUDE_KEYWORDS company_lower st in
  if negb (String.eqb (recommendation st) "EXCLUDE")
  then tech_scoring server_label outdated_label tech_stack st
  else st.

(** [crawl_verified.py], [run_crawl]. *)
Definition run_crawl_score : string -> TechStack -> Scoring :=
  script_score "Server: " "Outdated WordPress".

(** [verified_unlimited_crawl.py], [main]. *)
Definition main_score : string -> TechStack -> Scoring :=
  script_score "Server detected: " "Outdated WordPress core".

(** The name, lower-cased, contains one of the exclusion keywords. *)
Definition matches_exclusion (name : string) : bool :=
  existsb (fun keyword => PyStr.contains keyword (PyStr.lower name)) EXCLUDE_KEYWORDS.

(** ** I/O history and the environment *)

(** What the program does to the outside world, oldest event first. *)
Inductive io_event :=
| DnsLookup (domain : string)         (* socket.gethostbyname(domain) *)
| HttpHead (url : string)             (* requests.head(url, ...) *)
| HttpGet (url : string)              (* requests.get(url, ...) *)
| Sleep                               (* time.sleep(0.5) *)
| RunProcess (argv : list string).    (* subprocess.run(argv, ...) *)

Definition history := list io_event.

(** A [requests.Response]: [headers] is the lookup of the case-insensitive
    header dict. *)
Record Response := {
  status_code : Z;
  headers : string -> option string;
  text : string
}.

(** A [subprocess.CompletedProcess]. *)
Record CompletedProcess := {
  returncode : Z;
  stdout : string
}.

(** The regular expressions passed to [re.search]; [re_search] returns
    [group(1)] of the leftmost match.
    - [ApacheVersion]: Apache/(\d+\.\d+)
    - [WpVersion]: the assignment to $wp_version in version.php
    - [DrupalVersion]: drupal\s+(\d+\.\d+) *)
Inductive pattern := ApacheVersion | WpVersion | DrupalVersion.

(** The environment: the network, the external tools and the library
    functions ([urllib], [json], [re], [int]) the program calls. A request
    is answered as a function of everything that happened before it, so
    two requests for one URL may be answered differently. *)
Record World := {
  gethostbyname : history -> string -> outcome string;
  requests_head : history -> string -> outcome Response;
  requests_get : history -> string -> outcome Response;
  subprocess_run : history -> list string -> string -> outcome CompletedProcess;
  (* urlparse(url): the pair (netloc, path) *)
  urlparse : string -> outcome (string * string);
  json_loads : string -> outcome json;
  re_search : pattern -> string -> option string;
  int_of_str : string -> outcome Z;
  now_isoformat : history -> string;
  (* str(v), as an f-string renders a value *)
  str_of_json : json -> string;
  (* the prompt f-string of assess_sales_fit, with json.dumps of both dicts *)
  llm_prompt : string -> string -> string -> Z -> TechStack -> SalesSignals -> string
}.

(** ** Computations: local state [S], the I/O history, and exceptions.
    The state survives a raised exception, as a mutated dict does. *)

Definition Py (S A : Type) : Type := S -> history -> outcome A * S * history.

Definition ret {S A} (a : A) : Py S A := fun s h => (Returned a, s, h).

Definition raise {S A} (e : exn) : Py S A := fun s h => (Raised e, s, h).

Definition bind {S A B} (m : Py S A) (k : A -> Py S B) : Py S B :=
  fun s h =>
    match m s h with
    | (Returned a, s', h') => k a s' h'
    | (Raised e, s', h') => (Raised e, s', h')
    end.

Notation "x <- m ;; k" := (bind m (fun x => k))
  (at level 100, m at next level, right associativity).
Notation "m ;;; k" := (bind m (fun _ => k))
  (at level 100, right associativity).

(** [try: body except Exception as e: handler e] *)
Definition try_except {S A} (body : Py S A) (handler : exn -> Py S A) : Py S A :=
  fun s h =>
    match body s h with
    | (Returned a, s', h') => (Returned a, s', h')
    | (Raised e, s', h') => handler e s' h'
    end.

Definition get_state {S} : Py S S := fun s h => (Returned s, s, h).
Definition modify {S} (f : S -> S) : Py S unit := fun s h => (Returned tt, f s, h).

(** One call to the outside: the environment answers from the history, and
    the call is recorded. *)
Definition perform {S A} (ev : io_event) (answer : history -> outcome A) : Py S A :=
  fun s h => (answer h, s, h ++ [ev]).

Definition of_outcome {S A} (o : outcome A) : Py S A := fun s h => (o, s, h).

(** ** [domain_verification.py] *)

(** The tuple [(success, status_code, server_header or error_message)]. *)
Definition http_result : Type := bool * option Z * string.

(** A [DomainVerifier] instance. *)
Record DomainVerifier := {
  timeout : Z;
  retries : nat;
  cache : gmap string http_result
}.

(** [DomainVerifier(timeout=5, retries=2)] *)
Definition new_DomainVerifier : DomainVerifier :=
  {| timeout := 5; retries := 2; cache := ∅ |}.

Definition cache_store (key : string) (r : http_result) (self : DomainVerifier)
    : DomainVerifier :=
  {| timeout := timeout self; retries := retries self;
     cache := <[key := r]> (cache self) |}.

(** The dict returned by [verify_domain]. *)
Record VerificationResult := {
  vr_verified : bool;
  vr_domain : option string;
  vr_dns_valid : bool;
  vr_dns_ip : option string;
  vr_http_responds : bool;
  vr_http_status : option Z;
  vr_server : option string;
  vr_error : option string
}.

(** [get_domain_from_url]; [None] is Python's [None]. *)
Definition get_domain_from_url (w : World) (url : string) : option string :=
  if String.eqb url "" then None
  else
    let url :=
      if PyStr.startswith url "http://" || PyStr.startswith url "https://"
         || PyStr.startswith url "//"
      then url else "http://" +:+ url in
    match urlparse w url with
    | Returned (netloc, path) => Some (if String.eqb netloc "" then path else netloc)
    | Raised _ => None
    end.

(** [domain_has_dns] *)
Definition domain_has_dns {S} (w : World) (domain : string) : Py S (bool * string) :=
  if String.eqb domain "" then ret (false, "Empty domain")
  else
    try_except
      (ip <- perform (DnsLookup domain) (fun h => gethostbyname w h domain) ;;
       ret (true, ip))
      (fun e =>
         match exn_cls e with
         | Gaierror => ret (false, "DNS resolution failed")
         | _ => ret (false, "DNS error: " +:+ exn_str e)
         end).

(** The body of [for attempt in range(self.retries):]. [Some result] is
    the [return result] of the success path, [None] falls through to the
    next iteration of this same loop ([continue], or the end of the body
    after the sleep). *)
Definition http_attempt (w : World) (cache_key url : string) (attempt : nat)
    : Py DomainVerifier (option http_result) :=
  try_except
    (response <- perform (HttpHead url) (fun h => requests_head w h url) ;;
     let server := default "Unknown" (headers response "Server") in
     let result := (true, Some (status_code response), server) in
     modify (cache_store cache_key result) ;;;
     ret (Some result))
    (fun e =>
       match exn_cls e with
       | Timeout =>
           self <- get_state ;;
           if Z.of_nat attempt =? Z.of_nat (retries self) - 1
           then ret None
           else perform Sleep (fun _ => Returned tt) ;;; ret None
       | ConnectionError => ret None
       | _ => ret None
       end).

Fixpoint attempts_loop (w : World) (cache_key url : string) (attempts : list nat)
    : Py DomainVerifier (option http_result) :=
  match attempts with
  | [] => ret None
  | attempt :: rest =>
      r <- http_attempt w cache_key url attempt ;;
      match r with
      | Some result => ret (Some result)
      | None => attempts_loop w cache_key url rest
      end
  end.

(** [for url in urls_to_try:] *)
Fixpoint urls_loop (w : World) (cache_key : string) (urls_to_try : list string)
    : Py DomainVerifier (option http_result) :=
  match urls_to_try with
  | [] => ret None
  | url :: rest =>
      self <- get_state ;;
      r <- attempts_loop w cache_key url (seq 0 (retries self)) ;;
      match r with
      | Some result => ret (Some result)
      | None => urls_loop w cache_key rest
      end
  end.

(** [domain_responds_to_http] *)
Definition domain_responds_to_http (w : World) (domain : string)
    : Py DomainVerifier http_result :=
  if String.eqb domain "" then ret (false, None, "Empty domain")
  else
    let cache_key := "http_check:" +:+ domain in
    self <- get_state ;;
    match cache self !! cache_key with
    | Some cached => ret cached
    | None =>
        let urls_to_try := ["https://" +:+ domain; "http://" +:+ domain] in
        r <- urls_loop w cache_key urls_to_try ;;
        match r with
        | Some result => ret result
        | None =>
            let result := (false, None, "No HTTP response") in
            modify (cache_store cache_key result) ;;;
            ret result
        end
    end.

(** [verify_domain] *)
Definition verify_domain (w : World) (domain : string)
    (require_dns require_http : bool) : Py DomainVerifier VerificationResult :=
  if String.eqb domain "" then
    ret {| vr_verified := false; vr_domain := Some domain; vr_dns_valid := false;
           vr_dns_ip := None; vr_http_responds := false; vr_http_status := None;
           vr_server := None; vr_error := Some "Empty domain" |}
  else
    match get_domain_from_url w domain with
    | None | Some EmptyString =>
        ret {| vr_verified := false; vr_domain := Some domain;
               vr_dns_valid := false; vr_dns_ip := None;
               vr_http_responds := false; vr_http_status := None;
               vr_server := None; vr_error := Some "Invalid domain format" |}
    | Some clean_domain =>
        (* Check DNS; [inl] carries the result on, [inr] is the early return *)
        dns_step <-
          (if require_dns then
             dns <- domain_has_dns w clean_domain ;;
             let '(dns_ok, dns_info) := dns in
             if dns_ok : bool then
               ret (inl (true, Some dns_info))
             else
               ret (inr
                 {| vr_verified := false; vr_domain := Some clean_domain;
                    vr_dns_valid := dns_ok; vr_dns_ip := None;
                    vr_http_responds := false; vr_http_status := None;
                    vr_server := None; vr_error := Some dns_info |})
           else ret (inl (false, None))) ;;
        match dns_step with
        | inr stopped => ret stopped
        | inl (dns_valid, dns_ip) =>
            (* Check HTTP *)
            if require_http then
              http <- domain_responds_to_http w clean_domain ;;
              let '(http_ok, status_code, server_info) := http in
              if http_ok : bool then
                ret {| vr_verified := true; vr_domain := Some clean_domain;
                       vr_dns_valid := dns_valid; vr_dns_ip := dns_ip;
                       vr_http_responds := http_ok; vr_http_status := status_code;
                       vr_server := Some server_info; vr_error := None |}
              else
                ret {| vr_verified := false; vr_domain := Some clean_domain;
                       vr_dns_valid := dns_valid; vr_dns_ip := dns_ip;
                       vr_http_responds := http_ok; vr_http_status := None;
                       vr_server := None; vr_error := Some server_info |}
            else
              ret {| vr_verified := false; vr_domain := Some clean_domain;
                     vr_dns_valid := dns_valid; vr_dns_ip := dns_ip;
                     vr_http_responds := false; vr_http_status := None;
                     vr_server := None; vr_error := None |}
        end
    end.

(** The candidate name patterns of the guessing fallback:
    [[name.lower().replace(' ', ''), name.lower().replace(' ', '-'),
      name.lower().split()[0]]]. Building the list raises [IndexError] when
    the name has no word. *)
Definition guess_patterns (company_name : string) : outcome (list string) :=
  match PyStr.split_first (PyStr.lower company_name) with
  | None => Raised {| exn_cls := IndexError; exn_str := "list index out of range" |}
  | Some first_word =>
      Returned [ PyStr.replace_char " " "" (PyStr.lower company_name);
                 PyStr.replace_char " " "-" (PyStr.lower company_name);
                 first_word ]
  end.

Definition TLDS : list string := ["com"; "net"; "org"; "biz"].

(** [for tld in ['com', 'net', 'org', 'biz']:] with its exit on the first
    verified result ([return result] in [verify_website_from_company],
    [found = True; break] in [run_crawl]). *)
Fixpoint tld_loop (w : World) (pattern : string) (tlds : list string)
    : Py DomainVerifier (option VerificationResult) :=
  match tlds with
  | [] => ret None
  | tld :: rest =>
      let domain := pattern +:+ "." +:+ tld in
      result <- verify_domain w domain true true ;;
      if vr_verified result then ret (Some result)
      else tld_loop w pattern rest
  end.

(** [for pattern in patterns:] ([if found: break] in [run_crawl]). *)
Fixpoint pattern_loop (w : World) (patterns : list string)
    : Py DomainVerifier (option VerificationResult) :=
  match patterns with
  | [] => ret None
  | pattern :: rest =>
      r <- tld_loop w pattern TLDS ;;
      match r with
      | Some result => ret (Some result)
      | None => pattern_loop w rest
      end
  end.

(** The outcome of [verify_website_from_company]: a verified
    [verify_domain] dict, or the three-key failure dict with its error. *)
Inductive company_verification :=
| CompanyVerified (result : VerificationResult)
| CompanyUnverified (error : string).

(** The statements of [verify_website_from_company] that follow
    [verifier = DomainVerifier()], run on that verifier.
    [website_url = None] is Python's default. *)
Definition verify_website_with (w : World) (company_name : string)
    (website_url : option string) : Py DomainVerifier company_verification :=
  first <-
    (if PyStr.truthy website_url then
       result <- verify_domain w (default "" website_url) true true ;;
       ret (if vr_verified result then Some result else None)
     else ret None) ;;
  match first with
  | Some result => ret (CompanyVerified result)
  | None =>
      patterns <- of_outcome (guess_patterns company_name) ;;
      r <- pattern_loop w patterns ;;
      match r with
      | Some result => ret (CompanyVerified result)
      | None =>
          ret (CompanyUnverified ("Could not verify domain for " +:+ company_name))
      end
  end.

(** [verify_website_from_company(company_name, website_url)], called when
    the history is [h]: it creates its own [DomainVerifier()], which is gone
    when it returns. *)
Definition verify_website_from_company (w : World) (company_name : string)
    (website_url : option string) (h : history)
    : outcome company_verification * history :=
  match verify_website_with w company_name website_url new_DomainVerifier h with
  | (r, _, h') => (r, h')
  end.

(** The domain-verification step of [run_crawl] for one business (lines
    87-122 of [crawl_verified.py]): [Some result] is the entry appended to
    [verified_businesses]. The verifier is the one shared by the run. *)
Definition run_crawl_verify (w : World) (company_name website_provided : string)
    : Py DomainVerifier (option VerificationResult) :=
  first <-
    (if negb (String.eqb website_provided "") then
       result <- verify_domain w website_provided true true ;;
       ret (if vr_verified result then Some result else None)
     else ret None) ;;
  match first with
  | Some result => ret (Some result)
  | None =>
      patterns <- of_outcome (guess_patterns company_name) ;;
      pattern_loop w patterns
  end.

(** ** Python operations on JSON values, with the exceptions they raise *)

Module PyJson.

Definition err (c : exn_class) (msg : string) : exn :=
  {| exn_cls := c; exn_str := msg |}.

Fixpoint lookup (key : string) (members : list (string * json)) : option json :=
  match members with
  | [] => None
  | (k, v) :: rest => if String.eqb k key then Some v else lookup key rest
  end.

(** [bool(j)] *)
Definition truthy (j : json) : bool :=
  match j with
  | JNull => false
  | JBool b => b
  | JNum n => negb (n =? 0)
  | JFloat nonzero _ => nonzero
  | JStr s => negb (String.eqb s "")
  | JArr items => negb (Nat.eqb (length items) 0)
  | JObj members => negb (Nat.eqb (length members) 0)
  end.

Definition is_str (s : string) (j : json) : bool :=
  match j with
  | JStr s' => String.eqb s' s
  | _ => false
  end.

(** [key in j] *)
Definition contains (key : string) (j : json) : outcome bool :=
  match j with
  | JObj members => Returned (bool_decide (is_Some (lookup key members)))
  | JArr items => Returned (existsb (is_str key) items)
  | JStr s => Returned (PyStr.contains key s)
  | _ => Raised (err TypeError "argument is not iterable")
  end.

(** [j[key]] *)
Definition getitem (j : json) (key : string) : outcome json :=
  match j with
  | JObj members =>
      match lookup key members with
      | Some v => Returned v
      | None => Raised (err KeyError key)
      end
  | _ => Raised (err TypeError "indices must be integers or object is not subscriptable")
  end.

(** [j.items()] *)
Definition items (j : json) : outcome (list (string * json)) :=
  match j with
  | JObj members => Returned members
  | _ => Raised (err AttributeError "object has no attribute 'items'")
  end.

(** [j.get(key, dflt)] *)
Definition get (j : json) (key : string) (dflt : json) : outcome json :=
  match j with
  | JObj members => Returned (default dflt (lookup key members))
  | _ => Raised (err AttributeError "object has no attribute 'get'")
  end.

(** [len(j)] *)
Definition len (j : json) : outcome nat :=
  match j with
  | JObj members => Returned (length members)
  | JArr items => Returned (length items)
  | JStr s => Returned (String.length s)
  | _ => Raised (err TypeError "object has no len()")
  end.

Fixpoint before_dot (s : string) : string :=
  match s with
  | EmptyString => EmptyString
  | String c s' => if Ascii.eqb c "." then EmptyString else String c (before_dot s')
  end.

(** [j.split('.')[0]] *)
Definition split_dot_first (j : json) : outcome string :=
  match j with
  | JStr s => Returned (before_dot s)
  | _ => Raised (err AttributeError "object has no attribute 'split'")
  end.

End PyJson.

(** ** [enhanced_tech_detection.py]: [TechStackDetector] *)

(** Runs a computation on a local variable of its own, initialised to
    [init]: the caller's state is untouched, the history is shared. *)
Definition with_local {S T A} (init : S) (m : Py S A) : Py T A :=
  fun t h => match m init h with (o, _, h') => (o, t, h') end.

Definition default_server_info : ServerInfo :=
  {| srv_server := None; srv_version := None; srv_outdated := false;
     srv_framework := None; srv_powered_by := None; srv_security_headers := ∅ |}.

Definition set_srv_server (v : option string) (r : ServerInfo) : ServerInfo :=
  {| srv_server := v; srv_version := srv_version r; srv_outdated := srv_outdated r;
     srv_framework := srv_framework r; srv_powered_by := srv_powered_by r;
     srv_security_headers := srv_security_headers r |}.
Definition set_srv_version (v : option string) (r : ServerInfo) : ServerInfo :=
  {| srv_server := srv_server r; srv_version := v; srv_outdated := srv_outdated r;
     srv_framework := srv_framework r; srv_powered_by := srv_powered_by r;
     srv_security_headers := srv_security_headers r |}.
Definition set_srv_outdated (v : bool) (r : ServerInfo) : ServerInfo :=
  {| srv_server := srv_server r; srv_version := srv_version r; srv_outdated := v;
     srv_framework := srv_framework r; srv_powered_by := srv_powered_by r;
     srv_security_headers := srv_security_headers r |}.
Definition set_srv_framework (v : option string) (r : ServerInfo) : ServerInfo :=
  {| srv_server := srv_server r; srv_version := srv_version r; srv_outdated := srv_outdated r;
     srv_framework := v; srv_powered_by := srv_powered_by r;
     srv_security_headers := srv_security_headers r |}.
Definition set_srv_powered_by (v : option string) (r : ServerInfo) : ServerInfo :=
  {| srv_server := srv_server r; srv_version := srv_version r; srv_outdated := srv_outdated r;
     srv_framework := srv_framework r; srv_powered_by := v;
     srv_security_headers := srv_security_headers r |}.
Definition add_security_header (name value : string) (r : ServerInfo) : ServerInfo :=
  {| srv_server := srv_server r; srv_version := srv_version r; srv_outdated := srv_outdated r;
     srv_framework := srv_framework r; srv_powered_by := srv_powered_by r;
     srv_security_headers := <[name := value]> (srv_security_headers r) |}.

Definition security_header_names : list string :=
  [ "Strict-Transport-Security"; "Content-Security-Policy";
    "X-Content-Type-Options"; "X-Frame-Options"; "X-XSS-Protection" ].

Definition when {S} (b : bool) (m : Py S unit) : Py S unit :=
  if b then m else ret tt.

(** [for header in security_header_names: if header in headers: ...] *)
Fixpoint security_headers_loop (hdrs : string -> option string) (names : list string)
    : Py ServerInfo unit :=
  match names with
  | [] => ret tt
  | header :: rest =>
      match hdrs header with
      | Some value => modify (add_security_header header value)
      | None => ret tt
      end ;;;
      security_headers_loop hdrs rest
  end.

(** [detect_server_info] *)
Definition detect_server_info {T} (w : World) (url : string) : Py T ServerInfo :=
  with_local default_server_info
    (try_except
       (response <- perform (HttpHead url) (fun h => requests_head w h url) ;;
        let headers := headers response in
        match headers "Server" with
        | Some server =>
            modify (set_srv_server (Some server)) ;;;
            when (PyStr.contains "Apache" server)
              match re_search w ApacheVersion server with
              | Some version =>
                  modify (set_srv_version (Some version)) ;;;
                  when (PyStr.startswith version "2.2") (modify (set_srv_outdated true))
              | None => ret tt
              end
        | None => ret tt
        end ;;;
        match headers "X-Powered-By" with
        | Some powered_by =>
            modify (set_srv_powered_by (Some powered_by)) ;;;
            when (PyStr.contains "PHP" powered_by) (modify (set_srv_framework (Some "PHP")))
        | None => ret tt
        end ;;;
        security_headers_loop headers security_header_names ;;;
        get_state)
       (fun e => get_state)).

Definition default_wordpress_info : WordPressInfo :=
  {| wp_is_wordpress := false; wp_version := JNull; wp_plugins := [];
     wp_vulnerable_plugins := []; wp_themes := []; wp_vulnerabilities := 0%nat;
     wp_outdated_core := false |}.

Definition set_wp_is_wordpress (v : bool) (r : WordPressInfo) : WordPressInfo :=
  {| wp_is_wordpress := v; wp_version := wp_version r; wp_plugins := wp_plugins r;
     wp_vulnerable_plugins := wp_vulnerable_plugins r; wp_themes := wp_themes r;
     wp_vulnerabilities := wp_vulnerabilities r; wp_outdated_core := wp_outdated_core r |}.
Definition set_wp_version (v : json) (r : WordPressInfo) : WordPressInfo :=
  {| wp_is_wordpress := wp_is_wordpress r; wp_version := v; wp_plugins := wp_plugins r;
     wp_vulnerable_plugins := wp_vulnerable_plugins r; wp_themes := wp_themes r;
     wp_vulnerabilities := wp_vulnerabilities r; wp_outdated_core := wp_outdated_core r |}.
Definition append_wp_plugin (v : string) (r : WordPressInfo) : WordPressInfo :=
  {| wp_is_wordpress := wp_is_wordpress r; wp_version := wp_version r;
     wp_plugins := wp_plugins r ++ [v];
     wp_vulnerable_plugins := wp_vulnerable_plugins r; wp_themes := wp_themes r;
     wp_vulnerabilities := wp_vulnerabilities r; wp_outdated_core := wp_outdated_core r |}.
Definition append_wp_vulnerable_plugin (v : VulnerablePlugin) (r : WordPressInfo)
    : WordPressInfo :=
  {| wp_is_wordpress := wp_is_wordpress r; wp_version := wp_version r;
     wp_plugins := wp_plugins r;
     wp_vulnerable_plugins := wp_vulnerable_plugins r ++ [v]; wp_themes := wp_themes r;
     wp_vulnerabilities := wp_vulnerabilities r; wp_outdated_core := wp_outdated_core r |}.
Definition set_wp_vulnerabilities (v : nat) (r : WordPressInfo) : WordPressInfo :=
  {| wp_is_wordpress := wp_is_wordpress r; wp_version := wp_version r;
     wp_plugins := wp_plugins r;
     wp_vulnerable_plugins := wp_vulnerable_plugins r; wp_themes := wp_themes r;
     wp_vulnerabilities := v; wp_outdated_core := wp_outdated_core r |}.
Definition set_wp_outdated_core (v : bool) (r : WordPressInfo) : WordPressInfo :=
  {| wp_is_wordpress := wp_is_wordpress r; wp_version := wp_version r;
     wp_plugins := wp_plugins r;
     wp_vulnerable_plugins := wp_vulnerable_plugins r; wp_themes := wp_themes r;
     wp_vulnerabilities := wp_vulnerabilities r; wp_outdated_core := v |}.

(** The double quote, which a string literal cannot hold. *)
Definition dquote : string := String (ascii_of_nat 34) EmptyString.

Definition wp_indicators : list string :=
  [ "wp-content"; "wp-includes"; "/wp-json/"; "wordpress";
    "<meta name=" +:+ dquote +:+ "generator" +:+ dquote +:+ " content="
      +:+ dquote +:+ "wordpress" ].

Definition wpscan_cmd (url : string) : list string :=
  [ "wpscan"; "--url"; url; "--enumerate"; "vp,ap";
    "--plugins-detection"; "aggressive"; "--format"; "json";
    "--no-banner"; "--disable-tls-checks" ].

(** [for plugin_name, plugin_data in wpscan_json['plugins'].items():] *)
Fixpoint plugins_loop (plugins : list (string * json)) : Py WordPressInfo unit :=
  match plugins with
  | [] => ret tt
  | (plugin_name, plugin_data) :: rest =>
      has <- of_outcome (PyJson.contains "vulnerabilities" plugin_data) ;;
      vulnerable <-
        (if has : bool then
           v <- of_outcome (PyJson.getitem plugin_data "vulnerabilities") ;;
           ret (PyJson.truthy v)
         else ret false) ;;
      when vulnerable
        (version <- of_outcome (PyJson.get plugin_data "version" (JStr "Unknown")) ;;
         v <- of_outcome (PyJson.getitem plugin_data "vulnerabilities") ;;
         n <- of_outcome (PyJson.len v) ;;
         modify (append_wp_vulnerable_plugin
                   {| vp_name := plugin_name; vp_version := version;
                      vp_vulnerabilities := n |})) ;;;
      modify (append_wp_plugin plugin_name) ;;;
      plugins_loop rest
  end.

(** The statements under [wpscan_json = json.loads(wpscan_result.stdout)]. *)
Definition read_wpscan_json (w : World) (wpscan_json : json) : Py WordPressInfo unit :=
  has_plugins <- of_outcome (PyJson.contains "plugins" wpscan_json) ;;
  when has_plugins
    (plugins <- of_outcome (PyJson.getitem wpscan_json "plugins") ;;
     plugin_items <- of_outcome (PyJson.items plugins) ;;
     plugins_loop plugin_items) ;;;
  has_version <- of_outcome (PyJson.contains "version" wpscan_json) ;;
  when has_version
    (version <- of_outcome (PyJson.getitem wpscan_json "version") ;;
     wp_version <- of_outcome (PyJson.get version "number" JNull) ;;
     when (PyJson.truthy wp_version)
       (modify (set_wp_version wp_version) ;;;
        major <- of_outcome (PyJson.split_dot_first wp_version) ;;
        major_version <- of_outcome (int_of_str w major) ;;
        when (major_version <? 5) (modify (set_wp_outdated_core true)))) ;;;
  result <- get_state ;;
  modify (set_wp_vulnerabilities (length (wp_vulnerable_plugins result))).

(** [detect_wordpress] *)
Definition detect_wordpress {T} (w : World) (url : string) : Py T WordPressInfo :=
  with_local default_wordpress_info
    (try_except
       (response <- perform (HttpGet url) (fun h => requests_get w h url) ;;
        let content := PyStr.lower (text response) in
        if negb (existsb (fun indicator => PyStr.contains indicator content) wp_indicators)
        then get_state
        else
          modify (set_wp_is_wordpress true) ;;;
          (* version.php *)
          try_except
            (let version_url := url +:+ "/wp-includes/version.php" in
             wp_response <- perform (HttpGet version_url)
                              (fun h => requests_get w h version_url) ;;
             match re_search w WpVersion (text wp_response) with
             | Some version => modify (set_wp_version (JStr version))
             | None => ret tt
             end)
            (fun _ => ret tt) ;;;
          (* WPScan *)
          try_except
            (wpscan_result <- perform (RunProcess (wpscan_cmd url))
                                (fun h => subprocess_run w h (wpscan_cmd url) "") ;;
             when (returncode wpscan_result =? 0)
               (try_except
                  (wpscan_json <- of_outcome (json_loads w (stdout wpscan_result)) ;;
                   read_wpscan_json w wpscan_json)
                  (fun e =>
                     match exn_cls e with
                     | JSONDecodeError => ret tt
                     | _ => raise e
                     end)))
            (fun e =>
               match exn_cls e with
               | TimeoutExpired => ret tt
               | _ => ret tt
               end) ;;;
          get_state)
       (fun e => get_state)).

Definition default_other_cms : OtherCms :=
  {| cms_type := None; cms_version := None; cms_outdated := false |}.

Definition set_cms_type (v : option string) (r : OtherCms) : OtherCms :=
  {| cms_type := v; cms_version := cms_version r; cms_outdated := cms_outdated r |}.
Definition set_cms_version (v : option string) (r : OtherCms) : OtherCms :=
  {| cms_type := cms_type r; cms_version := v; cms_outdated := cms_outdated r |}.

(** [detect_other_cms] *)
Definition detect_other_cms {T} (w : World) (url : string) : Py T OtherCms :=
  with_local default_other_cms
    (try_except
       (response <- perform (HttpGet url) (fun h => requests_get w h url) ;;
        let content := PyStr.lower (text response) in
        (if PyStr.contains "drupal" content || PyStr.contains "sites/all/modules" content
         then
           modify (set_cms_type (Some "Drupal")) ;;;
           match re_search w DrupalVersion content with
           | Some version => modify (set_cms_version (Some version))
           | None => ret tt
           end
         else if PyStr.contains "joomla" content
                 || PyStr.contains "administrator/index.php" content
         then modify (set_cms_type (Some "Joomla"))
         else if PyStr.contains "magento" content
                 || PyStr.contains "var/log/system.log" content
         then modify (set_cms_type (Some "Magento"))
         else ret tt) ;;;
        get_state)
       (fun e => get_state)).

(** [analyze_tech_stack] *)
Definition analyze_tech_stack {T} (w : World) (url : string) : Py T TechStack :=
  server <- detect_server_info w url ;;
  wordpress <- detect_wordpress w url ;;
  other_cms <- detect_other_cms w url ;;
  fun t h =>
    (Returned {| ts_server := server; ts_wordpress := wordpress;
                 ts_other_cms := other_cms;
                 ts_scan_timestamp := now_isoformat w h |}, t, h).

(** [extract_sales_signals] *)
Definition extract_sales_signals (w : World) (tech_stack : TechStack) : SalesSignals :=
  let opportunity_score := 0 in
  let pain_points : list string := [] in
  (* Server signals *)
  let has_outdated_server := srv_outdated (ts_server tech_stack) in
  let '(opportunity_score, pain_points) :=
    if has_outdated_server
    then (opportunity_score + 15,
          pain_points ++ ["Outdated server software - security risk"])
    else (opportunity_score, pain_points) in
  (* WordPress signals *)
  let wp_data := ts_wordpress tech_stack in
  let has_outdated_cms := wp_is_wordpress wp_data && wp_outdated_core wp_data in
  let '(opportunity_score, pain_points) :=
    if has_outdated_cms
    then (opportunity_score + 20,
          pain_points ++ ["Outdated WordPress " +:+ str_of_json w (wp_version wp_data)
                          +:+ " - needs upgrade"])
    else (opportunity_score, pain_points) in
  let has_vulnerable_plugins :=
    wp_is_wordpress wp_data
    && negb (Nat.eqb (length (wp_vulnerable_plugins wp_data)) 0) in
  let '(opportunity_score, pain_points) :=
    if has_vulnerable_plugins
    then (opportunity_score + 25,
          pain_points ++ [PyStr.of_nat (length (wp_vulnerable_plugins wp_data))
                          +:+ " vulnerable plugins detected"])
    else (opportunity_score, pain_points) in
  (* Security posture *)
  let security_headers := srv_security_headers (ts_server tech_stack) in
  let has_poor_security :=
    Nat.eqb (size security_headers) 0 || (Z.of_nat (size security_headers) <? 3) in
  let '(opportunity_score, pain_points) :=
    if has_poor_security
    then (opportunity_score + 10,
          pain_points ++ ["Missing critical security headers"])
    else (opportunity_score, pain_points) in
  {| has_outdated_server := has_outdated_server;
     has_outdated_cms := has_outdated_cms;
     has_vulnerable_plugins := has_vulnerable_plugins;
     has_poor_security := has_poor_security;
     opportunity_score := opportunity_score;
     pain_points := pain_points |}.

(** ** [sales_viability_filter.py]: [SalesViabilityFilter] *)

(** What [assess_sales_fit] returns: the tuple of the keyword filter and
    of the heuristic, or the three values read from the LLM's JSON answer,
    whatever their types. *)
Inductive sales_fit :=
| Scored (fit_score : Z) (fit_recommendation : string) (fit_reasons : list string)
| LlmAssessed (llm_score llm_recommendation llm_reasons : json).

(** [_heuristic_score] *)
Definition _heuristic_score (company_name location domain : string)
    (osint_findings : Z) (tech_stack : TechStack) (sales_signals : SalesSignals)
    : Z * string * list string :=
  let score := 50 in
  let reasons : list string := [] in
  (* Location scoring *)
  let '(score, reasons) :=
    if negb (String.eqb location "")
       && negb (bool_decide (PyStr.lower location ∈ ["online"; "unknown"]))
    then (score + 10, reasons ++ ["Local company: " +:+ location])
    else (score - 20, reasons ++ ["No clear local presence"]) in
  (* OSINT findings *)
  let '(score, reasons) :=
    if 0 <? osint_findings
    then (score + Z.min 20 osint_findings,
          reasons ++ ["Good OSINT data: " +:+ PyStr.of_Z osint_findings +:+ " findings"])
    else (score - 15, reasons ++ ["Minimal OSINT data found"]) in
  (* Tech stack indicators *)
  let wp_data := ts_wordpress tech_stack in
  let '(score, reasons) :=
    if wp_is_wordpress wp_data then
      let '(score, reasons) :=
        (score + 15, reasons ++ ["Uses WordPress - common platform"]) in
      let '(score, reasons) :=
        if negb (Nat.eqb (length (wp_vulnerable_plugins wp_data)) 0)
        then (score + 20,
              reasons ++ [PyStr.of_nat (length (wp_vulnerable_plugins wp_data))
                          +:+ " vulnerable plugins"])
        else (score, reasons) in
      if wp_outdated_core wp_data
      then (score + 15, reasons ++ ["Outdated WordPress - needs attention"])
      else (score, reasons)
    else (score, reasons) in
  (* Security signals *)
  let '(score, reasons) :=
    if has_poor_security sales_signals
    then (score + 10, reasons ++ ["Poor security posture - opportunity"])
    else (score, reasons) in
  let '(score, reasons) :=
    if has_outdated_server sales_signals
    then (score + 5, reasons ++ ["Outdated server software"])
    else (score, reasons) in
  (* Opportunity score from signals *)
  let score := score + opportunity_score sales_signals in
  (* Final recommendation *)
  let recommendation :=
    if 70 <=? score then "CONTACT"
    else if 50 <=? score then "MAYBE"
    else "EXCLUDE" in
  (score, recommendation, reasons).

(** The quick keyword filter at the head of [assess_sales_fit]: [Some] is
    the [return] inside the loop. *)
Fixpoint keyword_filter (keywords : list string) (company_lower : string)
    : option sales_fit :=
  match keywords with
  | [] => None
  | keyword :: rest =>
      if PyStr.contains keyword company_lower
      then Some (Scored 0 "EXCLUDE" ["Matches exclusion keyword: " +:+ keyword])
      else keyword_filter rest company_lower
  end.

(** The statements under [if result.returncode == 0:], inside their own
    [try]. [None] falls through to the heuristic. *)
Definition read_llm_answer {S} (w : World) (response_text : string)
    : Py S (option sales_fit) :=
  try_except
    (let json_start := PyStr.find_char "{" response_text in
     let json_end := PyStr.rfind_char "}" response_text + 1 in
     if (0 <=? json_start) && (json_start <? json_end) then
       let json_str := PyStr.slice response_text json_start json_end in
       assessment <- of_outcome (json_loads w json_str) ;;
       score <- of_outcome (PyJson.get assessment "score" (JNum 0)) ;;
       recommendation <-
         of_outcome (PyJson.get assessment "recommendation" (JStr "EXCLUDE")) ;;
       reasons <- of_outcome (PyJson.get assessment "reasons" (JArr [])) ;;
       ret (Some (LlmAssessed score recommendation reasons))
     else ret None)
    (fun e =>
       match exn_cls e with
       | JSONDecodeError | ValueError => ret None
       | _ => raise e
       end).

(** [assess_sales_fit] *)
Definition assess_sales_fit {S} (w : World) (company_name location domain : string)
    (osint_findings : Z) (tech_stack : TechStack) (sales_signals : SalesSignals)
    : Py S sales_fit :=
  let company_lower := PyStr.lower company_name in
  match keyword_filter EXCLUDE_KEYWORDS company_lower with
  | Some excluded => ret excluded
  | None =>
      let context :=
        llm_prompt w company_name location domain osint_findings tech_stack
          sales_signals in
      llm <-
        try_except
          (result <- perform (RunProcess ["gemini"])
                       (fun h => subprocess_run w h ["gemini"] context) ;;
           if returncode result =? 0
           then read_llm_answer w (stdout result)
           else ret None)
          (fun e => ret None) ;;
      match llm with
      | Some assessment => ret assessment
      | None =>
          let '(score, recommendation, reasons) :=
            _heuristic_score company_name location domain osint_findings
              tech_stack sales_signals in
          ret (Scored score recommendation reasons)
      end
  end.

(** ** Specification-side definitions *)

(** The score of the deterministic algorithm as the specification words
    it: base 50, five fixed increments, clamped to 100. *)
Definition spec_score (tech_stack : TechStack) : Z :=
  Z.min 100
    (50
     + (if wp_is_wordpress (ts_wordpress tech_stack) then 20 else 0)
     + (if PyStr.truthy (srv_server (ts_server tech_stack)) then 15 else 0)
     + (if decide (0 < length (wp_vulnerable_plugins (ts_wordpress tech_stack)))%nat
        then 25 else 0)
     + (if wp_outdated_core (ts_wordpress tech_stack) then 15 else 0)
     + (if decide (size (srv_security_headers (ts_server tech_stack)) = 0%nat)
        then 10 else 0)).

(** One reason per triggered rule, in the order of the rules. *)
Definition spec_reasons (server_label outdated_label : string)
    (tech_stack : TechStack) : list string :=
  (if wp_is_wordpress (ts_wordpress tech_stack) then ["WordPress detected"] else [])
  ++ (if PyStr.truthy (srv_server (ts_server tech_stack))
      then [server_label +:+ default "" (srv_server (ts_server tech_stack))] else [])
  ++ (if decide (0 < length (wp_vulnerable_plugins (ts_wordpress tech_stack)))%nat
      then [PyStr.of_nat (length (wp_vulnerable_plugins (ts_wordpress tech_stack)))
            +:+ " vulnerable plugins"] else [])
  ++ (if wp_outdated_core (ts_wordpress tech_stack) then [outdated_label] else [])
  ++ (if decide (size (srv_security_headers (ts_server tech_stack)) = 0%nat)
      then ["Missing security headers"] else []).

(** All five signals of the scorer are present. *)
Definition all_signals (tech_stack : TechStack) : Prop :=
  wp_is_wordpress (ts_wordpress tech_stack) = true
  ∧ PyStr.truthy (srv_server (ts_server tech_stack)) = true
  ∧ (0 < length (wp_vulnerable_plugins (ts_wordpress tech_stack)))%nat
  ∧ wp_outdated_core (ts_wordpress tech_stack) = true
  ∧ size (srv_security_headers (ts_server tech_stack)) = 0%nat.

(** The candidate after the guard of [verify_domain]: the host the checks
    run on, or [None] when the candidate is empty or has no host. *)
Definition clean_candidate (w : World) (domain : string) : option string :=
  if String.eqb domain "" then None
  else match get_domain_from_url w domain with
       | None | Some EmptyString => None
       | Some clean_domain => Some clean_domain
       end.

(** The DNS check passes for [domain] when asked after history [h]. *)
Definition dns_passes (w : World) (domain : string) (h : history) : bool :=
  match domain_has_dns w domain tt h with
  | (Returned (ok, _), _, _) => ok
  | _ => false
  end.

(** The HTTP check passes for [domain] when run by [self] after [h]. *)
Definition http_passes (w : World) (domain : string) (self : DomainVerifier)
    (h : history) : bool :=
  match domain_responds_to_http w domain self h with
  | (Returned (ok, _, _), _, _) => ok
  | _ => false
  end.

(** Every check that is required passed, as recorded in the result. *)
Definition required_checks_passed (require_dns require_http : bool)
    (r : VerificationResult) : bool :=
  implb require_dns (vr_dns_valid r) && implb require_http (vr_http_responds r).

Definition is_http_head (ev : io_event) : bool :=
  match ev with
  | HttpHead _ => true
  | _ => false
  end.

(** The URLs of the HEAD requests of a history, in order. *)
Fixpoint head_urls (evs : list io_event) : list string :=
  match evs with
  | [] => []
  | HttpHead url :: rest => url :: head_urls rest
  | _ :: rest => head_urls rest
  end.

(** The probe plan of [domain_responds_to_http]: every URL in turn, each
    for the attempts [0 .. retries-1]. *)
Definition probe_schedule (retries : nat) (urls : list string) : list (string * nat) :=
  url ← urls; (fun attempt => (url, attempt)) <$> seq 0 retries.

(** One pass over a probe plan: a response ends the pass; a timeout is
    followed by a sleep unless it was the last attempt for its URL; any
    other exception goes straight on to the next entry of the plan. *)
Fixpoint replay (w : World) (retries : nat) (plan : list (string * nat)) (h : history)
    : option (Z * string) * history :=
  match plan with
  | [] => (None, h)
  | (url, attempt) :: rest =>
      match requests_head w h url with
      | Returned response =>
          (Some (status_code response, default "Unknown" (headers response "Server")),
           h ++ [HttpHead url])
      | Raised e =>
          match exn_cls e with
          | Timeout =>
              if decide (S attempt = retries)
              then replay w retries rest (h ++ [HttpHead url])
              else replay w retries rest (h ++ [HttpHead url; Sleep])
          | _ => replay w retries rest (h ++ [HttpHead url])
          end
      end
  end.

(** The tuple [domain_responds_to_http] builds from the end of a pass. *)
Definition probe_result (o : option (Z * string)) : http_result :=
  match o with
  | Some (status, server) => (true, Some status, server)
  | None => (false, None, "No HTTP response")
  end.

(** What the probe loops hand back at the end of a pass: a response was
    stored in the cache under [cache_key] and is returned; without one the
    verifier is untouched. *)
Definition pass_outcome (cache_key : string) (self : DomainVerifier)
    (pass : option (Z * string) * history)
    : outcome (option http_result) * DomainVerifier * history :=
  match pass with
  | (Some hit, h') =>
      (Returned (Some (probe_result (Some hit))),
       cache_store cache_key (probe_result (Some hit)) self, h')
  | (None, h') => (Returned None, self, h')
  end.

(** The reading under which a connection error abandons the current URL:
    once a HEAD request to [url] has raised [ConnectionError], the call
    issues no later HEAD request to that URL. [evs] are the events of the
    call, [h] the history before it. *)
Definition connection_error_moves_on (w : World) (h : history) (evs : list io_event)
    : Prop :=
  ∀ (i j : nat) (url : string) (e : exn),
    evs !! i = Some (HttpHead url) →
    requests_head w (h ++ take i evs) url = Raised e →
    exn_cls e = ConnectionError →
    (i < j)%nat →
    evs !! j ≠ Some (HttpHead url).

(** The candidate domains of the guessing fallback, pattern-major and
    TLD-minor. *)
Definition guess_candidates (patterns : list string) : list string :=
  pattern ← patterns; (fun tld => pattern +:+ "." +:+ tld) <$> TLDS.

(** [verify_domain] on each domain of a list, in order. *)
Fixpoint verify_each (w : World) (domains : list string)
    : Py DomainVerifier (list VerificationResult) :=
  match domains with
  | [] => ret []
  | domain :: rest =>
      result <- verify_domain w domain true true ;;
      results <- verify_each w rest ;;
      ret (result :: results)
  end.

(** The guessing loops seen as one loop over the flat candidate list. *)
Fixpoint first_verified (w : World) (candidates : list string)
    : Py DomainVerifier (option VerificationResult) :=
  match candidates with
  | [] => ret None
  | domain :: rest =>
      result <- verify_domain w domain true true ;;
      if vr_verified result then ret (Some result) else first_verified w rest
  end.

(** [candidates] were tried in order, from verifier [self] and history
    [h], up to the first one that verified: the calls made are
    [verify_domain] on a prefix [tried] of the list, one after the other;
    with outcome [Some r], [r] is the result of the last call, it is
    verified and no earlier one is; with outcome [None] the whole list was
    tried and nothing verified. [self'] and [h'] are the verifier and the
    history after the last call. *)
Definition tried_in_order (w : World) (candidates : list string)
    (self : DomainVerifier) (h : history) (o : option VerificationResult)
    (self' : DomainVerifier) (h' : history) : Prop :=
  ∃ tried rest results,
    candidates = tried ++ rest
    ∧ verify_each w tried self h = (Returned results, self', h')
    ∧ match o with
      | Some r =>
          ∃ before,
            results = before ++ [r]
            ∧ vr_verified r = true
            ∧ Forall (fun x => vr_verified x = false) before
      | None => rest = [] ∧ Forall (fun x => vr_verified x = false) results
      end.

(** The LLM path of [assess_sales_fit] yields no assessment: the tool is
    missing or times out (the call raises), exits non-zero, or prints
    something that holds no JSON object. *)
Definition llm_path_fails (w : World) (o : outcome CompletedProcess) : bool :=
  match o with
  | Raised _ => true
  | Returned result =>
      if returncode result =? 0 then
        let response_text := stdout result in
        let json_start := PyStr.find_char "{" response_text in
        let json_end := PyStr.rfind_char "}" response_text + 1 in
        if (0 <=? json_start) && (json_start <? json_end) then
          match json_loads w (PyStr.slice response_text json_start json_end) with
          | Returned (JObj _) => false
          | _ => true
          end
        else true
      else true
  end.

(** The score of [_heuristic_score] in closed form. *)
Definition heuristic_total (location : string) (osint_findings : Z)
    (tech_stack : TechStack) (sales_signals : SalesSignals) : Z :=
  50
  + (if decide (location ≠ "" ∧ PyStr.lower location ∉ ["online"; "unknown"])
     then 10 else -20)
  + (if decide (0 < osint_findings) then Z.min 20 osint_findings else -15)
  + (if wp_is_wordpress (ts_wordpress tech_stack)
     then 15
          + (if decide (wp_vulnerable_plugins (ts_wordpress tech_stack) = []) then 0 else 20)
          + (if wp_outdated_core (ts_wordpress tech_stack) then 15 else 0)
     else 0)
  + (if has_poor_security sales_signals then 10 else 0)
  + (if has_outdated_server sales_signals then 5 else 0)
  + opportunity_score sales_signals.

(** The reading under which the fallback of [assess_sales_fit] is the
    deterministic scorer of the crawl scripts. *)
Definition fallback_is_script_score (w : World) (company_name location domain : string)
    (osint_findings : Z) (tech_stack : TechStack) (sales_signals : SalesSignals)
    (h : history) : Prop :=
  let c := run_crawl_score company_name tech_stack in
  (assess_sales_fit w company_name location domain osint_findings tech_stack
     sales_signals tt h).1.1
  = Returned (Scored (score c) (recommendation c) (reasons c)).

(** ** Example environments and inputs *)

Module Examples.

Definition error (c : exn_class) (msg : string) : exn :=
  {| exn_cls := c; exn_str := msg |}.

Fixpoint until_slash (s : string) : string :=
  match s with
  | EmptyString => EmptyString
  | String c s' => if Ascii.eqb c "/" then EmptyString else String c (until_slash s')
  end.

(** A [urlparse] for URLs of the shape scheme://host/path: the host is
    what lies between the two slashes and the next one. *)
Definition simple_urlparse (url : string) : outcome (string * string) :=
  let rest :=
    if PyStr.startswith url "https://" then String.substring 8 (String.length url) url
    else if PyStr.startswith url "http://" then String.substring 7 (String.length url) url
    else if PyStr.startswith url "//" then String.substring 2 (String.length url) url
    else url in
  Returned (until_slash rest, "").

Definition nginx_response : Response :=
  {| status_code := 200;
     headers := fun name => if String.eqb name "Server" then Some "nginx" else None;
     text := "" |}.

(** An environment given by its DNS, its answer to HEAD requests and the
    run of external tools; GET requests are refused. *)
Definition world (dns : history -> string -> outcome string)
    (head : history -> string -> outcome Response)
    (run : history -> list string -> string -> outcome CompletedProcess) : World :=
  {| gethostbyname := dns;
     requests_head := head;
     requests_get := fun _ _ => Raised (error ConnectionError "connection refused");
     subprocess_run := run;
     urlparse := simple_urlparse;
     json_loads := fun _ => Raised (error JSONDecodeError "Expecting value");
     re_search := fun _ _ => None;
     int_of_str := fun _ => Raised (error ValueError "invalid literal for int()");
     now_isoformat := fun _ => "2024-01-01T00:00:00";
     str_of_json := fun v => match v with JStr s => s | _ => "None" end;
     llm_prompt := fun _ _ _ _ _ _ => "" |}.

Definition dns_up : history -> string -> outcome string :=
  fun _ _ => Returned "93.184.216.34".
Definition dns_down : history -> string -> outcome string :=
  fun _ _ => Raised (error Gaierror "Name or service not known").
Definition tool_missing : history -> list string -> string -> outcome CompletedProcess :=
  fun _ _ _ => Raised (error (OtherError "FileNotFoundError") "No such file or directory").

(** Every name resolves and every HEAD request is answered. *)
Definition live_world : World :=
  world dns_up (fun _ _ => Returned nginx_response) tool_missing.

(** Every name resolves, every connection is refused. *)
Definition refusing_world : World :=
  world dns_up (fun _ _ => Raised (error ConnectionError "connection refused"))
    tool_missing.

(** Nothing resolves. *)
Definition offline_world : World :=
  world dns_down (fun _ _ => Raised (error ConnectionError "connection refused"))
    tool_missing.

(** Only [joe's-cafe.net] exists. *)
Definition joes_world : World :=
  world (fun _ domain =>
           if String.eqb domain "joe's-cafe.net" then Returned "203.0.113.7"
           else Raised (error Gaierror "Name or service not known"))
    (fun _ _ => Returned nginx_response) tool_missing.

(** A site the fingerprinter learns nothing about. *)
Definition bare_stack : TechStack :=
  {| ts_server := default_server_info;
     ts_wordpress := default_wordpress_info;
     ts_other_cms := default_other_cms;
     ts_scan_timestamp := "2024-01-01T00:00:00" |}.

(** An outdated WordPress site with one vulnerable plugin, behind a
    server that sends a [Server] header and no security header. *)
Definition worst_stack : TechStack :=
  {| ts_server := set_srv_server (Some "Apache/2.2.15") default_server_info;
     ts_wordpress :=
       {| wp_is_wordpress := true; wp_version := JStr "4.9.8";
          wp_plugins := ["contact-form-7"];
          wp_vulnerable_plugins :=
            [ {| vp_name := "contact-form-7"; vp_version := JStr "5.0";
                 vp_vulnerabilities := 2 |} ];
          wp_themes := []; wp_vulnerabilities := 1; wp_outdated_core := true |};
     ts_other_cms := default_other_cms;
     ts_scan_timestamp := "2024-01-01T00:00:00" |}.

(** A WordPress site that is up to date and sends one security header,
    from a server that does not name itself. *)
Definition tidy_wordpress_stack : TechStack :=
  {| ts_server :=
       add_security_header "X-Frame-Options" "DENY" default_server_info;
     ts_wordpress := set_wp_is_wordpress true default_wordpress_info;
     ts_other_cms := default_other_cms;
     ts_scan_timestamp := "2024-01-01T00:00:00" |}.

(** The signals [extract_sales_signals] derives from [bare_stack]. *)
Definition bare_signals : SalesSignals :=
  {| has_outdated_server := false; has_outdated_cms := false;
     has_vulnerable_plugins := false; has_poor_security := true;
     opportunity_score := 10;
     pain_points := ["Missing critical security headers"] |}.

Definition no_signals : SalesSignals :=
  {| has_outdated_server := false; has_outdated_cms := false;
     has_vulnerable_plugins := false; has_poor_security := false;
     opportunity_score := 0; pain_points := [] |}.

End Examples.


(** ** Further functions of [domain_verification.py] *)

(** [for domain in domains:] of [verify_multiple_domains], with the list
    [verified] built so far. An entry of [domains] is any Python value;
    everything but a non-empty [str] is skipped. *)
Fixpoint verify_multiple_loop (w : World) (domains : list json)
    (verified : list VerificationResult)
    : Py DomainVerifier (list VerificationResult) :=
  match domains with
  | [] => ret verified
  | domain :: rest =>
      match domain with
      | JStr s =>
          if String.eqb s "" then verify_multiple_loop w rest verified
          else
            result <- verify_domain w s true true ;;
            if vr_verified result
            then verify_multiple_loop w rest (verified ++ [result])
            else verify_multiple_loop w rest verified
      | _ => verify_multiple_loop w rest verified
      end
  end.

(** [verify_multiple_domains] *)
Definition verify_multiple_domains (w : World) (domains : list json)
    : Py DomainVerifier (list VerificationResult) :=
  verify_multiple_loop w domains [].

(** ** The verification step of [verified_unlimited_crawl.py] *)

(** What [main] records for one business: the entry appended to
    [verified_businesses], or the one appended to [failed_verification]. *)
Inductive main_verification :=
| MainVerified (result : VerificationResult)
| MainFailed (name provided_website reason : string).

(** Lines 166-207 of [verified_unlimited_crawl.py] for one business: the
    patterns are the name without spaces and the hyphenated name only. *)
Definition main_verify (w : World) (company_name website_provided : string)
    : Py DomainVerifier main_verification :=
  first <-
    (if negb (String.eqb website_provided "") then
       result <- verify_domain w website_provided true true ;;
       ret (if vr_verified result then Some result else None)
     else ret None) ;;
  match first with
  | Some result => ret (MainVerified result)
  | None =>
      let patterns :=
        [ PyStr.replace_char " " "" (PyStr.lower company_name);
          PyStr.replace_char " " "-" (PyStr.lower company_name) ] in
      r <- pattern_loop w patterns ;;
      match r with
      | Some result => ret (MainVerified result)
      | None =>
          ret (MainFailed company_name website_provided "No verified domain found")
      end
  end.

(** ** The phases of [run_crawl] ([crawl_verified.py]) *)

(** A business dict as [load_from_csv] builds it. *)
Record Business := {
  b_name : string;
  b_address : string;
  b_phone : string;
  b_website : string
}.

(** An entry of [verified_businesses]: the business,
    ['verified_domain'] and ['verification_result']. *)
Record VerifiedBusiness := {
  vb_business : Business;
  vb_verified_domain : string;
  vb_verification_result : VerificationResult
}.

(** The entry [run_crawl] appends for a verified result; the ['domain'] of
    a result of [verify_domain] is always a string. *)
Definition verified_entry (business : Business) (result : VerificationResult)
    : VerifiedBusiness :=
  {| vb_business := business;
     vb_verified_domain := default "" (vr_domain result);
     vb_verification_result := result |}.

(** Phase 0, lines 83-122: [for i, business in enumerate(businesses, 1):]
    with the list [verified_businesses] built so far. *)
Fixpoint phase0_loop (w : World) (businesses : list Business)
    (verified_businesses : list VerifiedBusiness)
    : Py DomainVerifier (list VerifiedBusiness) :=
  match businesses with
  | [] => ret verified_businesses
  | business :: rest =>
      r <- run_crawl_verify w (b_name business) (b_website business) ;;
      match r with
      | Some result =>
          phase0_loop w rest (verified_businesses ++ [verified_entry business result])
      | None => phase0_loop w rest verified_businesses
      end
  end.

(** The two percentages of the Phase 0 summary (lines 125-126):
    [100*len(verified_businesses)//len(businesses)] and
    [100*(len(businesses)-len(verified_businesses))//len(businesses)]. *)
Definition phase0_percentages (verified_businesses businesses : nat) : outcome (Z * Z) :=
  if Nat.eqb businesses 0 then
    Raised {| exn_cls := OtherError "ZeroDivisionError";
              exn_str := "integer division or modulo by zero" |}
  else
    Returned
      ((100 * Z.of_nat verified_businesses) `div` Z.of_nat businesses,
       (100 * (Z.of_nat businesses - Z.of_nat verified_businesses))
         `div` Z.of_nat businesses).





(** ** Specification-side definitions for the further properties *)

(** The entries [verify_multiple_domains] does not skip. *)
Fixpoint domain_strings (domains : list json) : list string :=
  match domains with
  | [] => []
  | JStr s :: rest => if String.eqb s "" then domain_strings rest else s :: domain_strings rest
  | _ :: rest => domain_strings rest
  end.

(** The shape of the tuples [domain_responds_to_http] stores: a success
    with its status code, or the one failure tuple. *)
Definition stored_tuple (r : http_result) : Prop :=
  r = (false, None, "No HTTP response") ∨ ∃ status server, r = (true, Some status, server).

(** Every tuple of a verifier's cache has that shape. *)
Definition cache_wf (self : DomainVerifier) : Prop :=
  ∀ key r, cache self !! key = Some r → stored_tuple r.

Definition is_sleep (ev : io_event) : bool :=
  match ev with
  | Sleep => true
  | _ => false
  end.

(** The events of a probe: HEAD requests and sleeps only. *)
Definition probe_event (ev : io_event) : Prop :=
  match ev with
  | HttpHead _ | Sleep => True
  | _ => False
  end.



(** All characters of a string are whitespace. *)
Fixpoint all_space (s : string) : bool :=
  match s with
  | EmptyString => true
  | String c s' => PyStr.isspace c && all_space s'
  end.

(** The second component of what [domain_has_dns] answers for [domain]
    after history [h]: the address, or the error message. *)
Definition dns_info (w : World) (domain : string) (h : history) : string :=
  match domain_has_dns w domain tt h with
  | (Returned (_, info), _, _) => info
  | _ => ""
  end.

(** The dict [verify_domain] returns once the candidate has a host
    [clean_domain], from what the checks gave; [http] is [None] when the
    HTTP check was not run. *)
Definition verification_record (clean_domain : string) (dns_valid : bool)
    (dns_ip : option string) (http : option http_result) : VerificationResult :=
  match http with
  | Some (true, status_code, server_info) =>
      {| vr_verified := true; vr_domain := Some clean_domain;
         vr_dns_valid := dns_valid; vr_dns_ip := dns_ip;
         vr_http_responds := true; vr_http_status := status_code;
         vr_server := Some server_info; vr_error := None |}
  | Some (false, _, server_info) =>
      {| vr_verified := false; vr_domain := Some clean_domain;
         vr_dns_valid := dns_valid; vr_dns_ip := dns_ip;
         vr_http_responds := false; vr_http_status := None;
         vr_server := None; vr_error := Some server_info |}
  | None =>
      {| vr_verified := false; vr_domain := Some clean_domain;
         vr_dns_valid := dns_valid; vr_dns_ip := dns_ip;
         vr_http_responds := false; vr_http_status := None;
         vr_server := None; vr_error := None |}
  end.


(** The number of flags [extract_sales_signals] has set. *)
Definition signal_count (s : SalesSignals) : nat :=
  ((if has_outdated_server s then 1 else 0)
   + (if has_outdated_cms s then 1 else 0)
   + (if has_vulnerable_plugins s then 1 else 0)
   + (if has_poor_security s then 1 else 0))%nat.

(** An environment in which the LLM tool answers with a JSON object that
    has a score and a recommendation and no reasons. *)
Definition llm_world : World :=
  {| gethostbyname := Examples.dns_up;
     requests_head := fun _ _ => Returned Examples.nginx_response;
     requests_get :=
       fun _ _ => Raised (Examples.error ConnectionError "connection refused");
     subprocess_run :=
       fun _ _ _ => Returned {| returncode := 0; stdout := "Assessment: {...} done" |};
     urlparse := Examples.simple_urlparse;
     json_loads :=
       fun _ => Returned (JObj [("score", JNum 85); ("recommendation", JStr "CONTACT")]);
     re_search := fun _ _ => None;
     int_of_str :=
       fun _ => Raised (Examples.error ValueError "invalid literal for int()");
     now_isoformat := fun _ => "2024-01-01T00:00:00";
     str_of_json := fun v => match v with JStr s => s | _ => "None" end;
     llm_prompt := fun _ _ _ _ _ _ => "" |}.


(** ** More Python string primitives (ASCII) *)

Module PyText.

(** [c.isalpha()] on the ASCII range: the cased characters. *)
Definition is_cased (c : ascii) : bool :=
  let n := nat_of_ascii c in
  ((65 <=? n)%nat && (n <=? 90)%nat) || ((97 <=? n)%nat && (n <=? 122)%nat).

(** [str.upper] on one ASCII character. *)
Definition upper_ascii (c : ascii) : ascii :=
  let n := nat_of_ascii c in
  if (97 <=? n)%nat && (n <=? 122)%nat then ascii_of_nat (n - 32) else c.

(** [s.upper()] *)
Fixpoint upper (s : string) : string :=
  match s with
  | EmptyString => EmptyString
  | String c s' => String (upper_ascii c) (upper s')
  end.

(** [s.title()]: a cased character is upper-cased after an uncased one (or
    at the start) and lower-cased after a cased one. *)
Fixpoint title_from (previous_is_cased : bool) (s : string) : string :=
  match s with
  | EmptyString => EmptyString
  | String c s' =>
      String (if previous_is_cased then PyStr.lower_ascii c else upper_ascii c)
        (title_from (is_cased c) s')
  end.

Definition title (s : string) : string := title_from false s.

(** [s.rstrip()] *)
Fixpoint rstrip (s : string) : string :=
  match s with
  | EmptyString => EmptyString
  | String c s' =>
      match rstrip s' with
      | EmptyString => if PyStr.isspace c then EmptyString else String c EmptyString
      | rest => String c rest
      end
  end.

(** [s.strip()] *)
Definition strip (s : string) : string := rstrip (PyStr.lstrip s).

(** [s.endswith(suffix)] *)
Fixpoint endswith (s suffix : string) : bool :=
  String.eqb s suffix ||
  match s with
  | EmptyString => false
  | String _ s' => endswith s' suffix
  end.

(** The split of [s] at the last occurrence of the character [sep], if
    there is one. *)
Fixpoint rsplit1 (sep : ascii) (s : string) : option (string * string) :=
  match s with
  | EmptyString => None
  | String c s' =>
      match rsplit1 sep s' with
      | Some (before, after) => Some (String c before, after)
      | None => if Ascii.eqb c sep then Some (EmptyString, s') else None
      end
  end.

(** [s.rsplit(sep, 1)] for a one-character separator. *)
Definition rsplit_once (sep : ascii) (s : string) : list string :=
  match rsplit1 sep s with
  | Some (before, after) => [before; after]
  | None => [s]
  end.

(** [s.replace(old, new)] for a non-empty [old]: the occurrences of [old]
    are replaced from the left, without overlap; [skip] counts the
    characters of the occurrence just replaced that are still to be
    passed. *)
Fixpoint replace_go (old new : string) (skip : nat) (s : string) : string :=
  match s with
  | EmptyString => EmptyString
  | String c s' =>
      match skip with
      | S skip' => replace_go old new skip' s'
      | O =>
          if PyStr.startswith s old
          then new +:+ replace_go old new (String.length old - 1) s'
          else String c (replace_go old new 0 s')
      end
  end.

Definition replace (old new s : string) : string := replace_go old new 0 s.

End PyText.

(** ** [business_data_loader.py]: [BusinessDataLoader] *)

(** The file system as the loader sees it. [read_csv] is
    [open(filepath)] with [csv.DictReader] read to the end: each row maps
    the field names of the header to the row's values, [None] where the row
    is short; [read_json] is [open(filepath)] with [json.load]. *)
Record FileSystem := {
  path_exists : string -> bool;
  listdir : string -> outcome (list string);
  read_csv : string -> outcome (list (gmap string (option string)));
  read_json : string -> outcome json
}.

(** [os.path.join(a, b)] *)
Definition path_join (a b : string) : string :=
  if PyStr.startswith b "/" then b
  else if String.eqb a "" || PyText.endswith a "/" then a +:+ b
  else a +:+ "/" +:+ b.

(** [get_city_filename] *)
Definition get_city_filename (city state : string) : string :=
  let city_slug := PyStr.replace_char " " "_" (PyStr.lower city) in
  let state_slug := PyStr.replace_char " " "_" (PyStr.lower state) in
  city_slug +:+ "_" +:+ state_slug +:+ ".csv".

(** [row.get(key, '').strip()] *)
Definition csv_field (row : gmap string (option string)) (key : string)
    : outcome string :=
  match row !! key with
  | None => Returned (PyText.strip "")
  | Some (Some value) => Returned (PyText.strip value)
  | Some None =>
      Raised {| exn_cls := AttributeError;
                exn_str := "'NoneType' object has no attribute 'strip'" |}
  end.

(** The dict appended for one row. *)
Definition csv_business (row : gmap string (option string)) : outcome Business :=
  match csv_field row "name" with
  | Raised e => Raised e
  | Returned name =>
      match csv_field row "address" with
      | Raised e => Raised e
      | Returned address =>
          match csv_field row "phone" with
          | Raised e => Raised e
          | Returned phone =>
              match csv_field row "website" with
              | Raised e => Raised e
              | Returned website =>
                  Returned {| b_name := name; b_address := address;
                              b_phone := phone; b_website := website |}
              end
          end
      end
  end.

(** [for row in reader:] with the list [businesses] built so far. *)
Fixpoint csv_rows_loop (rows : list (gmap string (option string)))
    (businesses : list Business) : outcome (list Business) :=
  match rows with
  | [] => Returned businesses
  | row :: rest =>
      match csv_business row with
      | Raised e => Raised e
      | Returned business => csv_rows_loop rest (businesses ++ [business])
      end
  end.

(** [load_from_csv]; the result [None] is Python's [None] (the message it
    prints on an error is not modelled). *)
Definition load_from_csv (fs : FileSystem) (data_dir city state : string)
    : option (list Business) :=
  let filename := get_city_filename city state in
  let filepath := path_join data_dir filename in
  if negb (path_exists fs filepath) then None
  else
    match read_csv fs filepath with
    | Raised _ => None
    | Returned rows =>
        match csv_rows_loop rows [] with
        | Returned businesses => Some businesses
        | Raised _ => None
        end
    end.

(** [load_from_json]; [JNull] is Python's [None]. *)
Definition load_from_json (fs : FileSystem) (data_dir city state : string) : json :=
  let filename := PyText.replace ".csv" ".json" (get_city_filename city state) in
  let filepath := path_join data_dir filename in
  if negb (path_exists fs filepath) then JNull
  else
    match read_json fs filepath with
    | Returned data => data
    | Raised _ => JNull
    end.

(** What [load_businesses] returns when it is not [None]. *)
Inductive loaded :=
| LoadedCsv (businesses : list Business)
| LoadedJson (data : json).

(** [load_businesses] *)
Definition load_businesses (fs : FileSystem) (data_dir city state : string)
    : option loaded :=
  match load_from_csv fs data_dir city state with
  | Some (business :: businesses) => Some (LoadedCsv (business :: businesses))
  | _ =>
      let data := load_from_json fs data_dir city state in
      if PyJson.truthy data then Some (LoadedJson data) else None
  end.

(** The body of [for filename in os.listdir(self.data_dir):] of
    [get_available_cities]: the pair appended for [filename], if any. *)
Definition city_of_filename (filename : string) : option (string * string) :=
  if PyText.endswith filename ".csv" || PyText.endswith filename ".json" then
    let base := default "" (head (PyText.rsplit_once "." filename)) in
    match PyText.rsplit_once "_" base with
    | [city_part; state_part] =>
        Some (PyText.title (PyStr.replace_char "_" " " city_part),
              PyText.upper (PyStr.replace_char "_" " " state_part))
    | _ => None
    end
  else None.

(** The order [<=] of Python tuples of two strings. *)
Definition pair_leb (x y : string * string) : bool :=
  match String.compare x.1 y.1 with
  | Lt => true
  | Eq => String.leb x.2 y.2
  | Gt => false
  end.

Definition pair_le (x y : string * string) : Prop := pair_leb x y = true.

#[global] Instance pair_le_dec (x y : string * string) : Decision (pair_le x y) :=
  bool_eq_dec (pair_leb x y) true.

(** [sorted(set(cities))]: the elements of the list without repetition, in
    increasing order. *)
Definition sorted_set (cities : list (string * string)) : list (string * string) :=
  merge_sort pair_le (remove_dups cities).

(** [get_available_cities] *)
Definition get_available_cities (fs : FileSystem) (data_dir : string)
    : outcome (list (string * string)) :=
  if negb (path_exists fs data_dir) then Returned []
  else
    match listdir fs data_dir with
    | Raised e => Raised e
    | Returned filenames => Returned (sorted_set (omap city_of_filename filenames))
    end.

(** ** Specification side of the loader *)

(** The four columns the loader reads. *)
Definition csv_columns : list string := ["name"; "address"; "phone"; "website"].

(** A row too short for one of the four columns: [csv.DictReader] fills
    the column with [None]. *)
Definition short_row (row : gmap string (option string)) : bool :=
  existsb (fun key => bool_decide (row !! key = Some None)) csv_columns.

(** The text of a column of a row, [''] where the file has no such column. *)
Definition column (row : gmap string (option string)) (key : string) : string :=
  match row !! key with
  | Some (Some value) => value
  | _ => ""
  end.

Definition business_of_row (row : gmap string (option string)) : Business :=
  {| b_name := PyText.strip (column row "name");
     b_address := PyText.strip (column row "address");
     b_phone := PyText.strip (column row "phone");
     b_website := PyText.strip (column row "website") |}.

(** No white space at either end. *)
Definition stripped (s : string) : Prop := PyText.strip s = s.

Definition stripped_business (b : Business) : Prop :=
  stripped (b_name b) /\ stripped (b_address b) /\
  stripped (b_phone b) /\ stripped (b_website b).

(** The file name without its extension. *)
Definition city_base (city state : string) : string :=
  PyStr.replace_char " " "_" (PyStr.lower city) +:+ "_" +:+
  PyStr.replace_char " " "_" (PyStr.lower state).


Module LoaderExamples.

Definition fort_smith_row : gmap string (option string) :=
  <["name" := Some " Smith Brothers Auto Repair "]>
  (<["address" := Some "2324 Garrison Avenue"]>
  (<["phone" := Some "479-782-5500"]>
  (<["website" := Some "smithbrosautoftsmith.com "]> ∅))).

Definition fs : FileSystem :=
  {| path_exists := fun _ => true;
     listdir := fun _ => Returned ["fort_smith_ar.csv"; "notes.txt"; "fort_smith_ar.json"];
     read_csv := fun _ => Returned [fort_smith_row];
     read_json := fun _ => Returned JNull |}.

End LoaderExamples.
(** * Theorems *)

(** ** Strings *)

Lemma startswith_spec (s p : string) :
  PyStr.startswith s p = true ↔ ∃ rest, s = p +:+ rest.
Proof.
  revert s. induction p as [|a p IH]; intros s; simpl.
  - split; [intros _; by exists s | done].
  - destruct s as [|b s].
    + split; [done | intros [rest Hrest]; discriminate].
    + destruct (Ascii.eqb_spec a b) as [->|Hne].
      * rewrite IH. split; intros [rest Hrest]; exists rest.
        -- by rewrite Hrest.
        -- by injection Hrest.
      * split; [done | intros [rest Hrest]; injection Hrest; congruence].
Qed.

(** [PyStr.contains] is the substring test. *)
Lemma contains_spec (needle hay : string) :
  PyStr.contains needle hay = true ↔ ∃ before after, hay = before +:+ needle +:+ after.
Proof.
  induction hay as [|c hay IH]; simpl.
  - rewrite orb_false_r, startswith_spec. split.
    + intros [rest Hrest]. by exists "", rest.
    + intros ([|b before] & after & Heq); simpl in Heq; [by exists after | discriminate].
  - rewrite orb_true_iff, startswith_spec, IH. split.
    + intros [[rest Hrest] | (before & after & Heq)].
      * by exists "", rest.
      * exists (String c before), after. simpl. by rewrite Heq.
    + intros ([|b before] & after & Heq); simpl in Heq.
      * left. by exists after.
      * right. exists before, after. by injection Heq.
Qed.

(** ** The exclusion loop *)

Lemma exclusion_loop_no_match keywords company_lower st :
  existsb (fun keyword => PyStr.contains keyword company_lower) keywords = false →
  exclusion_loop keywords company_lower st = st.
Proof.
  induction keywords as [|k ks IH]; simpl; [done |].
  intros [Hk Hks]%orb_false_iff. rewrite Hk. auto.
Qed.

Lemma exclusion_loop_match keywords company_lower st :
  existsb (fun keyword => PyStr.contains keyword company_lower) keywords = true →
  ∃ keyword,
    find (fun keyword => PyStr.contains keyword company_lower) keywords = Some keyword
    ∧ exclusion_loop keywords company_lower st
      = {| score := 0; recommendation := "EXCLUDE";
           reasons := ["Matches exclusion keyword: " +:+ keyword] |}.
Proof.
  induction keywords as [|k ks IH]; simpl; [done |].
  destruct (PyStr.contains k company_lower) eqn:Hk; simpl.
  - intros _. by exists k.
  - apply IH.
Qed.

Lemma keyword_filter_no_match keywords company_lower :
  existsb (fun keyword => PyStr.contains keyword company_lower) keywords = false →
  keyword_filter keywords company_lower = None.
Proof.
  induction keywords as [|k ks IH]; simpl; [done |].
  intros [Hk Hks]%orb_false_iff. rewrite Hk. auto.
Qed.

Lemma keyword_filter_match keywords company_lower keyword :
  find (fun keyword => PyStr.contains keyword company_lower) keywords = Some keyword →
  keyword_filter keywords company_lower
  = Some (Scored 0 "EXCLUDE" ["Matches exclusion keyword: " +:+ keyword]).
Proof.
  induction keywords as [|k ks IH]; simpl; [done |].
  destruct (PyStr.contains k company_lower); [by intros [= ->] | done].
Qed.

Lemma find_some_elem {A} (f : A → bool) (l : list A) (x : A) :
  find f l = Some x → x ∈ l ∧ f x = true.
Proof.
  induction l as [|a l IH]; simpl; [done |].
  destruct (f a) eqn:Hfa.
  - intros [= ->]. split; [left | done].
  - intros [Hin Hfx]%IH. split; [by right | done].
Qed.

(** ** The tech scoring block *)

Lemma tech_scoring_spec server_label outdated_label tech_stack :
  tech_scoring server_label outdated_label tech_stack
    {| score := 50; recommendation := "MAYBE"; reasons := [] |}
  = {| score := spec_score tech_stack;
       recommendation :=
         if 70 <=? spec_score tech_stack then "CONTACT"
         else if 50 <=? spec_score tech_stack then "MAYBE" else "EXCLUDE";
       reasons := spec_reasons server_label outdated_label tech_stack |}.
Proof.
  unfold tech_scoring, spec_score, spec_reasons.
  destruct tech_stack as [[srv ? ? ? ? hdrs] [wp ? ? vuln ? ? outd] ? ?]; simpl.
  destruct wp, (PyStr.truthy srv), vuln as [|v vuln], outd,
    (size hdrs) as [|n]; reflexivity.
Qed.

Lemma script_score_not_excluded server_label outdated_label name tech_stack :
  matches_exclusion name = false →
  script_score server_label outdated_label name tech_stack
  = {| score := spec_score tech_stack;
       recommendation :=
         if 70 <=? spec_score tech_stack then "CONTACT"
         else if 50 <=? spec_score tech_stack then "MAYBE" else "EXCLUDE";
       reasons := spec_reasons server_label outdated_label tech_stack |}.
Proof.
  intros Hno. unfold script_score.
  rewrite exclusion_loop_no_match by exact Hno. simpl.
  apply tech_scoring_spec.
Qed.

Lemma script_score_excluded server_label outdated_label name tech_stack :
  matches_exclusion name = true →
  ∃ keyword,
    find (fun keyword => PyStr.contains keyword (PyStr.lower name)) EXCLUDE_KEYWORDS
    = Some keyword
    ∧ script_score server_label outdated_label name tech_stack
      = {| score := 0; recommendation := "EXCLUDE";
           reasons := ["Matches exclusion keyword: " +:+ keyword] |}.
Proof.
  intros Hyes. unfold script_score.
  destruct (exclusion_loop_match EXCLUDE_KEYWORDS (PyStr.lower name)
              {| score := 50; recommendation := "MAYBE"; reasons := [] |} Hyes)
    as (keyword & Hfind & ->).
  exists keyword. by split.
Qed.

Lemma spec_score_bounds tech_stack : 50 ≤ spec_score tech_stack ≤ 100.
Proof.
  unfold spec_score.
  repeat match goal with |- context [if ?b then _ else _] => destruct b end; lia.
Qed.

Lemma matches_exclusion_spec name :
  matches_exclusion name = true ↔
  ∃ keyword before after,
    keyword ∈ EXCLUDE_KEYWORDS ∧ PyStr.lower name = before +:+ keyword +:+ after.
Proof.
  unfold matches_exclusion. rewrite existsb_exists. split.
  - intros (keyword & Hin%list_elem_of_In & (before & after & Heq)%contains_spec).
    by exists keyword, before, after.
  - intros (keyword & before & after & Hin & Heq).
    exists keyword. split; [by apply list_elem_of_In |].
    apply contains_spec. by exists before, after.
Qed.

(** ** The example inputs *)

Example bare_signals_extracted :
  extract_sales_signals Examples.live_world Examples.bare_stack = Examples.bare_signals.
Proof. reflexivity. Qed.

(** ** The deterministic scorer *)

(** C1. For a business whose lower-cased name contains no exclusion
    keyword, the script-based scorer (both copies) returns the score
    min(100, 50 + 20 [WordPress] + 15 [server header] + 25 [vulnerable
    plugins > 0] + 15 [outdated core] + 10 [zero security headers]) and one
    reason string per triggered rule, in rule order; when all five signals
    are present the score is exactly 100 and the recommendation CONTACT. *)
Theorem script_score_formula (name : string) (tech_stack : TechStack) :
  matches_exclusion name = false →
  score (run_crawl_score name tech_stack) = spec_score tech_stack
  ∧ reasons (run_crawl_score name tech_stack)
    = spec_reasons "Server: " "Outdated WordPress" tech_stack
  ∧ score (main_score name tech_stack) = spec_score tech_stack
  ∧ reasons (main_score name tech_stack)
    = spec_reasons "Server detected: " "Outdated WordPress core" tech_stack
  ∧ (all_signals tech_stack →
     score (run_crawl_score name tech_stack) = 100
     ∧ recommendation (run_crawl_score name tech_stack) = "CONTACT"
     ∧ length (reasons (run_crawl_score name tech_stack)) = 5%nat
     ∧ score (main_score name tech_stack) = 100
     ∧ recommendation (main_score name tech_stack) = "CONTACT"
     ∧ length (reasons (main_score name tech_stack)) = 5%nat).
Proof.
  intros Hno. unfold run_crawl_score, main_score.
  rewrite !script_score_not_excluded by exact Hno. simpl.
  repeat split; try reflexivity;
    destruct H as (Hwp & Hsrv & Hvuln & Hcore & Hhdrs);
    unfold spec_score, spec_reasons; rewrite Hwp, Hsrv, Hcore, Hhdrs;
    destruct (decide _) as [_|Hn]; try (exfalso; apply Hn; exact Hvuln);
    reflexivity.
Qed.

Lemma script_score_formula_witness :
  matches_exclusion "Joe's Cafe" = false
  ∧ score (run_crawl_score "Joe's Cafe" Examples.worst_stack) = 100
  ∧ reasons (run_crawl_score "Joe's Cafe" Examples.worst_stack)
    = [ "WordPress detected"; "Server: Apache/2.2.15"; "1 vulnerable plugins";
        "Outdated WordPress"; "Missing security headers" ].
Proof.
  split; [reflexivity |].
  destruct (script_score_formula "Joe's Cafe" Examples.worst_stack eq_refl)
    as (Hscore & Hreasons & _).
  split; [exact Hscore | exact Hreasons].
Defined.

(** C4. A business name that, lower-cased, contains a keyword of the
    exclusion list gets score 0, recommendation EXCLUDE and the single
    reason naming the first keyword of the list that matches, whatever the
    tech stack and the sales signals; [assess_sales_fit] returns it before
    any call to the outside. *)
Theorem exclusion_short_circuit {S : Type} (w : World)
    (name location domain : string) (osint_findings : Z)
    (tech_stack : TechStack) (sales_signals : SalesSignals) (s : S) (h : history) :
  matches_exclusion name = true →
  ∃ keyword,
    keyword ∈ EXCLUDE_KEYWORDS
    ∧ PyStr.contains keyword (PyStr.lower name) = true
    ∧ find (fun keyword => PyStr.contains keyword (PyStr.lower name)) EXCLUDE_KEYWORDS
      = Some keyword
    ∧ run_crawl_score name tech_stack
      = {| score := 0; recommendation := "EXCLUDE";
           reasons := ["Matches exclusion keyword: " +:+ keyword] |}
    ∧ main_score name tech_stack
      = {| score := 0; recommendation := "EXCLUDE";
           reasons := ["Matches exclusion keyword: " +:+ keyword] |}
    ∧ assess_sales_fit w name location domain osint_findings tech_stack
        sales_signals s h
      = (Returned (Scored 0 "EXCLUDE" ["Matches exclusion keyword: " +:+ keyword]),
         s, h).
Proof.
  intros Hyes.
  destruct (script_score_excluded "Server: " "Outdated WordPress" name tech_stack Hyes)
    as (keyword & Hfind & Hrun).
  destruct (script_score_excluded "Server detected: " "Outdated WordPress core"
              name tech_stack Hyes) as (keyword' & Hfind' & Hmain).
  assert (keyword' = keyword) as -> by congruence.
  destruct (find_some_elem _ _ _ Hfind) as [Hin Hcontains].
  exists keyword. repeat split; try done.
  unfold assess_sales_fit. by rewrite (keyword_filter_match _ _ _ Hfind).
Qed.

Lemma exclusion_short_circuit_witness :
  matches_exclusion "Walmart Supercenter" = true
  ∧ ∃ keyword,
      keyword ∈ EXCLUDE_KEYWORDS
      ∧ run_crawl_score "Walmart Supercenter" Examples.worst_stack
        = {| score := 0; recommendation := "EXCLUDE";
             reasons := ["Matches exclusion keyword: " +:+ keyword] |}.
Proof.
  split; [reflexivity |].
  destruct (exclusion_short_circuit (S := unit) Examples.live_world
              "Walmart Supercenter" "Fort Smith, AR" "walmart.com" 0
              Examples.worst_stack Examples.bare_signals tt [] eq_refl)
    as (keyword & Hin & _ & _ & Hrun & _).
  exists keyword. split; [exact Hin | exact Hrun].
Defined.

(** C6. The recommendation of the deterministic scorers is CONTACT exactly
    when the score is at least 70, MAYBE exactly when it is at least 50 and
    below 70, EXCLUDE exactly when it is below 50; totals of 70, 69 and 49
    give CONTACT, MAYBE and EXCLUDE. *)
Theorem recommendation_thresholds (name location domain : string)
    (osint_findings : Z) (tech_stack : TechStack) (sales_signals : SalesSignals) :
  (let '(s, r, _) :=
     _heuristic_score name location domain osint_findings tech_stack sales_signals in
   (r = "CONTACT" ↔ 70 ≤ s) ∧ (r = "MAYBE" ↔ 50 ≤ s < 70) ∧ (r = "EXCLUDE" ↔ s < 50))
  ∧ (let c := run_crawl_score name tech_stack in
     (recommendation c = "CONTACT" ↔ 70 ≤ score c)
     ∧ (recommendation c = "MAYBE" ↔ 50 ≤ score c < 70)
     ∧ (recommendation c = "EXCLUDE" ↔ score c < 50))
  ∧ (let c := main_score name tech_stack in
     (recommendation c = "CONTACT" ↔ 70 ≤ score c)
     ∧ (recommendation c = "MAYBE" ↔ 50 ≤ score c < 70)
     ∧ (recommendation c = "EXCLUDE" ↔ score c < 50))
  ∧ run_crawl_score "Acme Plumbing" Examples.tidy_wordpress_stack
    = {| score := 70; recommendation := "CONTACT"; reasons := ["WordPress detected"] |}
  ∧ (_heuristic_score "Acme Plumbing" "Fort Smith, AR" "acmeplumbing.com" 10
       Examples.bare_stack Examples.no_signals).1 = (70, "CONTACT")
  ∧ (_heuristic_score "Acme Plumbing" "Fort Smith, AR" "acmeplumbing.com" 9
       Examples.bare_stack Examples.no_signals).1 = (69, "MAYBE")
  ∧ (_heuristic_score "Acme Plumbing" "" "acmeplumbing.com" 19
       Examples.bare_stack Examples.no_signals).1 = (49, "EXCLUDE").
Proof.
  assert (Hmap : ∀ s : Z,
    let r := if 70 <=? s then "CONTACT" else if 50 <=? s then "MAYBE" else "EXCLUDE" in
    (r = "CONTACT" ↔ 70 ≤ s) ∧ (r = "MAYBE" ↔ 50 ≤ s < 70) ∧ (r = "EXCLUDE" ↔ s < 50)).
  { intros s. simpl.
    destruct (Z.leb_spec 70 s); [|destruct (Z.leb_spec 50 s)];
      (repeat split; intros; try done; try lia). }
  assert (Hscript : ∀ sl ol,
    let c := script_score sl ol name tech_stack in
    (recommendation c = "CONTACT" ↔ 70 ≤ score c)
    ∧ (recommendation c = "MAYBE" ↔ 50 ≤ score c < 70)
    ∧ (recommendation c = "EXCLUDE" ↔ score c < 50)).
  { intros sl ol. destruct (matches_exclusion name) eqn:Hex.
    - destruct (script_score_excluded sl ol name tech_stack Hex) as (k & _ & ->).
      simpl. repeat split; intros; try done; try lia.
    - rewrite (script_score_not_excluded sl ol name tech_stack Hex). simpl.
      apply Hmap. }
  split; [| split; [apply Hscript | split; [apply Hscript | done]]].
  unfold _heuristic_score.
  repeat match goal with
         | |- context [let '(_, _) := (if ?b then _ else _) in _] => destruct b
         end; apply Hmap.
Qed.

(** C10. For a business whose name matches no exclusion keyword the
    script-based scorer returns a score between 50 and 100 and the
    recommendation CONTACT or MAYBE, never EXCLUDE: the branch for scores
    below 50 is not reachable there. *)
Theorem script_score_floor (name : string) (tech_stack : TechStack) :
  matches_exclusion name = false →
  (50 ≤ score (run_crawl_score name tech_stack) ≤ 100
   ∧ (recommendation (run_crawl_score name tech_stack) = "CONTACT"
      ∨ recommendation (run_crawl_score name tech_stack) = "MAYBE")
   ∧ recommendation (run_crawl_score name tech_stack) ≠ "EXCLUDE")
  ∧ (50 ≤ score (main_score name tech_stack) ≤ 100
     ∧ (recommendation (main_score name tech_stack) = "CONTACT"
        ∨ recommendation (main_score name tech_stack) = "MAYBE")
     ∧ recommendation (main_score name tech_stack) ≠ "EXCLUDE").
Proof.
  intros Hno. unfold run_crawl_score, main_score.
  rewrite !script_score_not_excluded by exact Hno. simpl.
  pose proof (spec_score_bounds tech_stack) as Hb.
  destruct (Z.leb_spec 70 (spec_score tech_stack));
    [| destruct (Z.leb_spec 50 (spec_score tech_stack)); [| lia]];
    repeat split; try lia; auto; discriminate.
Qed.

Lemma script_score_floor_witness :
  matches_exclusion "Joe's Cafe" = false
  ∧ 50 ≤ score (run_crawl_score "Joe's Cafe" Examples.bare_stack) ≤ 100
  ∧ recommendation (main_score "Joe's Cafe" Examples.bare_stack) ≠ "EXCLUDE".
Proof.
  split; [reflexivity |].
  destruct (script_score_floor "Joe's Cafe" Examples.bare_stack eq_refl)
    as [(Hscore & _ & _) (_ & _ & Hrec)].
  split; [exact Hscore | exact Hrec].
Defined.

(** ** The HTTP probe *)

Lemma domain_has_dns_run {S : Type} (w : World) (domain : string) (s : S) (h : history) :
  domain ≠ "" →
  ∃ info,
    domain_has_dns w domain s h
    = (Returned (dns_passes w domain h, info), s, h ++ [DnsLookup domain]).
Proof.
  intros Hne. unfold dns_passes, domain_has_dns.
  destruct (String.eqb_spec domain "") as [|_]; [done |].
  unfold try_except, bind, perform, ret.
  destruct (gethostbyname w h domain) as [ip|e]; simpl; [by eexists |].
  destruct (exn_cls e); by eexists.
Qed.

Lemma http_attempt_run (w : World) (cache_key url : string) (attempt : nat)
    (self : DomainVerifier) (h : history) :
  http_attempt w cache_key url attempt self h
  = match requests_head w h url with
    | Returned response =>
        let result :=
          (true, Some (status_code response),
           default "Unknown" (headers response "Server")) in
        (Returned (Some result), cache_store cache_key result self, h ++ [HttpHead url])
    | Raised e =>
        match exn_cls e with
        | Timeout =>
            if decide (S attempt = retries self)
            then (Returned None, self, h ++ [HttpHead url])
            else (Returned None, self, h ++ [HttpHead url; Sleep])
        | _ => (Returned None, self, h ++ [HttpHead url])
        end
    end.
Proof.
  unfold http_attempt, try_except, bind, perform, modify, ret, get_state.
  destruct (requests_head w h url) as [response|e]; simpl; [done |].
  destruct (exn_cls e); try done.
  destruct (Z.eqb_spec (Z.of_nat attempt) (Z.of_nat (retries self) - 1)),
    (decide (S attempt = retries self)); try lia; [done |].
  by rewrite <- app_assoc.
Qed.

Lemma replay_app (w : World) (n : nat) (plan1 plan2 : list (string * nat)) (h : history) :
  replay w n (plan1 ++ plan2) h
  = match replay w n plan1 h with
    | (Some hit, h') => (Some hit, h')
    | (None, h') => replay w n plan2 h'
    end.
Proof.
  revert h. induction plan1 as [|[url attempt] plan1 IH]; intros h; simpl; [done |].
  destruct (requests_head w h url) as [response|e]; [done |].
  destruct (exn_cls e); try apply IH.
  destruct (decide _); apply IH.
Qed.

Lemma attempts_loop_run (w : World) (cache_key url : string) (attempts : list nat)
    (self : DomainVerifier) (h : history) :
  attempts_loop w cache_key url attempts self h
  = pass_outcome cache_key self
      (replay w (retries self) ((fun attempt => (url, attempt)) <$> attempts) h).
Proof.
  revert h. induction attempts as [|attempt attempts IH]; intros h; simpl; [done |].
  unfold bind. rewrite http_attempt_run.
  destruct (requests_head w h url) as [response|e]; simpl; [done |].
  destruct (exn_cls e); try apply IH.
  destruct (decide _); apply IH.
Qed.

Lemma urls_loop_run (w : World) (cache_key : string) (urls : list string)
    (self : DomainVerifier) (h : history) :
  urls_loop w cache_key urls self h
  = pass_outcome cache_key self
      (replay w (retries self) (probe_schedule (retries self) urls) h).
Proof.
  revert h. induction urls as [|url urls IH]; intros h; [done |].
  unfold probe_schedule in *. simpl.
  unfold bind at 1, get_state. unfold bind at 1.
  rewrite attempts_loop_run, replay_app.
  destruct (replay w (retries self) _ h) as [[hit|] h']; simpl; [done |].
  apply IH.
Qed.

(** The whole of [domain_responds_to_http] on a cache miss. *)
Lemma domain_responds_to_http_miss (w : World) (domain : string)
    (self : DomainVerifier) (h : history) :
  domain ≠ "" →
  cache self !! ("http_check:" +:+ domain) = None →
  domain_responds_to_http w domain self h
  = let pass :=
      replay w (retries self)
        (probe_schedule (retries self) ["https://" +:+ domain; "http://" +:+ domain]) h in
    (Returned (probe_result pass.1),
     cache_store ("http_check:" +:+ domain) (probe_result pass.1) self,
     pass.2).
Proof.
  intros Hne Hmiss. unfold domain_responds_to_http.
  destruct (String.eqb_spec domain "") as [|_]; [done |].
  unfold bind at 1, get_state. rewrite Hmiss.
  unfold bind at 1. rewrite urls_loop_run.
  destruct (replay w (retries self) _ h) as [[hit|] h']; simpl; done.
Qed.

Lemma head_urls_app (evs1 evs2 : list io_event) :
  head_urls (evs1 ++ evs2) = head_urls evs1 ++ head_urls evs2.
Proof.
  induction evs1 as [|[] evs1 IH]; simpl; by rewrite ?IH.
Qed.

Lemma replay_events (w : World) (n : nat) (plan : list (string * nat)) (h : history) :
  ∃ evs,
    (replay w n plan h).2 = h ++ evs
    ∧ head_urls evs `prefix_of` plan.*1
    ∧ ((replay w n plan h).1 = None → head_urls evs = plan.*1)
    ∧ (∀ status server,
         (replay w n plan h).1 = Some (status, server) →
         ∃ evs' url response,
           evs = evs' ++ [HttpHead url]
           ∧ requests_head w (h ++ evs') url = Returned response
           ∧ status = status_code response
           ∧ server = default "Unknown" (headers response "Server")).
Proof.
  revert h. induction plan as [|[url attempt] plan IH]; intros h; simpl.
  - exists []. rewrite app_nil_r. repeat split; try done.
  - assert (Hstep : ∀ tail : list io_event,
      head_urls tail = [] →
      ∃ evs,
        (replay w n plan (h ++ HttpHead url :: tail)).2 = h ++ evs
        ∧ head_urls evs `prefix_of` url :: plan.*1
        ∧ ((replay w n plan (h ++ HttpHead url :: tail)).1 = None →
           head_urls evs = url :: plan.*1)
        ∧ (∀ status server,
             (replay w n plan (h ++ HttpHead url :: tail)).1 = Some (status, server) →
             ∃ evs' url' response,
               evs = evs' ++ [HttpHead url']
               ∧ requests_head w (h ++ evs') url' = Returned response
               ∧ status = status_code response
               ∧ server = default "Unknown" (headers response "Server"))).
    { intros tail Htail.
      destruct (IH (h ++ HttpHead url :: tail)) as (evs & Hh & Hpre & Hall & Hlast).
      assert (Hurls : head_urls ((HttpHead url :: tail) ++ evs) = url :: head_urls evs).
      { simpl. by rewrite head_urls_app, Htail. }
      exists ((HttpHead url :: tail) ++ evs). repeat split.
      - by rewrite Hh, <- app_assoc.
      - rewrite Hurls. by apply prefix_cons.
      - intros Hnone. rewrite Hurls. f_equal. by apply Hall.
      - intros status server Hsome.
        destruct (Hlast status server Hsome)
          as (evs' & url' & response & -> & Hresp & Hstatus & Hserver).
        exists ((HttpHead url :: tail) ++ evs'), url', response.
        repeat split; try done.
        + by rewrite <- app_assoc.
        + by rewrite app_assoc. }
    destruct (requests_head w h url) as [response|e] eqn:Hreq; simpl.
    + exists [HttpHead url]. repeat split; try done.
      * apply prefix_cons, prefix_nil.
      * intros status server [= <- <-]. exists [], url, response.
        by rewrite app_nil_r.
    + destruct (exn_cls e); try apply (Hstep [] eq_refl).
      destruct (decide _); [apply (Hstep [] eq_refl) | apply (Hstep [Sleep] eq_refl)].
Qed.

(** When no request is answered and none times out, the pass is the plan
    itself: one HEAD request per entry and no sleep. *)
Lemma replay_refused (w : World) (n : nat) (plan : list (string * nat)) (h : history) :
  (∀ h' url, ∃ e, requests_head w h' url = Raised e ∧ exn_cls e ≠ Timeout) →
  replay w n plan h = (None, h ++ (HttpHead <$> plan.*1)).
Proof.
  intros Hrefused. revert h.
  induction plan as [|[url attempt] plan IH]; intros h.
  - simpl. by rewrite app_nil_r.
  - assert (Hnext : replay w n plan (h ++ [HttpHead url])
                    = (None, h ++ (HttpHead <$> ((url, attempt) :: plan).*1))).
    { rewrite IH, <- app_assoc. done. }
    cbn [replay]. destruct (Hrefused h url) as (e & -> & Hcls).
    destruct (exn_cls e); try done; exact Hnext.
Qed.

Lemma probe_schedule_urls (n : nat) (url1 url2 : string) :
  (probe_schedule n [url1; url2]).*1 = replicate n url1 ++ replicate n url2.
Proof.
  unfold probe_schedule. simpl. rewrite app_nil_r, fmap_app. f_equal.
  - generalize 0%nat. induction n as [|n IH]; intros a; simpl; [done |]. by rewrite IH.
  - generalize 0%nat. induction n as [|n IH]; intros a; simpl; [done |]. by rewrite IH.
Qed.

(** C5 (amended). On a cache miss for a non-empty domain,
    [domain_responds_to_http] is one pass over the plan "https://domain for
    attempts 0..retries-1, then http://domain for attempts 0..retries-1":
    the first response ends the pass and yields (True, status, Server
    header or "Unknown"); a timeout is followed by a 0.5 s sleep unless it
    was the last attempt for its URL; a connection error (or any other
    exception) goes on, without sleeping, to the next attempt, which is for
    the same URL until its [retries] attempts are used up; when the plan is
    exhausted the result is exactly (False, None, "No HTTP response"). The
    result is stored in the cache. *)
Theorem domain_responds_to_http_probe (w : World) (domain : string)
    (self : DomainVerifier) (h : history) :
  domain ≠ "" →
  cache self !! ("http_check:" +:+ domain) = None →
  let https := "https://" +:+ domain in
  let http := "http://" +:+ domain in
  let plan := probe_schedule (retries self) [https; http] in
  let pass := replay w (retries self) plan h in
  domain_responds_to_http w domain self h
  = (Returned (probe_result pass.1),
     cache_store ("http_check:" +:+ domain) (probe_result pass.1) self,
     pass.2)
  ∧ plan.*1 = replicate (retries self) https ++ replicate (retries self) http
  ∧ (∃ evs,
       pass.2 = h ++ evs
       ∧ head_urls evs `prefix_of` plan.*1
       ∧ (pass.1 = None →
          probe_result pass.1 = (false, None, "No HTTP response")
          ∧ head_urls evs = plan.*1)
       ∧ (∀ status server,
            pass.1 = Some (status, server) →
            probe_result pass.1 = (true, Some status, server)
            ∧ ∃ evs' url response,
                evs = evs' ++ [HttpHead url]
                ∧ requests_head w (h ++ evs') url = Returned response
                ∧ status = status_code response
                ∧ server = default "Unknown" (headers response "Server")))
  ∧ ((∀ h' url, ∃ e, requests_head w h' url = Raised e ∧ exn_cls e ≠ Timeout) →
     pass = (None, h ++ (HttpHead <$> (replicate (retries self) https
                                       ++ replicate (retries self) http)))).
Proof.
  intros Hne Hmiss https http plan pass.
  split; [exact (domain_responds_to_http_miss w domain self h Hne Hmiss) |].
  split; [apply probe_schedule_urls |].
  split.
  - destruct (replay_events w (retries self) plan h) as (evs & Hh & Hpre & Hall & Hlast).
    fold pass in Hh, Hall, Hlast.
    exists evs. split; [exact Hh |]. split; [exact Hpre |]. split.
    + intros Hnone. split; [by rewrite Hnone | by apply Hall].
    + intros status server Hsome. split; [by rewrite Hsome | by apply Hlast].
  - intros Hrefused. unfold pass.
    rewrite (replay_refused w (retries self) plan h Hrefused).
    unfold plan. by rewrite probe_schedule_urls.
Qed.

Lemma domain_responds_to_http_probe_witness :
  "example.com" ≠ ""
  ∧ cache new_DomainVerifier !! ("http_check:" +:+ "example.com") = None
  ∧ (domain_responds_to_http Examples.live_world "example.com" new_DomainVerifier []).1.1
    = Returned (true, Some 200, "nginx").
Proof.
  assert (Hne : "example.com" ≠ "") by discriminate.
  assert (Hmiss : cache new_DomainVerifier !! ("http_check:" +:+ "example.com") = None)
    by reflexivity.
  split; [exact Hne |]. split; [exact Hmiss |].
  destruct (domain_responds_to_http_probe Examples.live_world "example.com"
              new_DomainVerifier [] Hne Hmiss) as [-> _].
  reflexivity.
Defined.

(** C5 as stated fails: when connections are refused, the second HEAD
    request goes to the URL whose first request has just raised
    [ConnectionError]. *)
Lemma connection_error_retries_same_url :
  (domain_responds_to_http Examples.refusing_world "example.com" new_DomainVerifier []).2
  = [ HttpHead "https://example.com"; HttpHead "https://example.com";
      HttpHead "http://example.com"; HttpHead "http://example.com" ]
  ∧ ¬ connection_error_moves_on Examples.refusing_world []
        (domain_responds_to_http Examples.refusing_world "example.com"
           new_DomainVerifier []).2.
Proof.
  assert (Hevs :
    (domain_responds_to_http Examples.refusing_world "example.com" new_DomainVerifier []).2
    = [ HttpHead "https://example.com"; HttpHead "https://example.com";
        HttpHead "http://example.com"; HttpHead "http://example.com" ])
    by (vm_compute; reflexivity).
  split; [exact Hevs |].
  rewrite Hevs. intros Hmoves.
  apply (Hmoves 0%nat 1%nat "https://example.com"
           (Examples.error ConnectionError "connection refused")); done || lia.
Qed.

(** ** The cache *)

(** C7. A second call to [domain_responds_to_http] for the same domain on
    the same verifier returns the tuple of the first call and adds nothing
    to the I/O history (no HTTP request is issued); for a non-empty domain
    the first call has left that tuple in the cache under
    "http_check:" + domain. *)
Theorem http_check_cached (w : World) (domain : string) (self : DomainVerifier)
    (h : history) :
  ∃ result self1 h1,
    domain_responds_to_http w domain self h = (Returned result, self1, h1)
    ∧ domain_responds_to_http w domain self1 h1 = (Returned result, self1, h1)
    ∧ (domain ≠ "" → cache self1 !! ("http_check:" +:+ domain) = Some result).
Proof.
  destruct (decide (domain = "")) as [->|Hne].
  { by exists (false, None, "Empty domain"), self, h. }
  assert (Hhit : ∀ self1 h1 result,
    cache self1 !! ("http_check:" +:+ domain) = Some result →
    domain_responds_to_http w domain self1 h1 = (Returned result, self1, h1)).
  { intros self1 h1 result Hcached. unfold domain_responds_to_http.
    destruct (String.eqb_spec domain "") as [|_]; [done |].
    unfold bind, get_state. by rewrite Hcached. }
  destruct (cache self !! ("http_check:" +:+ domain)) as [cached|] eqn:Hlookup.
  - exists cached, self, h. auto.
  - eexists _, _, _.
    split; [exact (domain_responds_to_http_miss w domain self h Hne Hlookup) |].
    assert (Hstored :
      cache (cache_store ("http_check:" +:+ domain)
               (probe_result
                  (replay w (retries self)
                     (probe_schedule (retries self)
                        ["https://" +:+ domain; "http://" +:+ domain]) h).1) self)
        !! ("http_check:" +:+ domain)
      = Some (probe_result
                (replay w (retries self)
                   (probe_schedule (retries self)
                      ["https://" +:+ domain; "http://" +:+ domain]) h).1))
      by apply lookup_insert_eq.
    split; [by apply Hhit | by intros _].
Qed.

(** ** [verify_domain] *)

Lemma domain_responds_to_http_returns (w : World) (domain : string)
    (self : DomainVerifier) (h : history) :
  ∃ status info self' evs,
    domain_responds_to_http w domain self h
    = (Returned (http_passes w domain self h, status, info), self', h ++ evs).
Proof.
  unfold http_passes.
  destruct (decide (domain = "")) as [->|Hne].
  { exists None, "Empty domain", self, []. by rewrite app_nil_r. }
  destruct (cache self !! ("http_check:" +:+ domain)) as [[[ok status] info]|] eqn:Hlookup.
  - exists status, info, self, []. rewrite app_nil_r.
    unfold domain_responds_to_http.
    destruct (String.eqb_spec domain "") as [|_]; [done |].
    unfold bind, get_state. by rewrite Hlookup.
  - rewrite (domain_responds_to_http_miss w domain self h Hne Hlookup).
    destruct (replay_events w (retries self)
                (probe_schedule (retries self)
                   ["https://" +:+ domain; "http://" +:+ domain]) h)
      as (evs & Hh & _).
    cbv zeta. rewrite Hh.
    destruct (probe_result _) as [[ok status] info].
    by eexists status, info, _, evs.
Qed.

Lemma verify_domain_returns (w : World) (domain : string)
    (require_dns require_http : bool) (self : DomainVerifier) (h : history) :
  ∃ r self' h',
    verify_domain w domain require_dns require_http self h = (Returned r, self', h').
Proof.
  unfold verify_domain.
  destruct (String.eqb domain ""); [by eexists _, _, _ |].
  destruct (get_domain_from_url w domain) as [[|c clean]|]; try by eexists _, _, _.
  assert (Hhttp : ∀ dns_valid dns_ip self1 h1, ∃ r self' h',
    (if require_http then
       http <- domain_responds_to_http w (String c clean) ;;
       let '(http_ok, status_code, server_info) := http in
       if http_ok : bool then
         ret {| vr_verified := true; vr_domain := Some (String c clean);
                vr_dns_valid := dns_valid; vr_dns_ip := dns_ip;
                vr_http_responds := http_ok; vr_http_status := status_code;
                vr_server := Some server_info; vr_error := None |}
       else
         ret {| vr_verified := false; vr_domain := Some (String c clean);
                vr_dns_valid := dns_valid; vr_dns_ip := dns_ip;
                vr_http_responds := http_ok; vr_http_status := None;
                vr_server := None; vr_error := Some server_info |}
     else
       ret {| vr_verified := false; vr_domain := Some (String c clean);
              vr_dns_valid := dns_valid; vr_dns_ip := dns_ip;
              vr_http_responds := false; vr_http_status := None;
              vr_server := None; vr_error := None |}) self1 h1
    = (Returned r, self', h')).
  { intros dns_valid dns_ip self1 h1.
    destruct require_http; [| by eexists _, _, _].
    unfold bind.
    destruct (domain_responds_to_http_returns w (String c clean) self1 h1)
      as (status & info & self' & evs & ->).
    destruct (http_passes _ _ _ _); by eexists _, _, _. }
  destruct require_dns.
  - unfold bind at 1. unfold bind at 1.
    destruct (domain_has_dns_run w (String c clean) self h) as (dns_info & ->); [done |].
    destruct (dns_passes _ _ _); unfold ret at 1; [apply Hhttp | by eexists _, _, _].
  - unfold bind at 1. unfold ret at 1. apply Hhttp.
Qed.

(** C2 (amended). [verify_domain] never raises, and [verified] is true
    exactly when the HTTP check is required and every required check
    passes: with [require_http = False] the result is never verified. Under
    the defaults [verified] is [dns_valid and http_responds]. A candidate
    that is empty or has no host is rejected with an error before any check
    runs. When the required DNS check fails, the error is set and the call
    returns after that one lookup, without any HTTP request and without
    touching the cache; when the HTTP check fails the error is set too. *)
Theorem verify_domain_verified (w : World) (domain : string)
    (require_dns require_http : bool) (self : DomainVerifier) (h : history) :
  ∃ r self' evs,
    verify_domain w domain require_dns require_http self h
    = (Returned r, self', h ++ evs)
    ∧ vr_verified r = require_http && required_checks_passed require_dns require_http r
    ∧ (require_dns = true → require_http = true →
       vr_verified r = vr_dns_valid r && vr_http_responds r)
    ∧ match clean_candidate w domain with
      | None =>
          vr_verified r = false ∧ is_Some (vr_error r) ∧ evs = [] ∧ self' = self
      | Some clean_domain =>
          let dns_ok := dns_passes w clean_domain h in
          let h1 := if require_dns then h ++ [DnsLookup clean_domain] else h in
          let http_ok := http_passes w clean_domain self h1 in
          vr_dns_valid r = require_dns && dns_ok
          ∧ vr_http_responds r = implb require_dns dns_ok && require_http && http_ok
          ∧ vr_verified r = implb require_dns dns_ok && require_http && http_ok
          ∧ (require_dns = true → dns_ok = false →
             is_Some (vr_error r) ∧ evs = [DnsLookup clean_domain] ∧ self' = self)
          ∧ (implb require_dns dns_ok = true → require_http = true → http_ok = false →
             is_Some (vr_error r))
      end.
Proof.
  unfold clean_candidate, verify_domain.
  destruct (String.eqb_spec domain "") as [Hempty|Hne].
  { eexists _, self, []. rewrite app_nil_r. split; [reflexivity |].
    simpl. by destruct require_dns, require_http. }
  destruct (get_domain_from_url w domain) as [[|c clean]|].
  1, 3: eexists _, self, []; rewrite app_nil_r; (split; [reflexivity |]);
        simpl; by destruct require_dns, require_http.
  remember (String c clean) as clean_domain eqn:Heq.
  assert (Hclean : clean_domain ≠ "") by (by rewrite Heq).
  clear Heq.
  destruct require_dns.
  - unfold bind at 1. unfold bind at 1.
    destruct (domain_has_dns_run w clean_domain self h Hclean) as (dns_info & ->).
    destruct (dns_passes w clean_domain h) eqn:Hdns; unfold ret at 1.
    + destruct require_http.
      * unfold bind at 1.
        destruct (domain_responds_to_http_returns w clean_domain self
                    (h ++ [DnsLookup clean_domain])) as (status & info & self' & evs & ->).
        rewrite <- app_assoc.
        destruct (http_passes w clean_domain self (h ++ [DnsLookup clean_domain]))
          eqn:Hhttp; eexists _, self', _; (split; [reflexivity |]); simpl;
          rewrite ?Hdns, ?Hhttp; simpl; repeat split; try done.
      * eexists _, self, [DnsLookup clean_domain]. split; [reflexivity |].
        simpl. repeat split; try done.
    + eexists _, self, [DnsLookup clean_domain]. split; [reflexivity |].
      simpl. destruct require_http; repeat split; try done.
  - unfold bind at 1. unfold ret at 1.
    destruct require_http.
    + unfold bind at 1.
      destruct (domain_responds_to_http_returns w clean_domain self h)
        as (status & info & self' & evs & ->).
      destruct (http_passes w clean_domain self h) eqn:Hhttp;
        eexists _, self', _; (split; [reflexivity |]); simpl;
        rewrite ?Hhttp; simpl; repeat split; try done.
    + eexists _, self, []. rewrite app_nil_r. split; [reflexivity |].
      simpl. repeat split; try done.
Qed.

(** C2 as stated fails: with [require_http = False] the one required
    check (DNS) passes and the result is still unverified. *)
Lemma unverified_though_required_checks_pass :
  ∃ r,
    (verify_domain Examples.live_world "example.com" true false new_DomainVerifier []).1.1
    = Returned r
    ∧ dns_passes Examples.live_world "example.com" [] = true
    ∧ required_checks_passed true false r = true
    ∧ vr_verified r = false
    ∧ ¬ (vr_verified r = true ↔ required_checks_passed true false r = true).
Proof.
  eexists. split; [vm_compute; reflexivity |].
  repeat split; try reflexivity.
  simpl. intros [_ H]. specialize (H eq_refl). discriminate.
Qed.

(** ** The domain-guessing fallback *)

Lemma tld_loop_flat (w : World) (pattern : string) (tlds : list string) :
  tld_loop w pattern tlds
  = first_verified w ((fun tld => pattern +:+ "." +:+ tld) <$> tlds).
Proof.
  induction tlds as [|tld tlds IH]; simpl; [done |]. by rewrite IH.
Qed.

Lemma first_verified_app (w : World) (l1 l2 : list string)
    (self : DomainVerifier) (h : history) :
  first_verified w (l1 ++ l2) self h
  = match first_verified w l1 self h with
    | (Returned None, self', h') => first_verified w l2 self' h'
    | other => other
    end.
Proof.
  revert self h. induction l1 as [|d l1 IH]; intros self h; simpl; [done |].
  unfold bind.
  destruct (verify_domain_returns w d true true self h) as (r & self1 & h1 & ->).
  destruct (vr_verified r); [done | apply IH].
Qed.

Lemma first_verified_returns (w : World) (l : list string)
    (self : DomainVerifier) (h : history) :
  ∃ o self' h', first_verified w l self h = (Returned o, self', h').
Proof.
  revert self h. induction l as [|d l IH]; intros self h; simpl.
  - by eexists _, _, _.
  - unfold bind.
    destruct (verify_domain_returns w d true true self h) as (r & self1 & h1 & ->).
    destruct (vr_verified r); [by eexists _, _, _ | apply IH].
Qed.

Lemma pattern_loop_flat (w : World) (patterns : list string)
    (self : DomainVerifier) (h : history) :
  pattern_loop w patterns self h
  = first_verified w (guess_candidates patterns) self h.
Proof.
  revert self h. unfold guess_candidates.
  induction patterns as [|pattern patterns IH]; intros self h; [done |].
  cbn [pattern_loop mbind list_bind]. change (list_bind ?f ?l) with (l ≫= f).
  rewrite first_verified_app, <- tld_loop_flat. unfold bind.
  destruct (first_verified_returns w ((fun tld => pattern +:+ "." +:+ tld) <$> TLDS)
              self h) as (o & self1 & h1 & Hrun).
  rewrite <- tld_loop_flat in Hrun. rewrite Hrun.
  destruct o; [done | apply IH].
Qed.

Lemma first_verified_tried (w : World) (candidates : list string)
    (self : DomainVerifier) (h : history) :
  ∃ o self' h',
    first_verified w candidates self h = (Returned o, self', h')
    ∧ tried_in_order w candidates self h o self' h'.
Proof.
  revert self h. induction candidates as [|d l IH]; intros self h; simpl.
  - exists None, self, h. split; [done |]. by exists [], [], [].
  - unfold bind.
    destruct (verify_domain_returns w d true true self h) as (r & self1 & h1 & Hr).
    rewrite Hr. destruct (vr_verified r) eqn:Hv.
    + exists (Some r), self1, h1. split; [done |].
      exists [d], l, [r]. split; [done |]. split.
      * simpl. unfold bind. by rewrite Hr.
      * by exists [].
    + destruct (IH self1 h1) as (o & self' & h' & Hrun & tried & rest & results
                                  & Hsplit & Heach & Ho).
      exists o, self', h'. split; [done |].
      exists (d :: tried), rest, (r :: results). split; [by rewrite Hsplit |]. split.
      * simpl. unfold bind. by rewrite Hr, Heach.
      * destruct o as [r0|].
        -- destruct Ho as (before & -> & Hv0 & Hbefore).
           exists (r :: before). repeat split; try done. by constructor.
        -- destruct Ho as [-> Hall]. split; [done | by constructor].
Qed.

(** C8 (amended). For a company name with at least one word the guessing
    fallback tries, pattern-major and TLD-minor, (a) the lower-cased name
    with its spaces removed, (b) the lower-cased name with each space
    replaced by a hyphen, (c) its first word, each with com, net, org, biz
    in that order, and stops at the first candidate that verifies. Only
    spaces are touched: other characters of the name, such as an
    apostrophe, stay in the candidates. *)
Theorem guess_order (w : World) (company_name first_word : string)
    (self : DomainVerifier) (h : history) :
  PyStr.split_first (PyStr.lower company_name) = Some first_word →
  let a := PyStr.replace_char " " "" (PyStr.lower company_name) in
  let b := PyStr.replace_char " " "-" (PyStr.lower company_name) in
  let c := first_word in
  guess_patterns company_name = Returned [a; b; c]
  ∧ guess_candidates [a; b; c]
    = [ a +:+ ".com"; a +:+ ".net"; a +:+ ".org"; a +:+ ".biz";
        b +:+ ".com"; b +:+ ".net"; b +:+ ".org"; b +:+ ".biz";
        c +:+ ".com"; c +:+ ".net"; c +:+ ".org"; c +:+ ".biz" ]
  ∧ (∃ o self' h',
       tried_in_order w (guess_candidates [a; b; c]) self h o self' h'
       ∧ run_crawl_verify w company_name "" self h = (Returned o, self', h'))
  ∧ (∃ o self' h',
       tried_in_order w (guess_candidates [a; b; c]) new_DomainVerifier h o self' h'
       ∧ verify_website_from_company w company_name None h
         = (Returned
              match o with
              | Some result => CompanyVerified result
              | None =>
                  CompanyUnverified ("Could not verify domain for " +:+ company_name)
              end, h')).
Proof.
  intros Hword a b c.
  assert (Hpatterns : guess_patterns company_name = Returned [a; b; c])
    by (unfold guess_patterns; by rewrite Hword).
  split; [exact Hpatterns |]. split; [reflexivity |].
  split.
  - destruct (first_verified_tried w (guess_candidates [a; b; c]) self h)
      as (o & self' & h' & Hrun & Htried).
    rewrite <- pattern_loop_flat in Hrun.
    exists o, self', h'. split; [exact Htried |].
    unfold run_crawl_verify. simpl negb. cbv iota.
    unfold bind at 1. unfold ret at 1. rewrite Hpatterns.
    unfold bind at 1. unfold of_outcome at 1. exact Hrun.
  - destruct (first_verified_tried w (guess_candidates [a; b; c]) new_DomainVerifier h)
      as (o & self' & h' & Hrun & Htried).
    rewrite <- pattern_loop_flat in Hrun.
    exists o, self', h'. split; [exact Htried |].
    unfold verify_website_from_company, verify_website_with.
    simpl PyStr.truthy. cbv iota.
    unfold bind at 1. unfold ret at 1. rewrite Hpatterns.
    unfold bind at 1. unfold of_outcome at 1. unfold bind at 1.
    rewrite Hrun. by destruct o.
Qed.

Lemma guess_order_witness :
  PyStr.split_first (PyStr.lower "Joe's Cafe") = Some "joe's"
  ∧ guess_patterns "Joe's Cafe" = Returned ["joe'scafe"; "joe's-cafe"; "joe's"]
  ∧ guess_candidates ["joe'scafe"; "joe's-cafe"; "joe's"]
    = [ "joe'scafe.com"; "joe'scafe.net"; "joe'scafe.org"; "joe'scafe.biz";
        "joe's-cafe.com"; "joe's-cafe.net"; "joe's-cafe.org"; "joe's-cafe.biz";
        "joe's.com"; "joe's.net"; "joe's.org"; "joe's.biz" ].
Proof.
  split; [reflexivity |].
  destruct (guess_order Examples.joes_world "Joe's Cafe" "joe's" new_DomainVerifier []
              eq_refl) as (Hpatterns & Hcandidates & _).
  split; [exact Hpatterns | exact Hcandidates].
Defined.

(** C8 as stated fails on its own example: for "Joe's Cafe" the first
    domain looked up is joe'scafe.com, not joescafe.com, and so on down the
    list; the search stops at joe's-cafe.net when that is the site that
    exists. *)
Lemma joes_cafe_guesses_keep_apostrophe :
  (verify_website_from_company Examples.offline_world "Joe's Cafe" None []).2
  = DnsLookup <$>
      [ "joe'scafe.com"; "joe'scafe.net"; "joe'scafe.org"; "joe'scafe.biz";
        "joe's-cafe.com"; "joe's-cafe.net"; "joe's-cafe.org"; "joe's-cafe.biz";
        "joe's.com"; "joe's.net"; "joe's.org"; "joe's.biz" ]
  ∧ (verify_website_from_company Examples.joes_world "Joe's Cafe" None []).2
    = [ DnsLookup "joe'scafe.com"; DnsLookup "joe'scafe.net";
        DnsLookup "joe'scafe.org"; DnsLookup "joe'scafe.biz";
        DnsLookup "joe's-cafe.com"; DnsLookup "joe's-cafe.net";
        HttpHead "https://joe's-cafe.net" ]
  ∧ take 5 (verify_website_from_company Examples.offline_world "Joe's Cafe" None []).2
    ≠ DnsLookup <$>
        [ "joescafe.com"; "joescafe.net"; "joescafe.org"; "joescafe.biz";
          "joes-cafe.com" ].
Proof.
  split; [vm_compute; reflexivity |].
  split; [vm_compute; reflexivity |].
  vm_compute. discriminate.
Qed.

(** ** The fingerprinting detectors *)

(** A detector body that starts with a request and is wrapped in
    [try: ... except Exception: return result] returns a result whatever
    happens, and the initial one when the request raises. *)
Lemma guarded_request {S T A : Type} (init : S) (ev : io_event)
    (answer : history → outcome A) (k : A → Py S S) (t : T) (h : history) :
  ∃ r h',
    with_local init (try_except (x <- perform ev answer ;; k x) (fun _ => get_state)) t h
    = (Returned r, t, h')
    ∧ match answer h with
      | Raised _ => r = init
      | Returned _ => True
      end.
Proof.
  unfold with_local, try_except, bind, perform, get_state.
  destruct (answer h) as [a|e]; [| by eexists _, _].
  destruct (k a init (h ++ [ev])) as [[[r|e] s] h']; by eexists _, _.
Qed.

(** C9. [detect_server_info], [detect_wordpress] and [detect_other_cms]
    return a result for every URL and every behaviour of the network and of
    the external tools; when the request they start with raises, the
    result is the struct of defaults; [analyze_tech_stack], their
    composition, therefore returns a tech stack as well. *)
Theorem detectors_never_raise {T : Type} (w : World) (url : string) (t : T)
    (h : history) :
  (∃ r h',
     detect_server_info w url t h = (Returned r, t, h')
     ∧ match requests_head w h url with
       | Raised _ => r = default_server_info
       | Returned _ => True
       end)
  ∧ (∃ r h',
       detect_wordpress w url t h = (Returned r, t, h')
       ∧ match requests_get w h url with
         | Raised _ => r = default_wordpress_info
         | Returned _ => True
         end)
  ∧ (∃ r h',
       detect_other_cms w url t h = (Returned r, t, h')
       ∧ match requests_get w h url with
         | Raised _ => r = default_other_cms
         | Returned _ => True
         end)
  ∧ (∃ tech_stack h', analyze_tech_stack w url t h = (Returned tech_stack, t, h')).
Proof.
  assert (Hserver : ∀ h, ∃ r h',
    detect_server_info w url t h = (Returned r, t, h')
    ∧ match requests_head w h url with
      | Raised _ => r = default_server_info
      | Returned _ => True
      end)
    by (intros h0; exact (guarded_request default_server_info (HttpHead url)
                            (fun h => requests_head w h url) _ t h0)).
  assert (Hwordpress : ∀ h, ∃ r h',
    detect_wordpress w url t h = (Returned r, t, h')
    ∧ match requests_get w h url with
      | Raised _ => r = default_wordpress_info
      | Returned _ => True
      end)
    by (intros h0; exact (guarded_request default_wordpress_info (HttpGet url)
                            (fun h => requests_get w h url) _ t h0)).
  assert (Hother : ∀ h, ∃ r h',
    detect_other_cms w url t h = (Returned r, t, h')
    ∧ match requests_get w h url with
      | Raised _ => r = default_other_cms
      | Returned _ => True
      end)
    by (intros h0; exact (guarded_request default_other_cms (HttpGet url)
                            (fun h => requests_get w h url) _ t h0)).
  split; [apply Hserver |]. split; [apply Hwordpress |]. split; [apply Hother |].
  unfold analyze_tech_stack, bind.
  destruct (Hserver h) as (server & h1 & -> & _).
  destruct (Hwordpress h1) as (wordpress & h2 & -> & _).
  destruct (Hother h2) as (other & h3 & -> & _).
  by eexists _, _.
Qed.

(** ** [assess_sales_fit] and its fallback *)

Lemma heuristic_score_spec (name location domain : string) (osint_findings : Z)
    (tech_stack : TechStack) (sales_signals : SalesSignals) :
  ∃ rs,
    _heuristic_score name location domain osint_findings tech_stack sales_signals
    = (heuristic_total location osint_findings tech_stack sales_signals,
       (if 70 <=? heuristic_total location osint_findings tech_stack sales_signals
        then "CONTACT"
        else if 50 <=? heuristic_total location osint_findings tech_stack sales_signals
             then "MAYBE" else "EXCLUDE"),
       rs).
Proof.
  assert (Htuple : ∀ (a b : Z) (rs : list string),
    a = b →
    ∃ rs', (a, (if 70 <=? a then "CONTACT" else if 50 <=? a then "MAYBE" else "EXCLUDE"), rs)
           = (b, (if 70 <=? b then "CONTACT" else if 50 <=? b then "MAYBE" else "EXCLUDE"),
              rs')).
  { intros a b rs ->. by exists rs. }
  unfold _heuristic_score, heuristic_total.
  destruct tech_stack as [srv [wp ? ? vuln ? ? outd] ? ?].
  destruct sales_signals as [outdated_server ? ? poor opp ?]. simpl.
  assert (Hloc : negb (String.eqb location "")
                 && negb (bool_decide (PyStr.lower location ∈ ["online"; "unknown"]))
                 = bool_decide (location ≠ "" ∧ PyStr.lower location ∉ ["online"; "unknown"])).
  { destruct (String.eqb_spec location "") as [Hl|Hl]; simpl.
    - symmetry. apply bool_decide_eq_false. tauto.
    - destruct (decide (PyStr.lower location ∈ ["online"; "unknown"])) as [Hin|Hin].
      + rewrite (bool_decide_eq_true_2 _ Hin). simpl.
        symmetry. apply bool_decide_eq_false. tauto.
      + rewrite (bool_decide_eq_false_2 _ Hin). simpl.
        symmetry. by apply bool_decide_eq_true. }
  rewrite Hloc. clear Hloc.
  destruct (decide (location ≠ "" ∧ PyStr.lower location ∉ ["online"; "unknown"]))
    as [Hl|Hl];
    [rewrite (bool_decide_eq_true_2 _ Hl) | rewrite (bool_decide_eq_false_2 _ Hl)];
    (destruct (Z.ltb_spec 0 osint_findings), (decide (0 < osint_findings)); try lia);
    destruct wp, vuln as [|v vuln], outd, poor, outdated_server; simpl;
    apply Htuple; lia.
Qed.

(** C3 (amended). When the name matches no exclusion keyword and the LLM
    path fails (the tool is missing or times out, exits non-zero, or prints
    no JSON object), [assess_sales_fit] returns the result of
    [_heuristic_score], a heuristic of its own: it starts at 50, adds 10
    for a location other than "online"/"unknown" and otherwise subtracts
    20, adds min(20, n) for n > 0 OSINT findings and otherwise subtracts
    15, adds 15 for WordPress and, only then, 20 for vulnerable plugins and
    15 for an outdated core, adds 10 for poor security, 5 for an outdated
    server, and the opportunity score of the signals; the total is not
    clamped, and the recommendation follows the 70/50 thresholds. *)
Theorem fallback_is_heuristic {S : Type} (w : World)
    (company_name location domain : string) (osint_findings : Z)
    (tech_stack : TechStack) (sales_signals : SalesSignals) (s : S) (h : history) :
  matches_exclusion company_name = false →
  llm_path_fails w
    (subprocess_run w h ["gemini"]
       (llm_prompt w company_name location domain osint_findings tech_stack
          sales_signals)) = true →
  ∃ fit_reasons,
    _heuristic_score company_name location domain osint_findings tech_stack
      sales_signals
    = (heuristic_total location osint_findings tech_stack sales_signals,
       (if 70 <=? heuristic_total location osint_findings tech_stack sales_signals
        then "CONTACT"
        else if 50 <=? heuristic_total location osint_findings tech_stack sales_signals
             then "MAYBE" else "EXCLUDE"),
       fit_reasons)
    ∧ assess_sales_fit w company_name location domain osint_findings tech_stack
        sales_signals s h
      = (Returned
           (Scored (heuristic_total location osint_findings tech_stack sales_signals)
              (if 70 <=? heuristic_total location osint_findings tech_stack sales_signals
               then "CONTACT"
               else if 50 <=? heuristic_total location osint_findings tech_stack
                                sales_signals
                    then "MAYBE" else "EXCLUDE")
              fit_reasons),
         s, h ++ [RunProcess ["gemini"]]).
Proof.
  intros Hno Hfails.
  destruct (heuristic_score_spec company_name location domain osint_findings
              tech_stack sales_signals) as (rs & Hheur).
  exists rs. split; [exact Hheur |].
  unfold assess_sales_fit.
  rewrite keyword_filter_no_match by exact Hno.
  unfold bind at 1. unfold try_except at 1. unfold bind at 1. unfold perform at 1.
  unfold llm_path_fails in Hfails.
  destruct (subprocess_run w h ["gemini"] _) as [result|e].
  2: { unfold ret at 1. by rewrite Hheur. }
  destruct (returncode result =? 0).
  2: { unfold ret at 1. by rewrite Hheur. }
  unfold read_llm_answer, try_except.
  destruct (_ && _).
  2: { unfold ret at 1. by rewrite Hheur. }
  unfold bind at 1. unfold of_outcome at 1.
  destruct (json_loads w _) as [[| | | | | |members]|e]; try done;
    try (unfold PyJson.get, of_outcome, bind, raise, ret; simpl; by rewrite Hheur).
  unfold raise, ret. destruct (exn_cls e); by rewrite Hheur.
Qed.

Lemma fallback_is_heuristic_witness :
  matches_exclusion "Acme Plumbing" = false
  ∧ llm_path_fails Examples.live_world
      (subprocess_run Examples.live_world [] ["gemini"]
         (llm_prompt Examples.live_world "Acme Plumbing" "Fort Smith, AR"
            "acmeplumbing.com" 0 Examples.bare_stack Examples.bare_signals)) = true
  ∧ ∃ fit_reasons,
      (assess_sales_fit Examples.live_world "Acme Plumbing" "Fort Smith, AR"
         "acmeplumbing.com" 0 Examples.bare_stack Examples.bare_signals tt []).1.1
      = Returned (Scored 65 "MAYBE" fit_reasons).
Proof.
  split; [reflexivity |]. split; [reflexivity |].
  destruct (fallback_is_heuristic (S := unit) Examples.live_world "Acme Plumbing"
              "Fort Smith, AR" "acmeplumbing.com" 0 Examples.bare_stack
              Examples.bare_signals tt [] eq_refl eq_refl) as (rs & _ & Hfit).
  exists rs. rewrite Hfit. reflexivity.
Defined.

(** C3 as stated fails: for a site the fingerprinter learns nothing about,
    at a local address and without OSINT findings, the fallback returns 65
    with three reasons of its own, where the scorer of the crawl scripts
    returns 60 with the reason for the missing security headers. *)
Lemma fallback_differs_from_script_score :
  matches_exclusion "Acme Plumbing" = false
  ∧ (assess_sales_fit Examples.live_world "Acme Plumbing" "Fort Smith, AR"
       "acmeplumbing.com" 0 Examples.bare_stack Examples.bare_signals tt [])
    = (Returned
         (Scored 65 "MAYBE"
            [ "Local company: Fort Smith, AR"; "Minimal OSINT data found";
              "Poor security posture - opportunity" ]),
       tt, [RunProcess ["gemini"]])
  ∧ run_crawl_score "Acme Plumbing" Examples.bare_stack
    = {| score := 60; recommendation := "MAYBE";
         reasons := ["Missing security headers"] |}
  ∧ ¬ fallback_is_script_score Examples.live_world "Acme Plumbing" "Fort Smith, AR"
        "acmeplumbing.com" 0 Examples.bare_stack Examples.bare_signals [].
Proof.
  split; [reflexivity |]. split; [vm_compute; reflexivity |].
  split; [vm_compute; reflexivity |].
  unfold fallback_is_script_score. vm_compute. discriminate.
Qed.

(** * Further properties *)

(** ** [get_domain_from_url] and [domain_has_dns] *)

Lemma startswith_append (p rest : string) : PyStr.startswith (p +:+ rest) p = true.
Proof. apply startswith_spec. by exists rest. Qed.

(** X1. A candidate written without a scheme is verified as the same
    candidate with "http://" in front: when it has a host, [verify_domain]
    does the same I/O and returns the same result for both. *)
Theorem verify_domain_default_scheme (w : World) (url : string)
    (require_dns require_http : bool) (self : DomainVerifier) (h : history) :
  PyStr.startswith url "http://" = false →
  PyStr.startswith url "https://" = false →
  PyStr.startswith url "//" = false →
  is_Some (clean_candidate w url) →
  get_domain_from_url w ("http://" +:+ url) = get_domain_from_url w url
  ∧ verify_domain w ("http://" +:+ url) require_dns require_http self h
    = verify_domain w url require_dns require_http self h.
Proof.
  intros H1 H2 H3 [clean Hclean].
  assert (Hne : url ≠ "").
  { intros ->. unfold clean_candidate in Hclean. simpl in Hclean. discriminate. }
  assert (Hsame : get_domain_from_url w ("http://" +:+ url) = get_domain_from_url w url).
  { unfold get_domain_from_url.
    destruct (String.eqb_spec url "") as [|_]; [done |].
    by rewrite H1, H2, H3. }
  split; [exact Hsame |].
  unfold clean_candidate in Hclean. unfold verify_domain.
  destruct (String.eqb_spec url "") as [|_]; [done |].
  rewrite Hsame. simpl.
  by destruct (get_domain_from_url w url) as [[|c s]|].
Qed.

Lemma verify_domain_default_scheme_witness :
  PyStr.startswith "example.com/about" "http://" = false
  ∧ PyStr.startswith "example.com/about" "https://" = false
  ∧ PyStr.startswith "example.com/about" "//" = false
  ∧ is_Some (clean_candidate Examples.live_world "example.com/about")
  ∧ get_domain_from_url Examples.live_world "http://example.com/about"
    = get_domain_from_url Examples.live_world "example.com/about".
Proof.
  assert (Hclean : is_Some (clean_candidate Examples.live_world "example.com/about"))
    by (by eexists).
  split; [reflexivity |]. split; [reflexivity |]. split; [reflexivity |].
  split; [exact Hclean |].
  destruct (verify_domain_default_scheme Examples.live_world "example.com/about"
              true true new_DomainVerifier [] eq_refl eq_refl eq_refl Hclean)
    as [Hsame _].
  exact Hsame.
Defined.

(** X2. [domain_has_dns] never raises and leaves the caller's state alone.
    For an empty domain it answers (False, "Empty domain") without a
    lookup; otherwise it makes exactly one lookup and answers (True, ip)
    when the resolver returns, (False, "DNS resolution failed") on
    [socket.gaierror], and (False, "DNS error: " + message) on any other
    exception. *)
Theorem domain_has_dns_cases {S : Type} (w : World) (domain : string) (s : S)
    (h : history) :
  ∃ ok info h',
    domain_has_dns w domain s h = (Returned (ok, info), s, h')
    ∧ if decide (domain = "") then
        ok = false ∧ info = "Empty domain" ∧ h' = h
      else
        h' = h ++ [DnsLookup domain]
        ∧ match gethostbyname w h domain with
          | Returned ip => ok = true ∧ info = ip
          | Raised e =>
              ok = false
              ∧ info = match exn_cls e with
                       | Gaierror => "DNS resolution failed"
                       | _ => "DNS error: " +:+ exn_str e
                       end
          end.
Proof.
  unfold domain_has_dns.
  destruct (decide (domain = "")) as [->|Hne]; simpl.
  { by exists false, "Empty domain", h. }
  destruct (String.eqb_spec domain "") as [|_]; [done |].
  unfold try_except, bind, perform, ret.
  destruct (gethostbyname w h domain) as [ip|e]; simpl.
  - by exists true, ip, (h ++ [DnsLookup domain]).
  - destruct (exn_cls e) eqn:Hcls; by eexists false, _, _.
Qed.

(** ** [verify_domain], step by step *)

Lemma domain_has_dns_info {S : Type} (w : World) (domain : string) (s : S) (h : history) :
  domain ≠ "" →
  domain_has_dns w domain s h
  = (Returned (dns_passes w domain h, dns_info w domain h), s, h ++ [DnsLookup domain]).
Proof.
  intros Hne. unfold dns_passes, dns_info, domain_has_dns.
  destruct (String.eqb_spec domain "") as [|_]; [done |].
  unfold try_except, bind, perform, ret.
  destruct (gethostbyname w h domain) as [ip|e]; simpl; [done |].
  by destruct (exn_cls e).
Qed.

(** [verify_domain] on a candidate with a host, as one expression. *)
Lemma verify_domain_run (w : World) (domain clean_domain : string)
    (require_dns require_http : bool) (self : DomainVerifier) (h : history) :
  clean_candidate w domain = Some clean_domain →
  verify_domain w domain require_dns require_http self h
  = let h1 := if require_dns then h ++ [DnsLookup clean_domain] else h in
    let dns_ip := if require_dns then Some (dns_info w clean_domain h) else None in
    if require_dns && negb (dns_passes w clean_domain h) then
      (Returned
         {| vr_verified := false; vr_domain := Some clean_domain;
            vr_dns_valid := false; vr_dns_ip := None;
            vr_http_responds := false; vr_http_status := None;
            vr_server := None; vr_error := Some (dns_info w clean_domain h) |},
       self, h1)
    else if require_http then
      match domain_responds_to_http w clean_domain self h1 with
      | (Returned http, self', h') =>
          (Returned (verification_record clean_domain require_dns dns_ip (Some http)),
           self', h')
      | (Raised e, self', h') => (Raised e, self', h')
      end
    else
      (Returned (verification_record clean_domain require_dns dns_ip None), self, h1).
Proof.
  unfold clean_candidate, verify_domain.
  destruct (String.eqb_spec domain "") as [|_]; [done |].
  destruct (get_domain_from_url w domain) as [[|c clean]|]; try done.
  intros [= <-].
  remember (String c clean) as clean_domain eqn:Heq.
  assert (Hclean : clean_domain ≠ "") by (by rewrite Heq).
  clear Heq.
  destruct require_dns; cbv zeta.
  - unfold bind at 1. unfold bind at 1.
    rewrite (domain_has_dns_info w clean_domain self h Hclean).
    destruct (dns_passes w clean_domain h); simpl; [| done].
    unfold ret at 1. destruct require_http; [| done].
    unfold bind.
    destruct (domain_responds_to_http w clean_domain self _) as [[[http|e] self'] h'];
      [| done].
    by destruct http as [[[] status] info].
  - unfold bind at 1. unfold ret at 1. simpl.
    destruct require_http; [| done].
    unfold bind.
    destruct (domain_responds_to_http w clean_domain self h) as [[[http|e] self'] h'];
      [| done].
    by destruct http as [[[] status] info].
Qed.

(** [verify_domain] on a candidate without a host. *)
Lemma verify_domain_rejects (w : World) (domain : string)
    (require_dns require_http : bool) (self : DomainVerifier) (h : history) :
  clean_candidate w domain = None →
  verify_domain w domain require_dns require_http self h
  = (Returned
       {| vr_verified := false; vr_domain := Some domain; vr_dns_valid := false;
          vr_dns_ip := None; vr_http_responds := false; vr_http_status := None;
          vr_server := None;
          vr_error := Some (if String.eqb domain "" then "Empty domain"
                            else "Invalid domain format") |},
     self, h).
Proof.
  unfold clean_candidate, verify_domain.
  destruct (String.eqb domain ""); [done |].
  by destruct (get_domain_from_url w domain) as [[|c clean]|].
Qed.

(** ** The cache of a verifier *)

Lemma domain_responds_to_http_state (w : World) (domain : string)
    (self : DomainVerifier) (h : history) :
  ∃ r self' h',
    domain_responds_to_http w domain self h = (Returned r, self', h')
    ∧ retries self' = retries self
    ∧ timeout self' = timeout self
    ∧ (∀ key v, cache self !! key = Some v → cache self' !! key = Some v)
    ∧ (∀ key, key ≠ "http_check:" +:+ domain → cache self' !! key = cache self !! key)
    ∧ (cache_wf self → cache_wf self' ∧ (domain ≠ "" → stored_tuple r)).
Proof.
  destruct (decide (domain = "")) as [->|Hne].
  { exists (false, None, "Empty domain"), self, h. repeat split; try done. }
  destruct (cache self !! ("http_check:" +:+ domain)) as [cached|] eqn:Hlookup.
  - exists cached, self, h. repeat split; try done.
    + unfold domain_responds_to_http.
      destruct (String.eqb_spec domain "") as [|_]; [done |].
      unfold bind, get_state. by rewrite Hlookup.
    + intros _. by apply (H _ _ Hlookup).
  - rewrite (domain_responds_to_http_miss w domain self h Hne Hlookup). cbv zeta.
    set (o := (replay w (retries self) _ h).1).
    assert (Hshape : stored_tuple (probe_result o)).
    { destruct o as [[status server]|]; [right; by eexists _, _ | by left]. }
    eexists _, _, _. split; [reflexivity |].
    split; [done |]. split; [done |]. split; [| split].
    + intros key v Hkey. simpl. rewrite lookup_insert_ne; [done |]. congruence.
    + intros key Hkey. simpl. by rewrite lookup_insert_ne.
    + intros Hwf. split; [| done].
      intros key v. simpl.
      destruct (decide ("http_check:" +:+ domain = key)) as [<-|Hkey].
      * rewrite lookup_insert_eq. by intros [= <-].
      * rewrite lookup_insert_ne by done. apply Hwf.
Qed.

(** X3. [verify_domain] never raises, never changes the verifier's
    [retries] and [timeout], and never removes or overwrites a cache entry:
    every entry of the cache before the call is there unchanged after it,
    and the only key the call can add is "http_check:" + the candidate's
    host, and only when the HTTP check is required. *)
Theorem verify_domain_keeps_cache (w : World) (domain : string)
    (require_dns require_http : bool) (self : DomainVerifier) (h : history) :
  ∃ r self' h',
    verify_domain w domain require_dns require_http self h = (Returned r, self', h')
    ∧ retries self' = retries self
    ∧ timeout self' = timeout self
    ∧ (∀ key v, cache self !! key = Some v → cache self' !! key = Some v)
    ∧ (∀ key, cache self' !! key ≠ cache self !! key →
       require_http = true
       ∧ ∃ clean_domain,
           clean_candidate w domain = Some clean_domain
           ∧ key = "http_check:" +:+ clean_domain).
Proof.
  destruct (clean_candidate w domain) as [clean_domain|] eqn:Hclean.
  2: { rewrite (verify_domain_rejects _ _ _ _ _ _ Hclean).
       eexists _, _, _. repeat split; try done. }
  rewrite (verify_domain_run _ _ _ _ _ _ _ Hclean). cbv zeta.
  destruct (require_dns && negb (dns_passes w clean_domain h)).
  { eexists _, _, _. repeat split; try done. }
  destruct require_http.
  2: { eexists _, _, _. repeat split; try done. }
  match goal with
  | |- context [domain_responds_to_http w clean_domain self ?h1] =>
      destruct (domain_responds_to_http_state w clean_domain self h1)
        as (http & self' & h' & -> & Hretries & Htimeout & Hkeep & Hother & _)
  end.
  eexists _, _, _. split; [reflexivity |].
  split; [done |]. split; [done |]. split; [done |].
  intros key Hdiff. split; [done |]. exists clean_domain. split; [done |].
  destruct (decide (key = "http_check:" +:+ clean_domain)) as [|Hne]; [done |].
  by specialize (Hother key Hne).
Qed.

(** X4. On a verifier whose cache holds only tuples of the shape the
    prober stores (as the cache of a new verifier does), the cache keeps
    that shape, and a verified result is complete: no error, the HTTP
    status and the server are set, the domain is the candidate's host and,
    if DNS was required, [dns_valid] is set and the address recorded. An
    unverified result carries neither status nor server. *)
Theorem verified_result_complete (w : World) (domain : string)
    (require_dns require_http : bool) (self : DomainVerifier) (h : history) :
  cache_wf self →
  ∃ r self' h',
    verify_domain w domain require_dns require_http self h = (Returned r, self', h')
    ∧ cache_wf self'
    ∧ if vr_verified r then
        vr_error r = None
        ∧ vr_http_responds r = true
        ∧ is_Some (vr_http_status r)
        ∧ is_Some (vr_server r)
        ∧ vr_domain r = clean_candidate w domain
        ∧ vr_dns_valid r = require_dns
        ∧ (if require_dns then is_Some (vr_dns_ip r) else vr_dns_ip r = None)
      else
        vr_http_status r = None ∧ vr_server r = None.
Proof.
  intros Hwf.
  destruct (clean_candidate w domain) as [clean_domain|] eqn:Hclean.
  2: { rewrite (verify_domain_rejects _ _ _ _ _ _ Hclean).
       eexists _, _, _. repeat split; try done. }
  rewrite (verify_domain_run _ _ _ _ _ _ _ Hclean). cbv zeta.
  destruct (require_dns && negb (dns_passes w clean_domain h)).
  { eexists _, _, _. repeat split; try done. }
  destruct require_http.
  2: { eexists _, _, _. repeat split; try done. }
  assert (Hne : clean_domain ≠ "").
  { intros ->. unfold clean_candidate in Hclean.
    destruct (String.eqb domain ""); [done |].
    by destruct (get_domain_from_url w domain) as [[|? ?]|]. }
  match goal with
  | |- context [domain_responds_to_http w clean_domain self ?h1] =>
      destruct (domain_responds_to_http_state w clean_domain self h1)
        as (http & self' & h' & -> & _ & _ & _ & _ & Hwf')
  end.
  destruct (Hwf' Hwf) as [Hwf1 Hshape]. specialize (Hshape Hne).
  eexists _, _, _. split; [reflexivity |]. split; [done |].
  destruct Hshape as [->|(status & server & ->)]; simpl; [done |].
  repeat split; try done; by destruct require_dns.
Qed.

Lemma verified_result_complete_witness :
  cache_wf new_DomainVerifier
  ∧ ∃ r self' h',
      verify_domain Examples.live_world "example.com" true true new_DomainVerifier []
      = (Returned r, self', h')
      ∧ cache_wf self'.
Proof.
  assert (Hwf : cache_wf new_DomainVerifier).
  { intros key r Hkey. simpl in Hkey. rewrite lookup_empty in Hkey. discriminate. }
  split; [exact Hwf |].
  destruct (verified_result_complete Examples.live_world "example.com" true true
              new_DomainVerifier [] Hwf) as (r & self' & h' & Hrun & Hwf' & _).
  by exists r, self', h'.
Defined.

(** X5. When the cache already holds the HTTP result for the candidate's
    host, [verify_domain] issues no HTTP request: its only I/O is the one
    DNS lookup, if DNS is required; the verifier is unchanged, and the
    result is verified exactly when the HTTP check is required, the cached
    tuple is a success and the DNS check (if required) passes. *)
Theorem verify_domain_cached (w : World) (domain clean_domain : string)
    (require_dns require_http : bool) (self : DomainVerifier) (h : history)
    (cached : http_result) :
  clean_candidate w domain = Some clean_domain →
  cache self !! ("http_check:" +:+ clean_domain) = Some cached →
  ∃ r,
    verify_domain w domain require_dns require_http self h
    = (Returned r, self, if require_dns then h ++ [DnsLookup clean_domain] else h)
    ∧ vr_verified r
      = require_http && implb require_dns (dns_passes w clean_domain h) && cached.1.1.
Proof.
  intros Hclean Hcached.
  rewrite (verify_domain_run _ _ _ _ _ _ _ Hclean). cbv zeta.
  assert (Hhit : ∀ h1,
    domain_responds_to_http w clean_domain self h1 = (Returned cached, self, h1)).
  { intros h1. unfold domain_responds_to_http.
    destruct (String.eqb_spec clean_domain "") as [->|_].
    - unfold clean_candidate in Hclean.
      destruct (String.eqb domain ""); [done |].
      by destruct (get_domain_from_url w domain) as [[|? ?]|].
    - unfold bind, get_state. by rewrite Hcached. }
  destruct require_dns, (dns_passes w clean_domain h), require_http; simpl;
    rewrite ?Hhit; eexists; (split; [reflexivity |]);
    by destruct cached as [[[] ?] ?].
Qed.

Lemma verify_domain_cached_witness :
  clean_candidate Examples.offline_world "example.com" = Some "example.com"
  ∧ cache (cache_store "http_check:example.com" (true, Some 200, "nginx")
             new_DomainVerifier) !! ("http_check:" +:+ "example.com")
    = Some (true, Some 200, "nginx")
  ∧ ∃ r,
      verify_domain Examples.offline_world "example.com" false true
        (cache_store "http_check:example.com" (true, Some 200, "nginx")
           new_DomainVerifier) []
      = (Returned r,
         cache_store "http_check:example.com" (true, Some 200, "nginx")
           new_DomainVerifier, [])
      ∧ vr_verified r = true.
Proof.
  split; [reflexivity |]. split; [reflexivity |].
  destruct (verify_domain_cached Examples.offline_world "example.com" "example.com"
              false true
              (cache_store "http_check:example.com" (true, Some 200, "nginx")
                 new_DomainVerifier) [] (true, Some 200, "nginx") eq_refl eq_refl)
    as (r & Hrun & Hverified).
  exists r. split; [exact Hrun | exact Hverified].
Defined.

(** ** How much I/O a probe costs *)

Lemma replay_bound (w : World) (n : nat) (plan : list (string * nat)) (h : history) :
  ∃ evs,
    (replay w n plan h).2 = h ++ evs
    ∧ Forall probe_event evs
    ∧ (length (head_urls evs) ≤ length plan)%nat
    ∧ (length (List.filter is_sleep evs)
       ≤ length (List.filter (fun p => negb (Nat.eqb (S p.2) n)) plan))%nat.
Proof.
  revert h. induction plan as [|[url attempt] plan IH]; intros h.
  - exists []. simpl. rewrite app_nil_r. repeat split; try done; lia.
  - assert (Hnext : ∀ h1 evs1,
      h1 = h ++ evs1 → Forall probe_event evs1 →
      (length (head_urls evs1) ≤ 1)%nat →
      (length (List.filter is_sleep evs1)
       ≤ if negb (Nat.eqb (S attempt) n) then 1 else 0)%nat →
      ∃ evs,
        (replay w n plan h1).2 = h ++ evs
        ∧ Forall probe_event evs
        ∧ (length (head_urls evs) ≤ length ((url, attempt) :: plan))%nat
        ∧ (length (List.filter is_sleep evs)
           ≤ length (List.filter (fun p => negb (Nat.eqb (S p.2) n))
                       ((url, attempt) :: plan)))%nat).
    { intros h1 evs1 -> Hprobe Hheads Hsleeps.
      destruct (IH (h ++ evs1)) as (evs & Hh & Hp & Hl & Hs).
      exists (evs1 ++ evs). split; [by rewrite Hh, app_assoc |].
      split; [by apply Forall_app |].
      rewrite head_urls_app, List.filter_app, !length_app.
      cbn [List.filter snd].
      destruct (negb (Nat.eqb (S attempt) n)); cbn [length]; lia. }
    cbn [replay].
    destruct (requests_head w h url) as [response|e].
    + exists [HttpHead url]. simpl. rewrite !Forall_cons.
      repeat split; try done; try lia.
    + assert (Hplain : ∃ evs,
        (replay w n plan (h ++ [HttpHead url])).2 = h ++ evs
        ∧ Forall probe_event evs
        ∧ (length (head_urls evs) ≤ length ((url, attempt) :: plan))%nat
        ∧ (length (List.filter is_sleep evs)
           ≤ length (List.filter (fun p => negb (Nat.eqb (S p.2) n))
                       ((url, attempt) :: plan)))%nat).
      { apply (Hnext _ [HttpHead url]).
        - done.
        - by repeat constructor.
        - simpl. lia.
        - cbn [List.filter is_sleep length]. destruct (negb _); lia. }
      destruct (exn_cls e); try exact Hplain.
      destruct (decide (S attempt = n)) as [Hlast|Hmore]; [exact Hplain |].
      apply (Hnext _ [HttpHead url; Sleep]).
      * done.
      * by repeat constructor.
      * simpl. lia.
      * apply Nat.eqb_neq in Hmore. rewrite Hmore. simpl. lia.
Qed.

Lemma probe_schedule_length (n : nat) (url1 url2 : string) :
  length (probe_schedule n [url1; url2]) = (2 * n)%nat
  ∧ (length (List.filter (fun p => negb (Nat.eqb (S p.2) n))
               (probe_schedule n [url1; url2])) ≤ 2 * (n - 1))%nat.
Proof.
  assert (Hcount : ∀ (url : string) k a, (a + k = n)%nat →
    (length (List.filter (fun p : string * nat => negb (Nat.eqb (S p.2) n))
               ((fun attempt => (url, attempt)) <$> seq a k)) ≤ k - 1)%nat).
  { intros url k. induction k as [|k IH]; intros a Hak; [simpl; lia |].
    specialize (IH (S a) ltac:(lia)).
    rewrite <- cons_seq, fmap_cons. cbn [List.filter snd].
    destruct (Nat.eqb_spec (S a) n); cbn [negb length]; lia. }
  change (probe_schedule n [url1; url2])
    with (((fun attempt => (url1, attempt)) <$> seq 0 n)
          ++ ((fun attempt => (url2, attempt)) <$> seq 0 n) ++ []).
  rewrite app_nil_r. split.
  - rewrite length_app, !length_fmap, !length_seq. lia.
  - rewrite List.filter_app, length_app.
    pose proof (Hcount url1 n 0%nat eq_refl). pose proof (Hcount url2 n 0%nat eq_refl).
    lia.
Qed.

(** X6. One call of [domain_responds_to_http] never raises and costs at
    most [2 * retries] HEAD requests and [2 * (retries - 1)] sleeps, and
    does no other I/O, whatever the network answers. *)
Theorem probe_cost (w : World) (domain : string) (self : DomainVerifier) (h : history) :
  ∃ r self' evs,
    domain_responds_to_http w domain self h = (Returned r, self', h ++ evs)
    ∧ Forall probe_event evs
    ∧ (length (head_urls evs) ≤ 2 * retries self)%nat
    ∧ (length (List.filter is_sleep evs) ≤ 2 * (retries self - 1))%nat.
Proof.
  destruct (decide (domain = "")) as [->|Hne].
  { exists (false, None, "Empty domain"), self, []. rewrite app_nil_r.
    repeat split; try done; simpl; lia. }
  destruct (cache self !! ("http_check:" +:+ domain)) as [cached|] eqn:Hlookup.
  - exists cached, self, []. rewrite app_nil_r. repeat split; try done; simpl; try lia.
    unfold domain_responds_to_http.
    destruct (String.eqb_spec domain "") as [|_]; [done |].
    unfold bind, get_state. by rewrite Hlookup.
  - rewrite (domain_responds_to_http_miss w domain self h Hne Hlookup). cbv zeta.
    destruct (replay_bound w (retries self)
                (probe_schedule (retries self)
                   ["https://" +:+ domain; "http://" +:+ domain]) h)
      as (evs & Hh & Hprobe & Hheads & Hsleeps).
    destruct (probe_schedule_length (retries self) ("https://" +:+ domain)
                ("http://" +:+ domain)) as [Hlen Hfilter].
    rewrite Hh. eexists _, _, evs. split; [reflexivity |].
    split; [done |]. split; lia.
Qed.

(** ** [verify_multiple_domains] *)

Lemma verify_each_returns (w : World) (domains : list string)
    (self : DomainVerifier) (h : history) :
  ∃ results self' h',
    verify_each w domains self h = (Returned results, self', h')
    ∧ length results = length domains.
Proof.
  revert self h. induction domains as [|d l IH]; intros self h; simpl.
  - by exists [], self, h.
  - unfold bind at 1.
    destruct (verify_domain_returns w d true true self h) as (r & self1 & h1 & ->).
    unfold bind at 1.
    destruct (IH self1 h1) as (results & self' & h' & -> & Hlen).
    exists (r :: results), self', h'. split; [done |]. simpl. by rewrite Hlen.
Qed.

Lemma verify_multiple_loop_spec (w : World) (domains : list json)
    (verified : list VerificationResult) (self : DomainVerifier) (h : history) :
  ∃ results self' h',
    verify_each w (domain_strings domains) self h = (Returned results, self', h')
    ∧ verify_multiple_loop w domains verified self h
      = (Returned (verified ++ List.filter vr_verified results), self', h').
Proof.
  revert verified self h.
  induction domains as [|domain rest IH]; intros verified self h.
  - exists [], self, h. simpl. by rewrite app_nil_r.
  - destruct domain as [| | | |s| |]; try apply IH.
    cbn [verify_multiple_loop domain_strings].
    destruct (String.eqb s ""); [apply IH |].
    cbn [verify_each]. unfold bind.
    destruct (verify_domain_returns w s true true self h) as (r & self1 & h1 & ->).
    destruct (vr_verified r) eqn:Hv.
    + destruct (IH (verified ++ [r]) self1 h1) as (results & self' & h' & -> & ->).
      exists (r :: results), self', h'. split; [done |].
      simpl. rewrite Hv. by rewrite <- app_assoc.
    + destruct (IH verified self1 h1) as (results & self' & h' & -> & ->).
      exists (r :: results), self', h'. split; [done |].
      simpl. by rewrite Hv.
Qed.

Lemma domain_strings_length (domains : list json) :
  (length (domain_strings domains) ≤ length domains)%nat.
Proof.
  induction domains as [|[| | | |s| |] rest IH]; simpl; try lia.
  destruct (String.eqb s ""); simpl; lia.
Qed.

(** X7. [verify_multiple_domains] never raises. It skips every entry that
    is not a non-empty string, runs [verify_domain] on the others in order,
    and returns exactly the verified ones among their results, in order: so
    every returned result is verified and there are at most as many as
    entries. *)
Theorem verify_multiple_domains_filter (w : World) (domains : list json)
    (self : DomainVerifier) (h : history) :
  ∃ results self' h',
    verify_each w (domain_strings domains) self h = (Returned results, self', h')
    ∧ verify_multiple_domains w domains self h
      = (Returned (List.filter vr_verified results), self', h')
    ∧ Forall (fun r => vr_verified r = true) (List.filter vr_verified results)
    ∧ (length (List.filter vr_verified results) ≤ length domains)%nat.
Proof.
  destruct (verify_multiple_loop_spec w domains [] self h)
    as (results & self' & h' & Heach & Hloop).
  exists results, self', h'. split; [exact Heach |]. split; [exact Hloop |]. split.
  - apply Forall_forall. intros r Hr%list_elem_of_In%filter_In. tauto.
  - destruct (verify_each_returns w (domain_strings domains) self h)
      as (results' & ? & ? & Heach' & Hlen).
    rewrite Heach in Heach'. injection Heach' as <- _ _.
    pose proof (filter_length_le vr_verified results).
    pose proof (domain_strings_length domains). lia.
Qed.

(** ** The guessing step of the other crawl script, and names without a word *)

(** X8. The verification step of [verified_unlimited_crawl.py] never
    raises, whatever the company name: for a business without a website it
    tries the eight candidates "name without spaces" and "hyphenated name"
    with com, net, org, biz, in that order, stops at the first that
    verifies, and otherwise records the business as failed. *)
Theorem main_verify_order (w : World) (company_name : string)
    (self : DomainVerifier) (h : history) :
  let a := PyStr.replace_char " " "" (PyStr.lower company_name) in
  let b := PyStr.replace_char " " "-" (PyStr.lower company_name) in
  guess_candidates [a; b]
  = [ a +:+ ".com"; a +:+ ".net"; a +:+ ".org"; a +:+ ".biz";
      b +:+ ".com"; b +:+ ".net"; b +:+ ".org"; b +:+ ".biz" ]
  ∧ ∃ o self' h',
      tried_in_order w (guess_candidates [a; b]) self h o self' h'
      ∧ main_verify w company_name "" self h
        = (Returned
             match o with
             | Some result => MainVerified result
             | None => MainFailed company_name "" "No verified domain found"
             end, self', h').
Proof.
  intros a b. split; [reflexivity |].
  destruct (first_verified_tried w (guess_candidates [a; b]) self h)
    as (o & self' & h' & Hrun & Htried).
  rewrite <- pattern_loop_flat in Hrun.
  exists o, self', h'. split; [exact Htried |].
  unfold main_verify. simpl negb. cbv iota.
  unfold bind at 1. unfold ret at 1. unfold bind at 1.
  fold a b. rewrite Hrun. by destruct o.
Qed.

Lemma isspace_lower (c : ascii) : PyStr.isspace (PyStr.lower_ascii c) = PyStr.isspace c.
Proof. by destruct c as [[] [] [] [] [] [] [] []]. Qed.

Lemma all_space_lower (s : string) : all_space (PyStr.lower s) = all_space s.
Proof. induction s as [|c s IH]; simpl; [done |]. by rewrite isspace_lower, IH. Qed.

Lemma split_first_none (s : string) :
  PyStr.split_first s = None ↔ all_space s = true.
Proof.
  unfold PyStr.split_first.
  induction s as [|c s IH]; simpl; [done |].
  destruct (PyStr.isspace c); simpl; [exact IH | done].
Qed.

(** X9. Building the guess patterns of [verify_website_from_company] and
    [run_crawl] raises [IndexError] exactly when the company name has no
    word (it is empty or all whitespace); the exception is not caught: for
    such a business without a website both raise it, before any I/O.
    Otherwise there are three patterns. *)
Theorem guess_patterns_blank_name (w : World) (company_name : string)
    (self : DomainVerifier) (h : history) :
  match guess_patterns company_name with
  | Raised e =>
      all_space company_name = true
      ∧ exn_cls e = IndexError
      ∧ verify_website_from_company w company_name None h = (Raised e, h)
      ∧ run_crawl_verify w company_name "" self h = (Raised e, self, h)
  | Returned patterns =>
      all_space company_name = false ∧ length patterns = 3%nat
  end.
Proof.
  unfold guess_patterns.
  destruct (PyStr.split_first (PyStr.lower company_name)) as [first_word|] eqn:Hsplit.
  - split; [| done].
    destruct (all_space company_name) eqn:Hall; [| done].
    rewrite <- all_space_lower in Hall. apply split_first_none in Hall. congruence.
  - apply split_first_none in Hsplit as Hall. rewrite all_space_lower in Hall.
    split; [done |]. split; [done |].
    unfold verify_website_from_company, verify_website_with, run_crawl_verify,
      guess_patterns.
    rewrite Hsplit. done.
Qed.

(** ** [detect_server_info] *)

Lemma security_headers_loop_run (hdrs : string → option string) (names : list string)
    (s : ServerInfo) (h : history) :
  ∃ s',
    security_headers_loop hdrs names s h = (Returned tt, s', h)
    ∧ srv_server s' = srv_server s
    ∧ srv_version s' = srv_version s
    ∧ srv_outdated s' = srv_outdated s
    ∧ srv_framework s' = srv_framework s
    ∧ srv_powered_by s' = srv_powered_by s
    ∧ ∀ k, srv_security_headers s' !! k
           = if decide (k ∈ names)
             then match hdrs k with
                  | Some v => Some v
                  | None => srv_security_headers s !! k
                  end
             else srv_security_headers s !! k.
Proof.
  revert s. induction names as [|name names IH]; intros s.
  - exists s. repeat split; try done.
  - cbn [security_headers_loop]. unfold bind.
    assert (Hstep : ∃ s1,
      match hdrs name with
      | Some value => modify (add_security_header name value)
      | None => ret tt
      end s h = (Returned tt, s1, h)
      ∧ srv_server s1 = srv_server s ∧ srv_version s1 = srv_version s
      ∧ srv_outdated s1 = srv_outdated s ∧ srv_framework s1 = srv_framework s
      ∧ srv_powered_by s1 = srv_powered_by s
      ∧ ∀ k, srv_security_headers s1 !! k
             = if decide (k = name)
               then match hdrs k with
                    | Some v => Some v
                    | None => srv_security_headers s !! k
                    end
               else srv_security_headers s !! k).
    { destruct (hdrs name) as [value|] eqn:Hname.
      - eexists. split; [reflexivity |]. repeat split; try done.
        intros k. simpl. destruct (decide (k = name)) as [->|Hne].
        + by rewrite Hname, lookup_insert_eq.
        + by rewrite lookup_insert_ne.
      - exists s. repeat split; try done.
        intros k. destruct (decide (k = name)) as [->|Hne]; [by rewrite Hname | done]. }
    destruct Hstep as (s1 & -> & H1 & H2 & H3 & H4 & H5 & Hhdr1).
    destruct (IH s1) as (s' & -> & H1' & H2' & H3' & H4' & H5' & Hhdr').
    exists s'. split; [done |]. repeat split; try congruence.
    intros k. rewrite Hhdr', Hhdr1.
    destruct (decide (k = name)) as [Heq|Hne], (decide (k ∈ names)) as [Hin|Hnin],
      (decide (k ∈ name :: names)) as [Hin'|Hnin'];
      try done; try (by destruct (hdrs k)); exfalso;
      rewrite elem_of_cons in *; tauto.
Qed.

Lemma size_keys_bound (m : gmap string string) (names : list string) :
  (∀ k v, m !! k = Some v → k ∈ names) → (size m ≤ length names)%nat.
Proof.
  intros Hkeys.
  rewrite <- size_dom.
  transitivity (size (list_to_set names : gset string)).
  - apply subseteq_size. intros k [v Hk]%elem_of_dom.
    apply elem_of_list_to_set. by apply (Hkeys k v).
  - clear Hkeys. induction names as [|name names IH].
    + by rewrite list_to_set_nil, size_empty.
    + rewrite list_to_set_cons. cbn [length].
      pose proof (size_union_alt ({[name]} : gset string) (list_to_set names)) as Hu.
      rewrite Hu, size_singleton.
      pose proof (subseteq_size (list_to_set names ∖ {[name]} : gset string)
                    (list_to_set names)) as Hd.
      specialize (Hd ltac:(by apply subseteq_difference_l)). lia.
Qed.

Lemma detect_server_info_spec {T : Type} (w : World) (url : string) (t : T)
    (h : history) :
  ∃ r,
    detect_server_info w url t h = (Returned r, t, h ++ [HttpHead url])
    ∧ (size (srv_security_headers r) ≤ 5)%nat
    ∧ (∀ k v, srv_security_headers r !! k = Some v → k ∈ security_header_names)
    ∧ (srv_outdated r = true →
       ∃ server version,
         srv_server r = Some server
         ∧ PyStr.contains "Apache" server = true
         ∧ srv_version r = Some version
         ∧ PyStr.startswith version "2.2" = true)
    ∧ (srv_framework r = None
       ∨ (srv_framework r = Some "PHP"
          ∧ ∃ p, srv_powered_by r = Some p ∧ PyStr.contains "PHP" p = true))
    ∧ match requests_head w h url with
      | Returned response =>
          srv_server r = headers response "Server"
          ∧ srv_powered_by r = headers response "X-Powered-By"
          ∧ ∀ k, srv_security_headers r !! k
                 = if decide (k ∈ security_header_names)
                   then headers response k else None
      | Raised _ => r = default_server_info
      end.
Proof.
  assert (Hmain : ∃ r,
    detect_server_info w url t h = (Returned r, t, h ++ [HttpHead url])
    ∧ (srv_outdated r = true →
       ∃ server version,
         srv_server r = Some server
         ∧ PyStr.contains "Apache" server = true
         ∧ srv_version r = Some version
         ∧ PyStr.startswith version "2.2" = true)
    ∧ (srv_framework r = None
       ∨ (srv_framework r = Some "PHP"
          ∧ ∃ p, srv_powered_by r = Some p ∧ PyStr.contains "PHP" p = true))
    ∧ match requests_head w h url with
      | Returned response =>
          srv_server r = headers response "Server"
          ∧ srv_powered_by r = headers response "X-Powered-By"
          ∧ ∀ k, srv_security_headers r !! k
                 = if decide (k ∈ security_header_names)
                   then headers response k else None
      | Raised _ => r = default_server_info
      end).
  { unfold detect_server_info, with_local, try_except.
    unfold bind at 1. unfold perform at 1.
    destruct (requests_head w h url) as [response|e].
    2: { exists default_server_info. repeat split; try done. by left. }
    unfold bind, when, modify, ret, get_state.
    destruct (headers response "Server") as [server|] eqn:Hserver;
      [destruct (PyStr.contains "Apache" server) eqn:Hapache;
         [destruct (re_search w ApacheVersion server) as [version|] eqn:Hre;
            [destruct (PyStr.startswith version "2.2") eqn:H22 |] |] |];
      (destruct (headers response "X-Powered-By") as [p|] eqn:Hp;
         [destruct (PyStr.contains "PHP" p) eqn:Hphp |]);
      match goal with
      | |- context [security_headers_loop ?f ?n ?s ?h1] =>
          destruct (security_headers_loop_run f n s h1)
            as (s' & -> & H1 & H2 & H3 & H4 & H5 & Hhdr)
      end;
      exists s'; simpl in *; rewrite H1, H2, H3, H4, H5;
      (split; [reflexivity |]);
      (split; [first [discriminate | intros _; by eexists _, _] |]);
      (split; [first [by left | right; split; [done |]; by eexists] |]);
      (split; [done |]); (split; [done |]);
      intros k; rewrite Hhdr, lookup_empty;
      destruct (decide (k ∈ security_header_names)); try done;
      by destruct (headers response k). }
  destruct Hmain as (r & Hrun & Hout & Hfw & Hreq).
  assert (Hkeys : ∀ k v, srv_security_headers r !! k = Some v → k ∈ security_header_names).
  { intros k v Hk. destruct (requests_head w h url) as [response|e].
    - destruct Hreq as (_ & _ & Hhdr). rewrite Hhdr in Hk.
      by destruct (decide (k ∈ security_header_names)).
    - subst r. simpl in Hk. by rewrite lookup_empty in Hk. }
  exists r. split; [done |].
  split; [exact (size_keys_bound _ security_header_names Hkeys) |].
  done.
Qed.

(** X10. [detect_server_info] makes exactly one HEAD request and returns a
    struct in which: [server] and [powered_by] are the response's [Server]
    and [X-Powered-By] headers; [security_headers] holds exactly the
    headers the response has among the five security headers, so at most
    five entries; [outdated] is set only for a [Server] header that
    contains "Apache" with a version that starts with "2.2"; [framework]
    is "PHP" or nothing, and "PHP" only when [X-Powered-By] contains
    "PHP". When the request raises, the struct is the default one. *)
Theorem detect_server_info_fields {T : Type} (w : World) (url : string) (t : T)
    (h : history) :
  ∃ r,
    detect_server_info w url t h = (Returned r, t, h ++ [HttpHead url])
    ∧ (size (srv_security_headers r) ≤ 5)%nat
    ∧ (∀ k v, srv_security_headers r !! k = Some v → k ∈ security_header_names)
    ∧ (srv_outdated r = true →
       ∃ server version,
         srv_server r = Some server
         ∧ PyStr.contains "Apache" server = true
         ∧ srv_version r = Some version
         ∧ PyStr.startswith version "2.2" = true)
    ∧ (srv_framework r = None
       ∨ (srv_framework r = Some "PHP"
          ∧ ∃ p, srv_powered_by r = Some p ∧ PyStr.contains "PHP" p = true))
    ∧ match requests_head w h url with
      | Returned response =>
          srv_server r = headers response "Server"
          ∧ srv_powered_by r = headers response "X-Powered-By"
          ∧ ∀ k, srv_security_headers r !! k
                 = if decide (k ∈ security_header_names)
                   then headers response k else None
      | Raised _ => r = default_server_info
      end.
Proof. exact (detect_server_info_spec w url t h). Qed.

(** ** Reasoning about computations *)

Section hoare_rules.
Context {S : Type}.
Implicit Types (P R : S → Prop).










End hoare_rules.

(** ** [detect_wordpress] *)







(** ** [detect_other_cms] *)

(** X12. [detect_other_cms] makes exactly one GET request and never
    raises. The CMS is decided on the lower-cased page in the order Drupal,
    Joomla, Magento: the first whose keywords occur wins. A version is
    recorded only for Drupal, and [outdated] is never set. When the request
    raises, the struct is the default one. *)
Theorem detect_other_cms_fields {T : Type} (w : World) (url : string) (t : T)
    (h : history) :
  ∃ r,
    detect_other_cms w url t h = (Returned r, t, h ++ [HttpGet url])
    ∧ cms_outdated r = false
    ∧ (is_Some (cms_version r) → cms_type r = Some "Drupal")
    ∧ match requests_get w h url with
      | Returned response =>
          let content := PyStr.lower (text response) in
          let drupal :=
            PyStr.contains "drupal" content
            || PyStr.contains "sites/all/modules" content in
          let joomla :=
            PyStr.contains "joomla" content
            || PyStr.contains "administrator/index.php" content in
          let magento :=
            PyStr.contains "magento" content
            || PyStr.contains "var/log/system.log" content in
          cms_type r
          = (if drupal then Some "Drupal"
             else if joomla then Some "Joomla"
             else if magento then Some "Magento" else None)
          ∧ cms_version r = (if drupal then re_search w DrupalVersion content else None)
      | Raised _ => r = default_other_cms
      end.
Proof.
  unfold detect_other_cms, with_local, try_except.
  unfold bind at 1. unfold perform at 1.
  destruct (requests_get w h url) as [response|e].
  2: { exists default_other_cms. repeat split; try done. by intros [? [=]]. }
  cbv zeta. unfold bind, modify, ret, get_state.
  destruct (_ || _) eqn:Hdrupal;
    [destruct (re_search w DrupalVersion _) as [version|] eqn:Hre
    | destruct (PyStr.contains "joomla" _ || _) eqn:Hjoomla;
      [| destruct (PyStr.contains "magento" _ || _) eqn:Hmagento]];
    eexists; (split; [reflexivity |]); simpl; repeat split; try done;
    by intros [? [=]].
Qed.

(** ** [extract_sales_signals] *)

Lemma extract_sales_signals_spec (w : World) (tech_stack : TechStack) :
  let s := extract_sales_signals w tech_stack in
  has_outdated_server s = srv_outdated (ts_server tech_stack)
  ∧ has_outdated_cms s
    = wp_is_wordpress (ts_wordpress tech_stack)
      && wp_outdated_core (ts_wordpress tech_stack)
  ∧ has_vulnerable_plugins s
    = wp_is_wordpress (ts_wordpress tech_stack)
      && bool_decide (wp_vulnerable_plugins (ts_wordpress tech_stack) ≠ [])
  ∧ has_poor_security s
    = bool_decide (size (srv_security_headers (ts_server tech_stack)) < 3)%nat
  ∧ opportunity_score s
    = (if has_outdated_server s then 15 else 0)
      + (if has_outdated_cms s then 20 else 0)
      + (if has_vulnerable_plugins s then 25 else 0)
      + (if has_poor_security s then 10 else 0)
  ∧ length (pain_points s) = signal_count s.
Proof.
  destruct tech_stack as [[? ? outdated ? ? hdrs] [wp ? ? vuln ? ? core] ? ?].
  unfold extract_sales_signals, signal_count. simpl.
  assert (Hpoor : Nat.eqb (size hdrs) 0 || (Z.of_nat (size hdrs) <? 3)
                  = bool_decide (size hdrs < 3)%nat).
  { destruct (decide (size hdrs < 3)%nat) as [Hlt|Hge].
    - rewrite (bool_decide_eq_true_2 _ Hlt).
      destruct (Z.ltb_spec (Z.of_nat (size hdrs)) 3); [by rewrite orb_true_r | lia].
    - rewrite (bool_decide_eq_false_2 _ Hge).
      destruct (Z.ltb_spec (Z.of_nat (size hdrs)) 3); [lia |].
      destruct (Nat.eqb_spec (size hdrs) 0); [lia | done]. }
  rewrite Hpoor.
  destruct outdated, wp, core, vuln as [|v vuln], (bool_decide (size hdrs < 3)%nat);
    done.
Qed.

(** X13. The signals [extract_sales_signals] derives: the server flag is
    the stack's [outdated]; the CMS and plugin flags need a WordPress site
    (outdated core, resp. a non-empty list of vulnerable plugins); poor
    security is fewer than three security headers. The opportunity score is
    15, 20, 25 and 10 for the four flags, so between 0 and 70, and there is
    one pain point per flag. *)
Theorem extract_sales_signals_flags (w : World) (tech_stack : TechStack) :
  let s := extract_sales_signals w tech_stack in
  has_outdated_server s = srv_outdated (ts_server tech_stack)
  ∧ has_outdated_cms s
    = wp_is_wordpress (ts_wordpress tech_stack)
      && wp_outdated_core (ts_wordpress tech_stack)
  ∧ has_vulnerable_plugins s
    = wp_is_wordpress (ts_wordpress tech_stack)
      && bool_decide (wp_vulnerable_plugins (ts_wordpress tech_stack) ≠ [])
  ∧ has_poor_security s
    = bool_decide (size (srv_security_headers (ts_server tech_stack)) < 3)%nat
  ∧ opportunity_score s
    = (if has_outdated_server s then 15 else 0)
      + (if has_outdated_cms s then 20 else 0)
      + (if has_vulnerable_plugins s then 25 else 0)
      + (if has_poor_security s then 10 else 0)
  ∧ 0 ≤ opportunity_score s ≤ 70
  ∧ length (pain_points s) = signal_count s.
Proof.
  intros s.
  destruct (extract_sales_signals_spec w tech_stack) as (H1 & H2 & H3 & H4 & H5 & H6).
  fold s in H1, H2, H3, H4, H5, H6.
  repeat split; try done; rewrite H5;
    destruct (has_outdated_server s), (has_outdated_cms s),
      (has_vulnerable_plugins s), (has_poor_security s); lia.
Qed.

(** ** A site the fingerprinter cannot reach *)

Lemma analyze_tech_stack_unreachable {T : Type} (w : World) (url : string) (t : T)
    (h : history) (e1 e2 e3 : exn) :
  requests_head w h url = Raised e1 →
  requests_get w (h ++ [HttpHead url]) url = Raised e2 →
  requests_get w ((h ++ [HttpHead url]) ++ [HttpGet url]) url = Raised e3 →
  analyze_tech_stack w url t h
  = (Returned
       {| ts_server := default_server_info;
          ts_wordpress := default_wordpress_info;
          ts_other_cms := default_other_cms;
          ts_scan_timestamp :=
            now_isoformat w (((h ++ [HttpHead url]) ++ [HttpGet url]) ++ [HttpGet url]) |},
     t, ((h ++ [HttpHead url]) ++ [HttpGet url]) ++ [HttpGet url]).
Proof.
  intros H1 H2 H3.
  unfold analyze_tech_stack.
  unfold bind at 1. unfold detect_server_info, with_local, try_except.
  unfold bind at 1. unfold perform at 1. rewrite H1. unfold get_state at 1.
  unfold bind at 1. unfold detect_wordpress, with_local, try_except.
  unfold bind at 1. unfold perform at 1. rewrite H2. unfold get_state at 1.
  unfold bind at 1. unfold detect_other_cms, with_local, try_except.
  unfold bind at 1. unfold perform at 1. rewrite H3. unfold get_state at 1.
  reflexivity.
Qed.

(** X14. When the HEAD request and the two GET requests of
    [analyze_tech_stack] all raise, the tech stack is all defaults, the
    only signal is poor security (opportunity score 10), and the
    script-based scorers give a business whose name matches no exclusion
    keyword exactly 60 and MAYBE, for the missing security headers. *)
Theorem unreachable_site_scores_60 {T : Type} (w : World) (url name : string) (t : T)
    (h : history) (e1 e2 e3 : exn) :
  matches_exclusion name = false →
  requests_head w h url = Raised e1 →
  requests_get w (h ++ [HttpHead url]) url = Raised e2 →
  requests_get w ((h ++ [HttpHead url]) ++ [HttpGet url]) url = Raised e3 →
  ∃ tech_stack h',
    analyze_tech_stack w url t h = (Returned tech_stack, t, h')
    ∧ h' = h ++ [HttpHead url; HttpGet url; HttpGet url]
    ∧ ts_server tech_stack = default_server_info
    ∧ ts_wordpress tech_stack = default_wordpress_info
    ∧ ts_other_cms tech_stack = default_other_cms
    ∧ extract_sales_signals w tech_stack
      = {| has_outdated_server := false; has_outdated_cms := false;
           has_vulnerable_plugins := false; has_poor_security := true;
           opportunity_score := 10;
           pain_points := ["Missing critical security headers"] |}
    ∧ run_crawl_score name tech_stack
      = {| score := 60; recommendation := "MAYBE";
           reasons := ["Missing security headers"] |}
    ∧ main_score name tech_stack
      = {| score := 60; recommendation := "MAYBE";
           reasons := ["Missing security headers"] |}.
Proof.
  intros Hno H1 H2 H3.
  rewrite (analyze_tech_stack_unreachable w url t h e1 e2 e3 H1 H2 H3).
  eexists _, _. split; [reflexivity |].
  split; [by rewrite <- !app_assoc |].
  split; [done |]. split; [done |]. split; [done |]. split; [done |].
  unfold run_crawl_score, main_score.
  rewrite !script_score_not_excluded by exact Hno. done.
Qed.

Lemma unreachable_site_scores_60_witness :
  matches_exclusion "Joe's Cafe" = false
  ∧ ∃ tech_stack h',
      analyze_tech_stack Examples.refusing_world "joescafe.com" tt []
      = (Returned tech_stack, tt, h')
      ∧ run_crawl_score "Joe's Cafe" tech_stack
        = {| score := 60; recommendation := "MAYBE";
             reasons := ["Missing security headers"] |}.
Proof.
  split; [reflexivity |].
  destruct (unreachable_site_scores_60 Examples.refusing_world "joescafe.com"
              "Joe's Cafe" tt []
              (Examples.error ConnectionError "connection refused")
              (Examples.error ConnectionError "connection refused")
              (Examples.error ConnectionError "connection refused")
              eq_refl eq_refl eq_refl eq_refl)
    as (tech_stack & h' & Hrun & _ & _ & _ & _ & _ & Hscore & _).
  exists tech_stack, h'. split; [exact Hrun | exact Hscore].
Defined.

(** ** [assess_sales_fit]: the LLM path *)

Lemma assess_sales_fit_run {S : Type} (w : World)
    (company_name location domain : string) (osint_findings : Z)
    (tech_stack : TechStack) (sales_signals : SalesSignals) (s : S) (h : history) :
  matches_exclusion company_name = false →
  assess_sales_fit w company_name location domain osint_findings tech_stack
    sales_signals s h
  = (Returned
       (let o :=
          subprocess_run w h ["gemini"]
            (llm_prompt w company_name location domain osint_findings tech_stack
               sales_signals) in
        let heuristic :=
          let '(score, recommendation, reasons) :=
            _heuristic_score company_name location domain osint_findings
              tech_stack sales_signals in
          Scored score recommendation reasons in
        if llm_path_fails w o then heuristic
        else
          match o with
          | Returned result =>
              match json_loads w
                      (PyStr.slice (stdout result)
                         (PyStr.find_char "{" (stdout result))
                         (PyStr.rfind_char "}" (stdout result) + 1)) with
              | Returned (JObj members) =>
                  LlmAssessed
                    (default (JNum 0) (PyJson.lookup "score" members))
                    (default (JStr "EXCLUDE") (PyJson.lookup "recommendation" members))
                    (default (JArr []) (PyJson.lookup "reasons" members))
              | _ => heuristic
              end
          | Raised _ => heuristic
          end),
     s, h ++ [RunProcess ["gemini"]]).
Proof.
  intros Hno. unfold assess_sales_fit.
  rewrite keyword_filter_no_match by exact Hno.
  unfold bind at 1. unfold try_except at 1. unfold bind at 1. unfold perform at 1.
  cbv zeta. unfold llm_path_fails.
  destruct (subprocess_run w h ["gemini"] _) as [result|e].
  2: { unfold ret at 1. by destruct (_heuristic_score _ _ _ _ _ _) as [[? ?] ?]. }
  destruct (returncode result =? 0).
  2: { unfold ret at 1. by destruct (_heuristic_score _ _ _ _ _ _) as [[? ?] ?]. }
  unfold read_llm_answer, try_except.
  destruct (_ && _).
  2: { unfold ret at 1. by destruct (_heuristic_score _ _ _ _ _ _) as [[? ?] ?]. }
  unfold bind at 1. unfold of_outcome at 1.
  destruct (json_loads w _) as [[| | | | | |members]|e];
    unfold PyJson.get, of_outcome, bind, raise, ret; simpl;
    try reflexivity;
    try (by destruct (_heuristic_score _ _ _ _ _ _) as [[? ?] ?]).
  destruct (exn_cls e); by destruct (_heuristic_score _ _ _ _ _ _) as [[? ?] ?].
Qed.

(** X15. When the name matches no exclusion keyword and the LLM tool
    exits with 0 and prints a JSON object, [assess_sales_fit] returns what
    that object says, as it is: its "score", "recommendation" and
    "reasons", with 0, "EXCLUDE" and the empty list for a missing key;
    nothing is clamped or checked. *)
Theorem assess_sales_fit_llm_answer {S : Type} (w : World)
    (company_name location domain : string) (osint_findings : Z)
    (tech_stack : TechStack) (sales_signals : SalesSignals) (s : S) (h : history) :
  matches_exclusion company_name = false →
  llm_path_fails w
    (subprocess_run w h ["gemini"]
       (llm_prompt w company_name location domain osint_findings tech_stack
          sales_signals)) = false →
  ∃ result members,
    subprocess_run w h ["gemini"]
      (llm_prompt w company_name location domain osint_findings tech_stack
         sales_signals) = Returned result
    ∧ returncode result = 0
    ∧ json_loads w
        (PyStr.slice (stdout result) (PyStr.find_char "{" (stdout result))
           (PyStr.rfind_char "}" (stdout result) + 1)) = Returned (JObj members)
    ∧ assess_sales_fit w company_name location domain osint_findings tech_stack
        sales_signals s h
      = (Returned
           (LlmAssessed
              (default (JNum 0) (PyJson.lookup "score" members))
              (default (JStr "EXCLUDE") (PyJson.lookup "recommendation" members))
              (default (JArr []) (PyJson.lookup "reasons" members))),
         s, h ++ [RunProcess ["gemini"]]).
Proof.
  intros Hno Hok.
  rewrite (assess_sales_fit_run w _ _ _ _ _ _ s h Hno). cbv zeta. rewrite Hok.
  unfold llm_path_fails in Hok.
  destruct (subprocess_run w h ["gemini"] _) as [result|e]; [| done].
  destruct (Z.eqb_spec (returncode result) 0) as [Hcode|]; [| done].
  destruct (_ && _); [| done].
  destruct (json_loads w _) as [[| | | | | |members]|e] eqn:Hjson; try done.
  by exists result, members.
Qed.

Lemma assess_sales_fit_llm_answer_witness :
  matches_exclusion "Acme Plumbing" = false
  ∧ llm_path_fails llm_world
      (subprocess_run llm_world [] ["gemini"]
         (llm_prompt llm_world "Acme Plumbing" "Fort Smith, AR" "acmeplumbing.com" 0
            Examples.bare_stack Examples.bare_signals)) = false
  ∧ (assess_sales_fit llm_world "Acme Plumbing" "Fort Smith, AR" "acmeplumbing.com" 0
       Examples.bare_stack Examples.bare_signals tt []).1.1
    = Returned (LlmAssessed (JNum 85) (JStr "CONTACT") (JArr [])).
Proof.
  split; [reflexivity |]. split; [reflexivity |].
  destruct (assess_sales_fit_llm_answer (S := unit) llm_world "Acme Plumbing"
              "Fort Smith, AR" "acmeplumbing.com" 0 Examples.bare_stack
              Examples.bare_signals tt [] eq_refl eq_refl)
    as (result & members & Hrun & _ & Hjson & Hfit).
  rewrite Hfit. simpl.
  injection Hjson as <-. reflexivity.
Defined.

(** X16. [assess_sales_fit] never raises, whatever the LLM tool does, and
    its only I/O is one run of the tool, which it skips for a name that
    matches an exclusion keyword. *)
Theorem assess_sales_fit_total {S : Type} (w : World)
    (company_name location domain : string) (osint_findings : Z)
    (tech_stack : TechStack) (sales_signals : SalesSignals) (s : S) (h : history) :
  ∃ fit,
    assess_sales_fit w company_name location domain osint_findings tech_stack
      sales_signals s h
    = (Returned fit, s,
       if matches_exclusion company_name then h else h ++ [RunProcess ["gemini"]]).
Proof.
  destruct (matches_exclusion company_name) eqn:Hex.
  - destruct (exclusion_loop_match EXCLUDE_KEYWORDS (PyStr.lower company_name)
                {| score := 50; recommendation := "MAYBE"; reasons := [] |} Hex)
      as (keyword & Hfind & _).
    unfold assess_sales_fit. rewrite (keyword_filter_match _ _ _ Hfind).
    by eexists.
  - rewrite (assess_sales_fit_run w _ _ _ _ _ _ s h Hex). by eexists.
Qed.

(** ** The fallback score on derived signals *)

Lemma heuristic_reasons_length (name location domain : string) (osint_findings : Z)
    (tech_stack : TechStack) (sales_signals : SalesSignals) :
  (2 ≤ length (_heuristic_score name location domain osint_findings tech_stack
                 sales_signals).2 ≤ 7)%nat.
Proof.
  unfold _heuristic_score.
  destruct (negb (String.eqb location "") && _), (0 <? osint_findings),
    (wp_is_wordpress (ts_wordpress tech_stack)),
    (negb (Nat.eqb (length (wp_vulnerable_plugins (ts_wordpress tech_stack))) 0)),
    (wp_outdated_core (ts_wordpress tech_stack)),
    (has_poor_security sales_signals), (has_outdated_server sales_signals);
    simpl; lia.
Qed.

(** X17. Fed with the signals [extract_sales_signals] derives from the
    same tech stack, [_heuristic_score] returns a score between 15 and 215
    (it is not clamped to 100) with between two and seven reasons. *)
Theorem heuristic_score_range (w : World) (name location domain : string)
    (osint_findings : Z) (tech_stack : TechStack) :
  let '(s, _, rs) :=
    _heuristic_score name location domain osint_findings tech_stack
      (extract_sales_signals w tech_stack) in
  15 ≤ s ≤ 215 ∧ (2 ≤ length rs ≤ 7)%nat.
Proof.
  pose proof (heuristic_reasons_length name location domain osint_findings tech_stack
                (extract_sales_signals w tech_stack)) as Hlen.
  destruct (heuristic_score_spec name location domain osint_findings tech_stack
              (extract_sales_signals w tech_stack)) as (rs & Heq).
  rewrite Heq in Hlen |- *. split; [| exact Hlen].
  destruct (extract_sales_signals_spec w tech_stack) as (_ & _ & _ & _ & Hopp & _).
  unfold heuristic_total. rewrite Hopp.
  repeat match goal with
         | |- context [if ?b then _ else _] => destruct b
         end; lia.
Qed.

(** ** Phase 1 of [run_crawl] *)









(** ** Phase 0 of [run_crawl] *)

Lemma verify_domain_domain (w : World) (domain : string)
    (require_dns require_http : bool) (self : DomainVerifier) (h : history) :
  ∃ r self' h',
    verify_domain w domain require_dns require_http self h = (Returned r, self', h')
    ∧ is_Some (vr_domain r).
Proof.
  destruct (clean_candidate w domain) as [clean_domain|] eqn:Hclean.
  2: { rewrite (verify_domain_rejects _ _ _ _ _ _ Hclean). by eexists _, _, _. }
  rewrite (verify_domain_run _ _ _ _ _ _ _ Hclean). cbv zeta.
  destruct (require_dns && negb (dns_passes w clean_domain h)); [by eexists _, _, _ |].
  destruct require_http; [| by eexists _, _, _].
  match goal with
  | |- context [domain_responds_to_http w clean_domain self ?h1] =>
      destruct (domain_responds_to_http_returns w clean_domain self h1)
        as (status & info & self' & evs & ->)
  end.
  eexists _, _, _. split; [reflexivity |].
  by destruct (http_passes _ _ _ _).
Qed.

Lemma first_verified_some (w : World) (candidates : list string)
    (self self' : DomainVerifier) (h h' : history) (r : VerificationResult) :
  first_verified w candidates self h = (Returned (Some r), self', h') →
  vr_verified r = true ∧ is_Some (vr_domain r).
Proof.
  revert self h. induction candidates as [|d l IH]; intros self h; simpl; [done |].
  unfold bind.
  destruct (verify_domain_domain w d true true self h) as (r0 & self1 & h1 & -> & Hdom).
  destruct (vr_verified r0) eqn:Hv; [| apply IH].
  by intros [= <- _ _].
Qed.

Lemma run_crawl_verify_cases (w : World) (company_name website_provided : string)
    (self : DomainVerifier) (h : history) :
  match run_crawl_verify w company_name website_provided self h with
  | (Returned (Some r), _, _) => vr_verified r = true ∧ is_Some (vr_domain r)
  | (Returned None, _, _) => True
  | (Raised e, _, _) => exn_cls e = IndexError ∧ all_space company_name = true
  end.
Proof.
  assert (Hguess : ∀ self1 h1,
    match (patterns <- of_outcome (guess_patterns company_name) ;;
           pattern_loop w patterns) self1 h1 with
    | (Returned (Some r), _, _) => vr_verified r = true ∧ is_Some (vr_domain r)
    | (Returned None, _, _) => True
    | (Raised e, _, _) => exn_cls e = IndexError ∧ all_space company_name = true
    end).
  { intros self1 h1. unfold bind, of_outcome, guess_patterns.
    destruct (PyStr.split_first (PyStr.lower company_name)) as [first_word|] eqn:Hsplit.
    - rewrite pattern_loop_flat.
      destruct (first_verified w _ self1 h1) as [[[[r|]|e] self'] h'] eqn:Hrun; [| done |].
      + by apply (first_verified_some _ _ _ _ _ _ _ Hrun).
      + destruct (first_verified_returns w
                    (guess_candidates
                       [PyStr.replace_char " " "" (PyStr.lower company_name);
                        PyStr.replace_char " " "-" (PyStr.lower company_name);
                        first_word]) self1 h1) as (o & ? & ? & Hret).
        congruence.
    - split; [done |]. apply split_first_none in Hsplit.
      by rewrite all_space_lower in Hsplit. }
  unfold run_crawl_verify. unfold bind at 1.
  destruct (negb (String.eqb website_provided "")).
  - unfold bind at 1.
    destruct (verify_domain_domain w website_provided true true self h)
      as (r & self1 & h1 & -> & Hdom).
    unfold ret at 1. destruct (vr_verified r) eqn:Hv; [done | apply Hguess].
  - unfold ret at 1. apply Hguess.
Qed.

Lemma phase0_loop_spec (w : World) (businesses : list Business)
    (verified_businesses : list VerifiedBusiness) (self : DomainVerifier)
    (h : history) :
  match phase0_loop w businesses verified_businesses self h with
  | (Returned result, _, _) =>
      ∃ new,
        result = verified_businesses ++ new
        ∧ (vb_business <$> new) `sublist_of` businesses
        ∧ Forall (fun entry =>
                    vr_verified (vb_verification_result entry) = true
                    ∧ vr_domain (vb_verification_result entry)
                      = Some (vb_verified_domain entry)) new
  | (Raised e, _, _) =>
      exn_cls e = IndexError
      ∧ ∃ business, business ∈ businesses ∧ all_space (b_name business) = true
  end.
Proof.
  revert verified_businesses self h.
  induction businesses as [|business rest IH]; intros verified_businesses self h.
  - simpl. exists []. by rewrite app_nil_r.
  - cbn [phase0_loop]. unfold bind.
    pose proof (run_crawl_verify_cases w (b_name business) (b_website business) self h)
      as Hcases.
    destruct (run_crawl_verify w (b_name business) (b_website business) self h)
      as [[[[r|]|e] self1] h1].
    + specialize (IH (verified_businesses ++ [verified_entry business r]) self1 h1).
      destruct (phase0_loop w rest _ self1 h1) as [[[result|e] self'] h'].
      * destruct IH as (new & -> & Hsub & Hall).
        exists (verified_entry business r :: new).
        split; [by rewrite <- app_assoc |]. split.
        -- rewrite fmap_cons. by apply sublist_skip.
        -- constructor; [| done]. destruct Hcases as [Hv [d Hd]].
           split; [done |]. simpl. by rewrite Hd.
      * destruct IH as [Hcls (b & Hin & Hblank)]. split; [done |].
        exists b. split; [by right | done].
    + specialize (IH verified_businesses self1 h1).
      destruct (phase0_loop w rest _ self1 h1) as [[[result|e] self'] h'].
      * destruct IH as (new & -> & Hsub & Hall).
        exists new. split; [done |]. split; [by apply sublist_cons | done].
      * destruct IH as [Hcls (b & Hin & Hblank)]. split; [done |].
        exists b. split; [by right | done].
    + destruct Hcases as [Hcls Hblank]. split; [done |].
      exists business. split; [by left | done].
Qed.

Lemma phase0_percentages_spec (verified businesses : nat) :
  (0 < businesses)%nat → (verified ≤ businesses)%nat →
  ∃ p q,
    phase0_percentages verified businesses = Returned (p, q)
    ∧ 0 ≤ p ≤ 100 ∧ 0 ≤ q ≤ 100
    ∧ (p + q = 100 ∨ p + q = 99)
    ∧ (p = 100 ↔ verified = businesses).
Proof.
  intros Hpos Hle. unfold phase0_percentages.
  destruct (Nat.eqb_spec businesses 0) as [|_]; [lia |].
  remember (Z.of_nat businesses) as n eqn:Hn_def.
  remember (Z.of_nat verified) as v eqn:Hv_def.
  assert (Hn : 0 < n) by lia. assert (Hv : 0 ≤ v ≤ n) by lia.
  eexists _, _. split; [reflexivity |].
  pose proof (Z.div_mod (100 * v) n ltac:(lia)) as H1.
  pose proof (Z.mod_pos_bound (100 * v) n Hn) as H2.
  pose proof (Z.div_mod (100 * (n - v)) n ltac:(lia)) as H3.
  pose proof (Z.mod_pos_bound (100 * (n - v)) n Hn) as H4.
  remember ((100 * v) `div` n) as p eqn:Hp_def.
  remember ((100 * (n - v)) `div` n) as q eqn:Hq_def.
  remember ((100 * v) `mod` n) as r1 eqn:Hr1_def.
  remember ((100 * (n - v)) `mod` n) as r2 eqn:Hr2_def.
  clear Hp_def Hq_def Hr1_def Hr2_def.
  assert (Hp : 0 ≤ p ≤ 100) by nia.
  assert (Hq : 0 ≤ q ≤ 100) by nia.
  assert (Hsum : 99 ≤ p + q ≤ 100) by nia.
  split; [done |]. split; [done |]. split; [lia |].
  split; [intros Hp100; assert (v = n) by nia; lia | intros ->; nia].
Qed.


(** * The business data loader *)


Lemma lower_ascii_eqb_space c :
  Ascii.eqb (PyStr.lower_ascii c) " " = Ascii.eqb c " ".
Proof. by destruct c as [[] [] [] [] [] [] [] []]. Qed.






Lemma append_cons c (a b : string) : String c a +:+ b = String c (a +:+ b).
Proof. done. Qed.


Lemma string_app_assoc (a b c : string) : (a +:+ b) +:+ c = a +:+ (b +:+ c).
Proof. induction a as [|x a IH]; [done | by rewrite !append_cons, IH]. Qed.














Lemma elem_of_sorted_set x cities : x ∈ sorted_set cities <-> x ∈ cities.
Proof.
  unfold sorted_set.
  rewrite (merge_sort_Permutation pair_le (remove_dups cities)).
  apply elem_of_remove_dups.
Qed.

Lemma compare_antisym_lt s1 s2 :
  String.compare s1 s2 = Gt -> String.compare s2 s1 = Lt.
Proof. intros H. by rewrite String.compare_antisym, H. Qed.

Lemma pair_le_total : Total pair_le.
Proof.
  intros [a b] [c d]. unfold pair_le, pair_leb. cbn [fst snd].
  rewrite (String.compare_antisym c a).
  destruct (String.compare a c) eqn:Hac; cbn [CompOpp]; auto.
  apply String.leb_total.
Qed.

(** X20. [get_available_cities] lists the cities in increasing order of
    the pair (city, state) and none twice; a pair is listed exactly when
    the data directory exists and one of its file names parses to this
    pair, so a missing directory gives the empty list. The only exception
    is the one [os.listdir] raises on an existing path. *)
Theorem get_available_cities_sorted (fs : FileSystem) (data_dir : string) :
  match get_available_cities fs data_dir with
  | Returned cities =>
      Sorted pair_le cities ∧ NoDup cities
      ∧ ∀ x, x ∈ cities ↔
          path_exists fs data_dir = true
          ∧ ∃ filenames filename,
              listdir fs data_dir = Returned filenames
              ∧ filename ∈ filenames ∧ city_of_filename filename = Some x
  | Raised e => path_exists fs data_dir = true ∧ listdir fs data_dir = Raised e
  end.
Proof.
  unfold get_available_cities.
  destruct (path_exists fs data_dir); cbn [negb].
  - destruct (listdir fs data_dir) as [filenames|e]; [|done].
    split; [apply (@Sorted_merge_sort _ pair_le _ pair_le_total)|].
    split.
    { unfold sorted_set. rewrite merge_sort_Permutation. apply NoDup_remove_dups. }
    intros x. rewrite elem_of_sorted_set, list_elem_of_omap. split.
    + intros (filename & Hin & Hcity). split; [done|]. by exists filenames, filename.
    + intros (_ & filenames' & filename & [= <-] & Hin & Hcity). by exists filename.
  - split; [constructor|]. split; [constructor|].
    intros x. split; [by intros ?%elem_of_nil | by intros [? _]].
Qed.



(** ** Loading the rows *)

Lemma lstrip_head s :
  PyStr.lstrip s = "" ∨ ∃ c rest, PyStr.lstrip s = String c rest ∧ PyStr.isspace c = false.
Proof.
  induction s as [|c s IH]; [by left|].
  cbn [PyStr.lstrip]. destruct (PyStr.isspace c) eqn:Hc; [done|].
  right. by exists c, s.
Qed.

Lemma rstrip_idempotent s : PyText.rstrip (PyText.rstrip s) = PyText.rstrip s.
Proof.
  induction s as [|c s IH]; [done|].
  cbn [PyText.rstrip]. destruct (PyText.rstrip s) as [|d rest] eqn:Hrest.
  - destruct (PyStr.isspace c) eqn:Hc; [done|].
    cbn [PyText.rstrip]. by rewrite Hc.
  - cbn [PyText.rstrip] in IH |- *. by rewrite IH.
Qed.

Lemma rstrip_head c s :
  PyStr.isspace c = false → ∃ rest, PyText.rstrip (String c s) = String c rest.
Proof.
  intros Hc. cbn [PyText.rstrip]. rewrite Hc.
  destruct (PyText.rstrip s); eauto.
Qed.

Lemma strip_stripped s : stripped (PyText.strip s).
Proof.
  unfold stripped, PyText.strip.
  destruct (lstrip_head s) as [-> | (c & rest & -> & Hc)]; [done|].
  destruct (rstrip_head c rest Hc) as (rest' & Hrest).
  rewrite Hrest at 1. cbn [PyStr.lstrip]. rewrite Hc, <- Hrest.
  apply rstrip_idempotent.
Qed.

Lemma business_of_row_stripped row : stripped_business (business_of_row row).
Proof. repeat split; apply strip_stripped. Qed.

Lemma csv_field_spec row key :
  match csv_field row key with
  | Returned value => row !! key ≠ Some None ∧ value = PyText.strip (column row key)
  | Raised e => row !! key = Some None ∧ exn_cls e = AttributeError
  end.
Proof.
  unfold csv_field, column. by destruct (row !! key) as [[value|]|].
Qed.

Lemma csv_business_spec row :
  match csv_business row with
  | Returned business => short_row row = false ∧ business = business_of_row row
  | Raised e => short_row row = true ∧ exn_cls e = AttributeError
  end.
Proof.
  unfold csv_business, short_row, business_of_row, csv_columns. cbn [existsb].
  pose proof (csv_field_spec row "name") as Hname.
  pose proof (csv_field_spec row "address") as Haddress.
  pose proof (csv_field_spec row "phone") as Hphone.
  pose proof (csv_field_spec row "website") as Hwebsite.
  destruct (csv_field row "name") as [name|e].
  2: { destruct Hname as [-> ?]. by rewrite bool_decide_eq_true_2. }
  destruct Hname as [Hn ->]. rewrite (bool_decide_eq_false_2 _ Hn).
  destruct (csv_field row "address") as [address|e].
  2: { destruct Haddress as [-> ?]. by rewrite bool_decide_eq_true_2. }
  destruct Haddress as [Ha ->]. rewrite (bool_decide_eq_false_2 _ Ha).
  destruct (csv_field row "phone") as [phone|e].
  2: { destruct Hphone as [-> ?]. by rewrite bool_decide_eq_true_2. }
  destruct Hphone as [Hp ->]. rewrite (bool_decide_eq_false_2 _ Hp).
  destruct (csv_field row "website") as [website|e].
  2: { destruct Hwebsite as [-> ?]. by rewrite bool_decide_eq_true_2. }
  destruct Hwebsite as [Hw ->]. by rewrite (bool_decide_eq_false_2 _ Hw).
Qed.

Lemma csv_rows_loop_spec rows businesses :
  match csv_rows_loop rows businesses with
  | Returned result =>
      existsb short_row rows = false
      ∧ result = businesses ++ (business_of_row <$> rows)
  | Raised e => existsb short_row rows = true ∧ exn_cls e = AttributeError
  end.
Proof.
  revert businesses. induction rows as [|row rows IH]; intros businesses.
  - cbn [csv_rows_loop existsb fmap list_fmap]. by rewrite app_nil_r.
  - cbn [csv_rows_loop existsb]. pose proof (csv_business_spec row) as Hrow.
    destruct (csv_business row) as [business|e].
    + destruct Hrow as [-> ->]. cbn [orb]. specialize (IH (businesses ++ [business_of_row row])).
      destruct (csv_rows_loop rows _) as [result|e]; [|done].
      destruct IH as [-> ->]. split; [done|]. by rewrite fmap_cons, <- app_assoc.
    + destruct Hrow as [-> ?]. done.
Qed.

(** X22. [load_from_csv] on a file that exists and is read to the end:
    one short row (a row where [csv.DictReader] fills one of the four
    columns with [None]) makes the whole load return [None]; otherwise the
    result has one business per row, in the order of the file, each column
    stripped and [''] for a column the file does not have. *)
Theorem load_from_csv_rows (fs : FileSystem) (data_dir city state : string)
    (rows : list (gmap string (option string))) :
  path_exists fs (path_join data_dir (get_city_filename city state)) = true →
  read_csv fs (path_join data_dir (get_city_filename city state)) = Returned rows →
  load_from_csv fs data_dir city state =
    if existsb short_row rows then None else Some (business_of_row <$> rows).
Proof.
  intros Hexists Hread. unfold load_from_csv. cbv zeta.
  rewrite Hexists, Hread. cbn [negb].
  pose proof (csv_rows_loop_spec rows []) as Hloop.
  destruct (csv_rows_loop rows []) as [result|e].
  - by destruct Hloop as [-> ->].
  - by destruct Hloop as [-> _].
Qed.

Lemma load_from_csv_rows_witness :
  load_from_csv LoaderExamples.fs "business_data" "Fort Smith" "AR" =
    if existsb short_row [LoaderExamples.fort_smith_row] then None
    else Some (business_of_row <$> [LoaderExamples.fort_smith_row]).
Proof.
  apply (load_from_csv_rows LoaderExamples.fs "business_data" "Fort Smith" "AR"
           [LoaderExamples.fort_smith_row]); reflexivity.
Defined.

Lemma load_from_csv_stripped fs data_dir city state businesses :
  load_from_csv fs data_dir city state = Some businesses →
  Forall stripped_business businesses.
Proof.
  unfold load_from_csv. cbv zeta.
  destruct (path_exists fs _); cbn [negb]; [|done].
  destruct (read_csv fs _) as [rows|e]; [|done].
  pose proof (csv_rows_loop_spec rows []) as Hloop.
  destruct (csv_rows_loop rows []) as [result|e]; [|done].
  destruct Hloop as [_ ->]. intros [= <-]. cbn [app].
  apply Forall_fmap, Forall_true. intros row. apply business_of_row_stripped.
Qed.

(** X23. [load_businesses] prefers the CSV file and never returns an empty
    or otherwise falsy value. CSV data is returned only when it has at
    least one row, and then every field is free of white space at both
    ends; when the CSV load gives [None] or an empty list the result is the
    JSON data if that is truthy, and [None] if not. *)
Theorem load_businesses_cases (fs : FileSystem) (data_dir city state : string) :
  match load_businesses fs data_dir city state with
  | Some (LoadedCsv businesses) =>
      load_from_csv fs data_dir city state = Some businesses
      ∧ businesses ≠ []
      ∧ Forall stripped_business businesses
  | Some (LoadedJson data) =>
      (load_from_csv fs data_dir city state = None
       ∨ load_from_csv fs data_dir city state = Some [])
      ∧ load_from_json fs data_dir city state = data
      ∧ PyJson.truthy data = true
  | None =>
      (load_from_csv fs data_dir city state = None
       ∨ load_from_csv fs data_dir city state = Some [])
      ∧ PyJson.truthy (load_from_json fs data_dir city state) = false
  end.
Proof.
  unfold load_businesses.
  pose proof (load_from_csv_stripped fs data_dir city state) as Hstripped.
  destruct (load_from_csv fs data_dir city state) as [[|business businesses]|].
  - destruct (PyJson.truthy (load_from_json fs data_dir city state)) eqn:Hjson; auto.
  - split; [done|]. split; [done|]. by apply Hstripped.
  - destruct (PyJson.truthy (load_from_json fs data_dir city state)) eqn:Hjson; auto.
Qed.

Lemma all_space_stripped s : all_space s = true → stripped s → s = "".
Proof.
  intros Hspace Hstripped. rewrite <- Hstripped. unfold PyText.strip.
  assert (Hl : PyStr.lstrip s = "").
  { clear Hstripped. induction s as [|c s IH]; [done|].
    cbn [all_space] in Hspace. apply andb_prop in Hspace as [Hc Hs].
    cbn [PyStr.lstrip]. rewrite Hc. by apply IH. }
  by rewrite Hl.
Qed.

(** X24. Phase 0 of [run_crawl] on data that [load_businesses] took from
    the CSV file. If the loop returns, the two percentages of the summary
    are defined (no division by zero) and lie between 0 and 100. If it
    raises, the exception is an [IndexError] and some row of the file has an
    empty name column (after stripping). *)
Theorem run_crawl_csv_phase0 (fs : FileSystem) (w : World)
    (data_dir city state : string) (businesses : list Business)
    (self : DomainVerifier) (h : history) :
  load_businesses fs data_dir city state = Some (LoadedCsv businesses) →
  match phase0_loop w businesses [] self h with
  | (Returned verified_businesses, _, _) =>
      ∃ p q,
        phase0_percentages (length verified_businesses) (length businesses)
        = Returned (p, q)
        ∧ 0 ≤ p ≤ 100 ∧ 0 ≤ q ≤ 100
  | (Raised e, _, _) =>
      exn_cls e = IndexError
      ∧ ∃ business, business ∈ businesses ∧ b_name business = ""
  end.
Proof.
  intros Hload.
  assert (Hcsv : businesses ≠ [] ∧ Forall stripped_business businesses).
  { revert Hload. unfold load_businesses.
    pose proof (load_from_csv_stripped fs data_dir city state) as Hstripped.
    destruct (load_from_csv fs data_dir city state) as [[|business rest]|].
    - by destruct (PyJson.truthy _).
    - intros [= <-]. split; [done|]. by apply Hstripped.
    - by destruct (PyJson.truthy _). }
  destruct Hcsv as [Hne Hstripped].
  pose proof (phase0_loop_spec w businesses [] self h) as Hspec.
  destruct (phase0_loop w businesses [] self h) as [[[verified|e] self'] h'].
  - destruct Hspec as (new & -> & Hsub & _). cbn [app].
    apply sublist_length in Hsub. rewrite length_fmap in Hsub.
    destruct (phase0_percentages_spec (length new) (length businesses))
      as (p & q & Hpq & Hp & Hq & _); [destruct businesses; [done | simpl; lia] | done |].
    by exists p, q.
  - destruct Hspec as (Hcls & business & Hin & Hspace). split; [done|].
    exists business. split; [done|]. apply all_space_stripped; [done|].
    rewrite Forall_forall in Hstripped. by destruct (Hstripped business Hin).
Qed.

Lemma run_crawl_csv_phase0_witness :
  match phase0_loop Examples.offline_world
          (business_of_row <$> [LoaderExamples.fort_smith_row]) []
          new_DomainVerifier [] with
  | (Returned verified_businesses, _, _) =>
      ∃ p q,
        phase0_percentages (length verified_businesses)
          (length (business_of_row <$> [LoaderExamples.fort_smith_row]))
        = Returned (p, q)
        ∧ 0 ≤ p ≤ 100 ∧ 0 ≤ q ≤ 100
  | (Raised e, _, _) =>
      exn_cls e = IndexError
      ∧ ∃ business,
          business ∈ business_of_row <$> [LoaderExamples.fort_smith_row]
          ∧ b_name business = ""
  end.
Proof.
  apply (run_crawl_csv_phase0 LoaderExamples.fs Examples.offline_world
           "business_data" "Fort Smith" "AR"
           (business_of_row <$> [LoaderExamples.fort_smith_row])
           new_DomainVerifier []).
  reflexivity.
Defined.

(** ** The JSON file *)

Lemma startswith_csv_overlap s :
  PyStr.startswith (s +:+ ".csv") ".csv" = true →
  s = "" ∨ PyStr.startswith s ".csv" = true.
Proof.
  destruct s as [|c0 [|c1 [|c2 [|c3 s]]]]; [by left|..]; intros H; right; revert H;
    rewrite ?append_cons; change ("" +:+ ".csv") with ".csv";
    cbn [PyStr.startswith];
    repeat match goal with
           | |- context [Ascii.eqb ?a ?b] =>
               is_var b; destruct (Ascii.eqb_spec a b) as [<-|]; [|done]
           end;
    by vm_compute.
Qed.

Lemma replace_csv_suffix s :
  PyStr.contains ".csv" s = false →
  PyText.replace ".csv" ".json" (s +:+ ".csv") = s +:+ ".json".
Proof.
  unfold PyText.replace. induction s as [|c s IH]; [done|].
  intros Hs. cbn [PyStr.contains] in Hs. apply orb_false_elim in Hs as [Hhead Hs].
  rewrite !append_cons.
  change (PyText.replace_go ".csv" ".json" 0 (String c (s +:+ ".csv")))
    with (if PyStr.startswith (String c (s +:+ ".csv")) ".csv"
          then ".json" +:+ PyText.replace_go ".csv" ".json" 3 (s +:+ ".csv")
          else String c (PyText.replace_go ".csv" ".json" 0 (s +:+ ".csv"))).
  destruct (PyStr.startswith (String c (s +:+ ".csv")) ".csv") eqn:Hov.
  - rewrite <- append_cons in Hov.
    apply startswith_csv_overlap in Hov as [? | Hov]; [done | congruence].
  - by rewrite IH.
Qed.

(** X25. When the base of the file name (the two slugs joined by an
    underscore) does not contain ".csv", the CSV file and the JSON file of a
    city differ in the extension only: [load_from_json] looks for the base
    followed by ".json", and returns its content, or [None] when the file is
    missing or cannot be read. *)
Theorem load_from_json_path (fs : FileSystem) (data_dir city state : string) :
  PyStr.contains ".csv" (city_base city state) = false →
  get_city_filename city state = city_base city state +:+ ".csv"
  ∧ load_from_json fs data_dir city state =
      let filepath := path_join data_dir (city_base city state +:+ ".json") in
      if path_exists fs filepath then
        match read_json fs filepath with
        | Returned data => data
        | Raised _ => JNull
        end
      else JNull.
Proof.
  intros Hbase.
  assert (Hname : get_city_filename city state = city_base city state +:+ ".csv").
  { unfold get_city_filename, city_base. by rewrite !string_app_assoc. }
  split; [done|].
  unfold load_from_json. cbv zeta.
  rewrite Hname, (replace_csv_suffix _ Hbase).
  by destruct (path_exists fs _).
Qed.

Lemma load_from_json_path_witness :
  get_city_filename "Fort Smith" "AR" = city_base "Fort Smith" "AR" +:+ ".csv"
  ∧ load_from_json LoaderExamples.fs "business_data" "Fort Smith" "AR" =
      let filepath := path_join "business_data" (city_base "Fort Smith" "AR" +:+ ".json") in
      if path_exists LoaderExamples.fs filepath then
        match read_json LoaderExamples.fs filepath with
        | Returned data => data
        | Raised _ => JNull
        end
      else JNull.
Proof.
  apply (load_from_json_path LoaderExamples.fs "business_data" "Fort Smith" "AR").
  reflexivity.
Defined.
